(** * RestartManager: a shallow embedding of [src/src/restartmanager.py]

    The restart orchestrator of the Palworld server is a Python class whose
    methods talk to four collaborators: the wall clock, the docker container,
    the RCON console and a Discord webhook.  The embedding below keeps the
    methods as they are written and makes the collaborators explicit:

    - the environment is a [World] of oracles, one per collaborator call;
    - the instance attributes live in a [State] record, together with the
      number of calls made so far to each oracle;
    - a method is a function [State -> result * State * list event], written
      in a small exception monad with Python-like [try_except];
    - every externally visible action (sleep, log call, console call,
      container restart, webhook post) is recorded as an [event]. *)

From Stdlib Require Import ZArith List String Ascii Bool Lia.
From Stdlib Require Import Strings.Byte DecimalString Sorting.Sorted.
Import ListNotations.

Local Open Scope string_scope.
Local Open Scope Z_scope.
Local Open Scope list_scope.

Local Infix "+++" := String.append (right associativity, at level 60).

(** ** Python values used by the module *)

(** A [bytes] object. *)
Definition bytes := list byte.

Module PyBytes.

(** [b"..."] literals. *)
Definition lit (s : string) : bytes := list_byte_of_string s.

Fixpoint startswith (p l : bytes) : bool :=
  match p, l with
  | [], _ => true
  | _ :: _, [] => false
  | a :: p', b :: l' => Byte.eqb a b && startswith p' l'
  end.

(** [needle in hay] on bytes: [needle] occurs as a contiguous run. *)
Fixpoint contains (needle hay : bytes) : bool :=
  startswith needle hay ||
  match hay with
  | [] => false
  | _ :: t => contains needle t
  end.

(** ASCII whitespace as [bytes.strip()] understands it:
    space, tab, newline, carriage return, vertical tab, form feed. *)
Definition isspace (b : byte) : bool :=
  match b with
  | x20 | x09 | x0a | x0d | x0b | x0c => true
  | _ => false
  end.

Fixpoint lstrip (l : bytes) : bytes :=
  match l with
  | [] => []
  | b :: t => if isspace b then lstrip t else l
  end.

Definition rstrip (l : bytes) : bytes := rev (lstrip (rev l)).

Definition strip (l : bytes) : bytes := rstrip (lstrip l).

End PyBytes.

(** [str(n)] for a Python int. *)
Definition str_of_int (n : Z) : string := NilZero.string_of_int (Z.to_int n).

(** An instance attribute holding an int or [None], as it prints in an
    f-string and as it compares with [== 1]. *)
Definition fmt_attr (v : option Z) : string :=
  match v with
  | Some n => str_of_int n
  | None => "None"
  end.

Definition attr_is_one (v : option Z) : bool :=
  match v with
  | Some n => n =? 1
  | None => false
  end.

(** An exception of class [Exception]: its class name and [str(exc)]. *)
Inductive exn : Type := Exn (cls msg : string).

Definition str_of_exn (e : exn) : string := let 'Exn _ m := e in m.

(** What [None.command] raises. *)
Definition AttributeError_command : exn :=
  Exn "AttributeError" "'NoneType' object has no attribute 'command'".

(** What reading [self.next_start] raises before [__init__] has set it. *)
Definition AttributeError_next_start : exn :=
  Exn "AttributeError" "'RestartManager' object has no attribute 'next_start'".

(** ** Module constants (lines 18-27) *)

Record Config : Type := {
  RCON_IP : option string;
  RCON_PORT : option string;
  RCON_PASSWORD : option string;
  DOCKER_CONTAINER : option string;
  WEBHOOK : option string;
  LOG_LEVEL : option string
}.

Definition RESTART_TIME : Z := 2.   (* hours *)
Definition NOTIFY_TIME : Z := 20.   (* minutes *)
Definition MAX_RETRIES : nat := 100.
Definition RETRY_DELAY : Z := 3.

(** [datetime] values are microseconds since an arbitrary origin and
    [timedelta] values are microseconds, both exact integers as in Python. *)
Definition us_per_second : Z := 1000000.
Definition timedelta_hours (h : Z) : Z := h * 3600 * us_per_second.

(** [int(td.total_seconds())]: [total_seconds] is the correctly rounded
    quotient by 10**6 and [int] truncates towards zero.  The double rounding
    cannot reach an integer while the span is below 2**32 seconds, so on that
    range the result is the truncated integer quotient. *)
Definition int_total_seconds (td : Z) : Z := Z.quot td us_per_second.

(** ** Events *)

Inductive level : Type := DEBUG | INFO | WARNING | ERROR | CRITICAL.

Inductive logmsg : Type :=
| MsgStr (s : string)
| MsgBytes (b : bytes).

Inductive event : Type :=
| EvSleep (secs : Z)
    (* time.sleep(secs) *)
| EvLog (lvl : level) (msg : logmsg)
    (* log.debug / log.info / log.error *)
| EvConnect (kwargs : list (string * option string))
    (* Console(k1=v1, k2=v2, ...) with these keyword arguments *)
| EvCommand (target : option nat) (cmd : string)
    (* self.rcon.command(cmd) with self.rcon = target; target None is the
       attribute lookup on None, which raises before anything is sent *)
| EvContainerRestart
    (* self.container.restart() *)
| EvDiscord (description color : string).
    (* webhook.execute() with the embed built by log_to_discord *)

(** ** The environment *)

Record World : Type := {
  (* k-th call of datetime.datetime.now() *)
  now_at : nat -> Z;
  (* k-th read of container.status *)
  status_at : nat -> string;
  (* k-th call of Console(...): None when it returns a console *)
  connect_at : nat -> option exn;
  (* k-th call of console.command(cmd) on console number c *)
  command_at : nat -> nat -> string -> string + exn;
  (* k-th call of container.restart() *)
  restart_at : nat -> option exn;
  (* i-th line of the k-th container.logs(stream=True); None when the
     generator is exhausted *)
  logs_at : nat -> nat -> option bytes;
  (* k-th call of webhook.execute() *)
  discord_at : nat -> option exn
}.

(** ** The instance *)

Record State : Type := {
  rcon : option nat;         (* self.rcon: None or the console's number *)
  next_start : option Z;     (* self.next_start, unset before __init__ *)
  hours : option Z;
  minutes : option Z;
  seconds : option Z;
  n_now : nat;
  n_status : nat;
  n_connect : nat;
  n_command : nat;
  n_restart : nat;
  n_logs : nat;
  n_discord : nat
}.

(** The object [__new__] returns the first time: [rcon = None], nothing
    else set, no collaborator called yet. *)
Definition fresh : State :=
  {| rcon := None; next_start := None;
     hours := None; minutes := None; seconds := None;
     n_now := 0; n_status := 0; n_connect := 0; n_command := 0;
     n_restart := 0; n_logs := 0; n_discord := 0 |}.

Definition set_rcon (v : option nat) (s : State) : State :=
  {| rcon := v; next_start := next_start s;
     hours := hours s; minutes := minutes s; seconds := seconds s;
     n_now := n_now s; n_status := n_status s; n_connect := n_connect s;
     n_command := n_command s; n_restart := n_restart s;
     n_logs := n_logs s; n_discord := n_discord s |}.

Definition set_next_start (v : Z) (s : State) : State :=
  {| rcon := rcon s; next_start := Some v;
     hours := hours s; minutes := minutes s; seconds := seconds s;
     n_now := n_now s; n_status := n_status s; n_connect := n_connect s;
     n_command := n_command s; n_restart := n_restart s;
     n_logs := n_logs s; n_discord := n_discord s |}.

Definition set_hms (h m sec : option Z) (s : State) : State :=
  {| rcon := rcon s; next_start := next_start s;
     hours := h; minutes := m; seconds := sec;
     n_now := n_now s; n_status := n_status s; n_connect := n_connect s;
     n_command := n_command s; n_restart := n_restart s;
     n_logs := n_logs s; n_discord := n_discord s |}.

Definition tick_now (s : State) : State :=
  {| rcon := rcon s; next_start := next_start s;
     hours := hours s; minutes := minutes s; seconds := seconds s;
     n_now := S (n_now s); n_status := n_status s; n_connect := n_connect s;
     n_command := n_command s; n_restart := n_restart s;
     n_logs := n_logs s; n_discord := n_discord s |}.

Definition tick_status (s : State) : State :=
  {| rcon := rcon s; next_start := next_start s;
     hours := hours s; minutes := minutes s; seconds := seconds s;
     n_now := n_now s; n_status := S (n_status s); n_connect := n_connect s;
     n_command := n_command s; n_restart := n_restart s;
     n_logs := n_logs s; n_discord := n_discord s |}.

Definition tick_connect (s : State) : State :=
  {| rcon := rcon s; next_start := next_start s;
     hours := hours s; minutes := minutes s; seconds := seconds s;
     n_now := n_now s; n_status := n_status s; n_connect := S (n_connect s);
     n_command := n_command s; n_restart := n_restart s;
     n_logs := n_logs s; n_discord := n_discord s |}.

Definition tick_command (s : State) : State :=
  {| rcon := rcon s; next_start := next_start s;
     hours := hours s; minutes := minutes s; seconds := seconds s;
     n_now := n_now s; n_status := n_status s; n_connect := n_connect s;
     n_command := S (n_command s); n_restart := n_restart s;
     n_logs := n_logs s; n_discord := n_discord s |}.

Definition tick_restart (s : State) : State :=
  {| rcon := rcon s; next_start := next_start s;
     hours := hours s; minutes := minutes s; seconds := seconds s;
     n_now := n_now s; n_status := n_status s; n_connect := n_connect s;
     n_command := n_command s; n_restart := S (n_restart s);
     n_logs := n_logs s; n_discord := n_discord s |}.

Definition tick_logs (s : State) : State :=
  {| rcon := rcon s; next_start := next_start s;
     hours := hours s; minutes := minutes s; seconds := seconds s;
     n_now := n_now s; n_status := n_status s; n_connect := n_connect s;
     n_command := n_command s; n_restart := n_restart s;
     n_logs := S (n_logs s); n_discord := n_discord s |}.

Definition tick_discord (s : State) : State :=
  {| rcon := rcon s; next_start := next_start s;
     hours := hours s; minutes := minutes s; seconds := seconds s;
     n_now := n_now s; n_status := n_status s; n_connect := n_connect s;
     n_command := n_command s; n_restart := n_restart s;
     n_logs := n_logs s; n_discord := S (n_discord s) |}.

(** ** The monad of methods *)

Inductive result (A : Type) : Type :=
| Ok (a : A)          (* the call returned a *)
| Raise (e : exn)     (* the call raised e *)
| OutOfFuel.          (* the call was still running when the fuel ran out *)

Arguments Ok {A} a.
Arguments Raise {A} e.
Arguments OutOfFuel {A}.

Definition M (A : Type) : Type := State -> result A * State * list event.

Definition ret {A} (a : A) : M A := fun s => (Ok a, s, []).

Definition raise {A} (e : exn) : M A := fun s => (Raise e, s, []).

Definition out_of_fuel {A} : M A := fun s => (OutOfFuel, s, []).

Definition bind {A B} (m : M A) (k : A -> M B) : M B :=
  fun s =>
    match m s with
    | (Ok a, s1, e1) =>
        match k a s1 with
        | (r, s2, e2) => (r, s2, e1 ++ e2)
        end
    | (Raise e, s1, e1) => (Raise e, s1, e1)
    | (OutOfFuel, s1, e1) => (OutOfFuel, s1, e1)
    end.

(** [try: body  except Exception as exc: handler exc].  Attribute writes and
    events of the body stay when it raises. *)
Definition try_except {A} (body : M A) (handler : exn -> M A) : M A :=
  fun s =>
    match body s with
    | (Raise e, s1, e1) =>
        match handler e s1 with
        | (r, s2, e2) => (r, s2, e1 ++ e2)
        end
    | other => other
    end.

Declare Scope py_scope.
Delimit Scope py_scope with py.
Notation "x <- m ;; k" := (bind m (fun x => k))
  (at level 100, m at next level, right associativity) : py_scope.
Notation "m ;; k" := (bind m (fun _ => k))
  (at level 100, right associativity) : py_scope.
Local Open Scope py_scope.

Definition get {A} (f : State -> A) : M A := fun s => (Ok (f s), s, []).
Definition modify (f : State -> State) : M unit := fun s => (Ok tt, f s, []).
Definition emit (e : event) : M unit := fun s => (Ok tt, s, [e]).

Definition result_of {A} (x : result A * State * list event) : result A := fst (fst x).
Definition state_of {A} (x : result A * State * list event) : State := snd (fst x).
Definition events_of {A} (x : result A * State * list event) : list event := snd x.

(** ** The methods of [RestartManager] *)

Definition last_message : bytes :=
  PyBytes.lit "[S_API FAIL] Tried to access Steam interface SteamNetworkingUtils004 before SteamAPI_Init succeeded.".

Definition color_map : list (string * string) :=
  [("debug", "FFFFFF"); ("info", "00FF00"); ("error", "FF0000"); ("critical", "800000")].

(** [d.get(k, default)] *)
Definition dict_get (d : list (string * string)) (k default : string) : string :=
  match find (fun p => String.eqb (fst p) k) d with
  | Some p => snd p
  | None => default
  end.

Section Methods.

Variable w : World.
Variable cfg : Config.

(** *** Collaborator calls *)

Definition sleep (secs : Z) : M unit := emit (EvSleep secs).

Definition log (lvl : level) (msg : logmsg) : M unit := emit (EvLog lvl msg).

Definition datetime_now : M Z :=
  fun s => (Ok (now_at w (n_now s)), tick_now s, []).

Definition container_status : M string :=
  fun s => (Ok (status_at w (n_status s)), tick_status s, []).

Definition Console (kwargs : list (string * option string)) : M nat :=
  fun s =>
    match connect_at w (n_connect s) with
    | None => (Ok (n_connect s), tick_connect s, [EvConnect kwargs])
    | Some e => (Raise e, tick_connect s, [EvConnect kwargs])
    end.

(** [self.rcon.command(cmd)] *)
Definition rcon_command (cmd : string) : M string :=
  fun s =>
    match rcon s with
    | None => (Raise AttributeError_command, s, [EvCommand None cmd])
    | Some c =>
        match command_at w (n_command s) c cmd with
        | inl resp => (Ok resp, tick_command s, [EvCommand (Some c) cmd])
        | inr e => (Raise e, tick_command s, [EvCommand (Some c) cmd])
        end
    end.

Definition container_restart : M unit :=
  fun s =>
    match restart_at w (n_restart s) with
    | None => (Ok tt, tick_restart s, [EvContainerRestart])
    | Some e => (Raise e, tick_restart s, [EvContainerRestart])
    end.

(** [self.container.logs(stream=True)]: the number of the new stream. *)
Definition container_logs : M nat :=
  fun s => (Ok (n_logs s), tick_logs s, []).

Definition webhook_execute (description color : string) : M unit :=
  fun s =>
    match discord_at w (n_discord s) with
    | None => (Ok tt, tick_discord s, [EvDiscord description color])
    | Some e => (Raise e, tick_discord s, [EvDiscord description color])
    end.

(** *** Lines 153-167 *)
Definition log_to_discord (log_message lvl : string) : M unit :=
  let color := dict_get color_map lvl "FFFFFF" in
  webhook_execute log_message color.

(** *** Lines 72-74 *)
Definition _set_new_restart_time : M unit :=
  t <- datetime_now ;;
  modify (set_next_start (t + timedelta_hours RESTART_TIME)) ;;
  log DEBUG (MsgStr "new time has been set").

(** *** Lines 76-81 *)
Definition _calculate_restart_time : M unit :=
  ns <- get next_start ;;
  match ns with
  | None => raise AttributeError_next_start
  | Some next =>
      t <- datetime_now ;;
      let time_remaining := next - t in
      let total_seconds := int_total_seconds time_remaining in
      let h := total_seconds / 3600 in
      let remainder := total_seconds mod 3600 in
      let m := remainder / 60 in
      let sec := remainder mod 60 in
      modify (set_hms (Some h) (Some m) (Some sec))
  end.

(** *** Lines 114-116 *)
Definition _is_container_running : M bool :=
  status <- container_status ;;
  ret (String.eqb status "running").

(** *** Lines 126-132 *)
Definition _is_rcon_connected : M bool :=
  try_except
    (_ <- rcon_command "info" ;; ret true)
    (fun _ => ret false).

(** *** Lines 134-151.  The loop variable [retries] only ever decreases by
    one, on the failure path; the success path leaves the method. *)
Fixpoint _create_rcon_connection_from (retries : nat) : M unit :=
  match retries with
  | O => ret tt
  | S retries' =>
      try_except
        (c <- Console [("host", RCON_IP cfg); ("password", RCON_PASSWORD cfg)] ;;
         modify (set_rcon (Some c)) ;;
         _ <- rcon_command "info" ;;
         log INFO (MsgStr "RCON connection successfully established."))
        (fun exc =>
           log ERROR (MsgStr ("Failed to establish RCON connection: " +++ str_of_exn exc)) ;;
           if (0 <? retries')%nat then
             log INFO (MsgStr ("Retrying to connect... attempts remaining: "
                               +++ str_of_int (Z.of_nat retries'))) ;;
             sleep RETRY_DELAY ;;
             _create_rcon_connection_from retries'
           else
             log ERROR (MsgStr "Max retries reached. Unable to establish RCON connection.") ;;
             raise exc)
  end.

Definition _create_rcon_connection : M unit :=
  _create_rcon_connection_from MAX_RETRIES.

(** *** Lines 118-124 *)
Definition _establish_rcon_connection : M unit :=
  running <- _is_container_running ;;
  if negb running then
    log ERROR (MsgStr "Container not running. Cannot establish RCON connection.")
  else
    r <- get rcon ;;
    stale <- match r with
             | None => ret true
             | Some _ => c <- _is_rcon_connected ;; ret (negb c)
             end ;;
    if (stale : bool) then _create_rcon_connection else ret tt.

(** *** Lines 94-102 *)
Definition _broadcast (message : string) : M (option string) :=
  _establish_rcon_connection ;;
  try_except
    (cmd <- rcon_command ("broadcast " +++ message) ;;
     log INFO (MsgStr cmd) ;;
     ret (Some cmd))
    (fun exc =>
       log ERROR (MsgStr ("Failed to broadcast message: " +++ str_of_exn exc)) ;;
       ret None).

(** *** Lines 104-112 *)
Definition _command (command : string) : M (option string) :=
  _establish_rcon_connection ;;
  try_except
    (cmd <- rcon_command command ;;
     log INFO (MsgStr cmd) ;;
     ret (Some cmd))
    (fun exc =>
       log ERROR (MsgStr ("Failed to execute command: " +++ str_of_exn exc)) ;;
       ret None).

(** *** Lines 83-92.  [countdown_from k] is the [while count >= 0] loop
    entered with [count = k - 1]; the method enters it with [count = 5]. *)
Fixpoint countdown_from (k : nat) : M unit :=
  match k with
  | O => ret tt
  | S count =>
      (if (0 <? count)%nat then
         _broadcast ("server_restarting_in_" +++ str_of_int (Z.of_nat count) +++ "_secs")
       else
         _broadcast "server_restarting_NOW!") ;;
      sleep 1 ;;
      countdown_from count
  end.

Definition _init_countdown : M unit :=
  countdown_from 6 ;;
  sleep 2.

(** *** Lines 66-70 *)
Definition notify_restart : M unit :=
  _calculate_restart_time ;;
  h <- get hours ;;
  m <- get minutes ;;
  let proper_hrs := if attr_is_one h then "hr" else "hrs" in
  let proper_mins := if attr_is_one m then "min" else "mins" in
  _broadcast ("server_restart_in_" +++ fmt_attr h +++ proper_hrs +++ "_"
              +++ fmt_attr m +++ proper_mins) ;;
  ret tt.

(** *** Lines 57-60: the [for line in stream] loop, entered at line [i] of
    stream [k].  One unit of fuel pays for one [next()] on the generator. *)
Fixpoint readiness_loop (fuel : nat) (k i : nat) : M unit :=
  match fuel with
  | O => out_of_fuel
  | S fuel' =>
      match logs_at w k i with
      | None => ret tt
      | Some line =>
          log INFO (MsgBytes (PyBytes.strip line)) ;;
          if PyBytes.contains last_message line then ret tt
          else readiness_loop fuel' k (S i)
      end
  end.

(** *** Lines 51-64 *)
Definition restart (fuel : nat) : M unit :=
  _init_countdown ;;
  _ <- _command "save" ;;
  log_to_discord "Server restarting..." "info" ;;
  container_restart ;;
  stream <- container_logs ;;
  readiness_loop fuel stream 0 ;;
  _set_new_restart_time ;;
  _calculate_restart_time ;;
  log_to_discord "Server restarted!" "info" ;;
  log INFO (MsgStr "Server restarted!").

(** *** Lines 40-49, first construction.  [docker.from_env()] and
    [containers.get] bind the container handle the [World] stands for;
    the body runs only while the instance has no [initialized] attribute. *)
Definition __init__ : M unit :=
  modify (set_hms None None None) ;;
  _set_new_restart_time ;;
  _calculate_restart_time.

(** *** Lines 32-49: [RestartManager()] returns the one instance,
    constructing it on first use ([instance = None]). *)
Definition RestartManager_call (instance : option State) : result unit * State * list event :=
  match instance with
  | None => __init__ fresh
  | Some s => (Ok tt, s, [])
  end.

End Methods.

(** ** Reading a run *)

(** [s.removeprefix(p)] when [s] starts with [p], else [None]. *)
Fixpoint strip_prefix (p s : string) : option string :=
  match p, s with
  | EmptyString, _ => Some s
  | String a p', String b s' => if Ascii.eqb a b then strip_prefix p' s' else None
  | String _ _, EmptyString => None
  end.

(** What the players and the clock see of a run: the broadcast commands
    handed to the console, and the sleeps. *)
Inductive beat : Type :=
| Bcast (message : string)
| Wait (secs : Z).

Definition beat_of (e : event) : list beat :=
  match e with
  | EvCommand _ cmd =>
      match strip_prefix "broadcast " cmd with
      | Some m => [Bcast m]
      | None => []
      end
  | EvSleep z => [Wait z]
  | _ => []
  end.

Definition timeline (evs : list event) : list beat := flat_map beat_of evs.

Definition beats_broadcasts (tl : list beat) : list string :=
  flat_map (fun b => match b with Bcast m => [m] | Wait _ => [] end) tl.

Definition beats_waits (tl : list beat) : list Z :=
  flat_map (fun b => match b with Bcast _ => [] | Wait z => [z] end) tl.

Definition broadcasts_of (evs : list event) : list string :=
  beats_broadcasts (timeline evs).

Definition sleeps_of (evs : list event) : list Z :=
  beats_waits (timeline evs).

(** Total sleep from the head of a timeline up to its next broadcast. *)
Fixpoint wait_before_next (tl : list beat) : Z :=
  match tl with
  | [] => 0
  | Bcast _ :: _ => 0
  | Wait z :: t => z + wait_before_next t
  end.

(** For each broadcast of a timeline, the total sleep that follows it up to
    the next broadcast (or up to the end, for the last one). *)
Fixpoint waits_after_broadcasts (tl : list beat) : list Z :=
  match tl with
  | [] => []
  | Bcast _ :: t => wait_before_next t :: waits_after_broadcasts t
  | Wait _ :: t => waits_after_broadcasts t
  end.

(** The keyword arguments of every [Console(...)] call of a run. *)
Definition connects_of (evs : list event) : list (list (string * option string)) :=
  flat_map (fun e => match e with EvConnect kw => [kw] | _ => [] end) evs.

(** Connection attempts and sleeps of a run, in order. *)
Inductive retry_mark : Type := Attempt | Pause (secs : Z).

Definition retry_marks (evs : list event) : list retry_mark :=
  flat_map (fun e => match e with
                     | EvConnect _ => [Attempt]
                     | EvSleep z => [Pause z]
                     | _ => []
                     end) evs.

(** [n] attempts with one pause of [d] between consecutive ones. *)
Fixpoint attempts_with_pauses (n : nat) (d : Z) : list retry_mark :=
  match n with
  | O => []
  | S O => [Attempt]
  | S n' => Attempt :: Pause d :: attempts_with_pauses n' d
  end.

(** The messages logged at [ERROR]. *)
Definition errors_of (evs : list event) : list logmsg :=
  flat_map (fun e => match e with EvLog ERROR m => [m] | _ => [] end) evs.

Definition countdown_messages : list string :=
  ["server_restarting_in_5_secs"; "server_restarting_in_4_secs";
   "server_restarting_in_3_secs"; "server_restarting_in_2_secs";
   "server_restarting_in_1_secs"; "server_restarting_NOW!"].

Definition max_retries_log : event :=
  EvLog ERROR (MsgStr "Max retries reached. Unable to establish RCON connection.").

Definition not_running_log : event :=
  EvLog ERROR (MsgStr "Container not running. Cannot establish RCON connection.").

(** The clock reading a call of [datetime.now()] would get in state [s]. *)
Definition current_time (w : World) (s : State) : Z := now_at w (n_now s).

(** Lexicographic order on (hours, minutes, seconds). *)
Definition hms_le (a b : Z * Z * Z) : Prop :=
  let '(h1, m1, s1) := a in
  let '(h2, m2, s2) := b in
  h1 < h2 \/ (h1 = h2 /\ (m1 < m2 \/ (m1 = m2 /\ s1 <= s2))).

Definition hms_of (s : State) : option (Z * Z * Z) :=
  match hours s, minutes s, seconds s with
  | Some h, Some m, Some sec => Some (h, m, sec)
  | _, _, _ => None
  end.

(** ** Some concrete environments *)

Definition junk_line (n : nat) : bytes :=
  PyBytes.lit ("[" +++ str_of_int (Z.of_nat n) +++ "] LogPalworld: tick") ++ [x0a].

Definition sentinel_line : bytes :=
  PyBytes.lit "[2024.02.01] " ++ last_message ++ [x0d; x0a].

(** Readings [clock] in order, then [later] for ever. *)
Definition clock_of (clock : list Z) (later : Z) : nat -> Z :=
  fun k => nth k clock later.

Definition world_of (clock : nat -> Z) (status : string)
    (connect : nat -> option exn)
    (command : nat -> nat -> string -> string + exn)
    (logs : nat -> option bytes) : World :=
  {| now_at := clock;
     status_at := fun _ => status;
     connect_at := connect;
     command_at := command;
     restart_at := fun _ => None;
     logs_at := fun _ => logs;
     discord_at := fun _ => None |}.

Definition always_ok : nat -> nat -> string -> string + exn :=
  fun _ _ _ => inl "ok".

Definition refused : exn := Exn "ConnectionRefusedError" "[Errno 111] Connection refused".

Definition some_cfg : Config :=
  {| RCON_IP := Some "10.0.0.5"; RCON_PORT := Some "25575";
     RCON_PASSWORD := Some "hunter2"; DOCKER_CONTAINER := Some "palworld";
     WEBHOOK := Some "https://discord.invalid/hook"; LOG_LEVEL := Some "INFO" |}.

(** Ten unrelated lines, then the sentinel line, then more output. *)
Definition stream_10_then_sentinel : nat -> option bytes :=
  fun i => if (i <? 10)%nat then Some (junk_line i)
           else if (i =? 10)%nat then Some sentinel_line
           else Some (junk_line i).

(** Two unrelated lines, then the stream closes. *)
Definition stream_closes_early : nat -> option bytes :=
  fun i => if (i <? 2)%nat then Some (junk_line i) else None.

(** The sentinel never shows and the stream never closes. *)
Definition stream_silent : nat -> option bytes :=
  fun i => Some (junk_line i).

(** A healthy server: the console accepts every connection and command; the
    clock reads [clock], then [later]. *)
Definition healthy_world (clock : list Z) (later : Z) (logs : nat -> option bytes) : World :=
  world_of (clock_of clock later) "running" (fun _ => None) always_ok logs.

(** The container is up but the console refuses every connection. *)
Definition unreachable_world : World :=
  world_of (fun k => Z.of_nat k * us_per_second) "running" (fun _ => Some refused)
           always_ok stream_10_then_sentinel.

(** The container is reported as exited. *)
Definition stopped_world : World :=
  world_of (fun k => Z.of_nat k * us_per_second) "exited" (fun _ => None)
           always_ok stream_10_then_sentinel.

(** The console drops the connection after the first broadcast (its third
    command, the liveness probe, fails) and refuses the first reconnection. *)
Definition flaky_world : World :=
  world_of (fun k => Z.of_nat k * us_per_second) "running"
           (fun k => if (k =? 1)%nat then Some refused else None)
           (fun k _ _ => if (k =? 2)%nat then inr (Exn "BrokenPipeError" "[Errno 32] Broken pipe")
                         else inl "ok")
           stream_10_then_sentinel.

Definition countdown_message (count : nat) : string :=
  if (0 <? count)%nat
  then "server_restarting_in_" +++ str_of_int (Z.of_nat count) +++ "_secs"
  else "server_restarting_NOW!".

(** The timeline of a completed pass through the countdown loop from
    [count = k - 1]: before each broadcast, [r] retry pauses of the
    connection it needed. *)
Fixpoint countdown_shape (k : nat) (rs : list nat) : list beat :=
  match k, rs with
  | S count, r :: rs' =>
      repeat (Wait RETRY_DELAY) r
      ++ Bcast (countdown_message count) :: Wait 1 :: countdown_shape count rs'
  | _, _ => []
  end.

(** Every one of the next [n] connection attempts fails: [Console(...)]
    raises, or it returns a console whose ["info"] probe raises.  [ic] and
    [jc] number the next [Console] call and the next console command. *)
Fixpoint attempts_all_fail (w : World) (n ic jc : nat) : Prop :=
  match n with
  | O => True
  | S n' =>
      match connect_at w ic with
      | Some _ => attempts_all_fail w n' (S ic) jc
      | None =>
          (exists e, command_at w jc ic "info" = inr e)
          /\ attempts_all_fail w n' (S ic) (S jc)
      end
  end.

(** The first [n] lines of a stream from line [i] on (fewer if it closes). *)
Fixpoint take_lines (strm : nat -> option bytes) (i n : nat) : list bytes :=
  match n with
  | O => []
  | S n' =>
      match strm i with
      | Some l => l :: take_lines strm (S i) n'
      | None => []
      end
  end.

Definition line_log (l : bytes) : event := EvLog INFO (MsgBytes (PyBytes.strip l)).

(** The states after each of [n] consecutive [notify_restart()] calls. *)
Fixpoint notify_states (w : World) (cfg : Config) (n : nat) (s : State) : list State :=
  match n with
  | O => []
  | S n' =>
      let s' := state_of (notify_restart w cfg s) in
      s' :: notify_states w cfg n' s'
  end.

(** The states the instance goes through: construction, then any sequence
    of [restart()] and [notify_restart()] calls that come back (normally or
    with an exception). *)
Inductive reachable (w : World) (cfg : Config) : State -> Prop :=
| reach_init :
    reachable w cfg (state_of (RestartManager_call w None))
| reach_restart : forall s fuel,
    reachable w cfg s ->
    result_of (restart w cfg fuel s) <> OutOfFuel ->
    reachable w cfg (state_of (restart w cfg fuel s))
| reach_notify : forall s,
    reachable w cfg s ->
    reachable w cfg (state_of (notify_restart w cfg s)).

(** What the console side of the manager may do: log, pause for a retry,
    open a console, probe it. *)
Definition console_event (cfg : Config) (e : event) : Prop :=
  match e with
  | EvLog _ (MsgStr _) => True
  | EvSleep z => z = RETRY_DELAY
  | EvConnect kw => kw = [("host", RCON_IP cfg); ("password", RCON_PASSWORD cfg)]
  | EvCommand (Some _) cmd => cmd = "info"
  | _ => False
  end.

Definition is_log (e : event) : Prop :=
  match e with
  | EvLog _ _ => True
  | _ => False
  end.

(** The attributes and collaborators the console side never touches. *)
Definition sched_frame (s s' : State) : Prop :=
  next_start s' = next_start s /\ hours s' = hours s
  /\ minutes s' = minutes s /\ seconds s' = seconds s
  /\ n_now s' = n_now s /\ n_restart s' = n_restart s
  /\ n_logs s' = n_logs s /\ n_discord s' = n_discord s.

(** [wp m Q s]: the run of [m] from [s] ends in a result, state and event
    list satisfying [Q]. *)
Definition wp {A} (m : M A) (Q : result A -> State -> list event -> Prop) (s : State) : Prop :=
  Q (result_of (m s)) (state_of (m s)) (events_of (m s)).

(** The messages of the loop entered with [count = k - 1], in order. *)
Fixpoint countdown_list (k : nat) : list string :=
  match k with
  | O => []
  | S count => countdown_message count :: countdown_list count
  end.

Definition retry_waits (n : nat) : list beat := repeat (Wait RETRY_DELAY) n.

(** ** Summaries of runs *)

(** (hours, minutes, seconds) of a number of seconds, as the two [divmod]
    calls of [_calculate_restart_time] compute them. *)
Definition hms_decompose (t : Z) : Z * Z * Z :=
  (t / 3600, (t mod 3600) / 60, (t mod 3600) mod 60).

(** The instance after [_calculate_restart_time] read the clock with
    [next_start = ns]. *)
Definition calculated (w : World) (ns : Z) (s : State) : State :=
  let t := int_total_seconds (ns - now_at w (n_now s)) in
  set_hms (Some (t / 3600)) (Some ((t mod 3600) / 60)) (Some ((t mod 3600) mod 60))
          (tick_now s).

(** The message [notify_restart] builds from the stored attributes. *)
Definition notify_message (s : State) : string :=
  "server_restart_in_" +++ fmt_attr (hours s) +++ (if attr_is_one (hours s) then "hr" else "hrs")
  +++ "_" +++ fmt_attr (minutes s) +++ (if attr_is_one (minutes s) then "min" else "mins").

(** The clock and [next_start] are as they were. *)
Definition clock_frame (s s' : State) : Prop :=
  next_start s' = next_start s /\ n_now s' = n_now s.

(** The webhook takes three seconds to deliver "Server restarted!": the
    clock reads 0 twice during construction, 7300 s at the reschedule step
    and at the following recalculation, and 7303 s from then on. *)
Definition slow_webhook_world : World :=
  healthy_world [0; 0; 7300000000; 7300000000] 7303000000 stream_10_then_sentinel.

(** Constructed at time 0 and next looked at [late] microseconds after the
    restart was due. *)
Definition overdue_world (late : Z) : World :=
  healthy_world [0; 0] (7200000000 + late) stream_silent.

(** A clock that advances one second per reading. *)
Definition ticking_world : World :=
  world_of (fun k => Z.of_nat k * us_per_second) "running" (fun _ => None)
           always_ok stream_10_then_sentinel.

(** What any run of the console side guarantees: it leaves the schedule
    alone, does console things only, comes back, and raises only after
    logging that the retries are exhausted. *)
Definition console_post {A} (cfg : Config) (s : State) (r : result A) (s' : State) (evs : list event) : Prop :=
  sched_frame s s' /\ Forall (console_event cfg) evs
  /\ match r with
     | Ok _ => True
     | Raise _ => In max_retries_log evs
     | OutOfFuel => False
     end.

(** One command handed to the console through [_broadcast] or [_command]:
    connection work, then the command itself, then its log line; or the
    connection could not be made and nothing was sent. *)
Definition send_post {A} (cfg : Config) (cmd : string) (s : State) (r : result A) (s' : State)
    (evs : list event) : Prop :=
  sched_frame s s'
  /\ match r with
     | Ok _ =>
         exists pre target post,
           evs = pre ++ EvCommand target cmd :: post
           /\ Forall (console_event cfg) pre /\ Forall is_log post
     | Raise _ => Forall (console_event cfg) evs /\ In max_retries_log evs
     | OutOfFuel => False
     end.

(** The timeline of one [_broadcast] call. *)
Definition broadcast_post {A} (message : string) (s : State) (r : result A)
    (s' : State) (evs : list event) : Prop :=
  sched_frame s s'
  /\ exists n,
      match r with
      | Ok _ => timeline evs = repeat (Wait RETRY_DELAY) n ++ [Bcast message]
      | Raise _ => timeline evs = repeat (Wait RETRY_DELAY) n /\ In max_retries_log evs
      | OutOfFuel => False
      end.

(** The countdown loop: either every pass completes, or the connection
    gives out during some pass, before that pass's broadcast. *)
Definition countdown_post (k : nat) (s : State) (r : result unit) (s' : State)
    (evs : list event) : Prop :=
  sched_frame s s'
  /\ match r with
     | Ok _ => exists rs, List.length rs = k /\ timeline evs = countdown_shape k rs
     | Raise _ =>
         In max_retries_log evs
         /\ exists rs n, (List.length rs < k)%nat
              /\ timeline evs = countdown_shape k rs ++ repeat (Wait RETRY_DELAY) n
     | OutOfFuel => False
     end.

(** The whole countdown phase: the loop, then the grace sleep. *)
Definition init_countdown_post (s : State) (r : result unit) (s' : State)
    (evs : list event) : Prop :=
  sched_frame s s'
  /\ match r with
     | Ok _ =>
         exists rs, List.length rs = 6%nat
           /\ timeline evs = countdown_shape 6 rs ++ [Wait 2]
     | Raise _ =>
         In max_retries_log evs
         /\ exists rs n, (List.length rs < 6)%nat
              /\ timeline evs = countdown_shape 6 rs ++ repeat (Wait RETRY_DELAY) n
     | OutOfFuel => False
     end.

(** A run of the retry loop that ends by giving up. *)
Definition exhausted_post (n : nat) (r : result unit) (s' : State) (evs : list event) : Prop :=
  (exists e, r = Raise e)
  /\ (exists pre, evs = pre ++ [max_retries_log])
  /\ retry_marks evs = attempts_with_pauses n RETRY_DELAY.

(** The lines from [i] on: the next [n] exist and lack the sentinel. *)
Definition quiet_for (w : World) (k i n : nat) : Prop :=
  forall j, (j < n)%nat ->
    exists l, logs_at w k (i + j) = Some l /\ PyBytes.contains last_message l = false.

(** What [restart] does to the schedule: once it gets past the readiness
    phase it reads the clock (the first reading since it was called) and
    sets [next_start] two hours after that reading; it reads the clock
    once more for the recalculation. *)
Definition restart_post (w : World) (s : State) (r : result unit) (s' : State) (evs : list event) : Prop :=
  let rescheduled :=
    next_start s' = Some (now_at w (n_now s) + timedelta_hours RESTART_TIME)
    /\ n_now s' = S (S (n_now s)) in
  match r with
  | Ok _ => rescheduled
  | Raise _ => clock_frame s s' \/ rescheduled
  | OutOfFuel => True
  end.

(** [timeRemaining] as the [j]-th of a run of notifications finds it. *)
Definition remaining (w : World) (ns : Z) (s : State) (j : nat) : Z * Z * Z :=
  hms_decompose (int_total_seconds (ns - now_at w (n_now s + j))).

(** * The logger: a shallow embedding of [src/logging.py] *)

Module PyLogging.

(** ** [_LogColors] *)

Definition ESC : string := String (ascii_of_nat 27) EmptyString.

Definition WHITE : string := ESC +++ "[97m".
Definition GREEN : string := ESC +++ "[92m".
Definition YELLOW : string := ESC +++ "[93m".
Definition BRIGHT_RED : string := ESC +++ "[91m".
Definition DARK_RED : string := ESC +++ "[31m".
Definition RESET : string := ESC +++ "[0m".

(** ** [Level]: the numeric levels of the [logging] module *)

Definition Level_DEBUG : Z := 10.
Definition Level_INFO : Z := 20.
Definition Level_WARNING : Z := 30.
Definition Level_ERROR : Z := 40.
Definition Level_CRITICAL : Z := 50.
Definition NOTSET : Z := 0.

(** ** [_ColoredFormatter] *)

Definition COLOR_MAP : list (Z * string) :=
  [(Level_DEBUG, WHITE); (Level_INFO, GREEN); (Level_WARNING, YELLOW);
   (Level_ERROR, BRIGHT_RED); (Level_CRITICAL, DARK_RED)].

(** [COLOR_MAP.get(levelno, _LogColors.WHITE)] *)
Definition color_for (levelno : Z) : string :=
  match find (fun p => fst p =? levelno) COLOR_MAP with
  | Some p => snd p
  | None => WHITE
  end.

(** Lines 39-53.  [message] is what [super().format(record)] returned. *)
Definition format (levelno : Z) (message : string) : string :=
  color_for levelno +++ message +++ RESET.

Definition FORMAT : string :=
  "[%(levelname)s] - [%(asctime)s] - [%(name)s] - %(message)s".

(** ** Dictionaries keyed by strings *)

(** [d.get(k)] *)
Definition lookup {V} (d : list (string * V)) (k : string) : option V :=
  match find (fun p => (fst p =? k)%string) d with
  | Some p => Some (snd p)
  | None => None
  end.

(** [d[k] = v] *)
Fixpoint store {V} (d : list (string * V)) (k : string) (v : V) : list (string * V) :=
  match d with
  | [] => [(k, v)]
  | (k', v') :: d' => if (k' =? k)%string then (k, v) :: d' else (k', v') :: store d' k v
  end.

(** ** What the [logging] module keeps *)

(** A handler object: its level and the format string of its formatter. *)
Record Handler : Type := {
  handler_level : Z;
  handler_formatter : option string
}.

(** A [logging.Logger]: its handlers (by number), level and [propagate]. *)
Record StdLogger : Type := {
  std_handlers : list nat;
  std_level : Z;
  std_propagate : bool
}.

(** The loggers [logging.getLogger] knows by name and the handler objects
    created so far, numbered by position. *)
Record Runtime : Type := {
  loggerDict : list (string * StdLogger);
  handler_pool : list Handler
}.

(** [logging.getLogger(name)]: the logger of that name, a new one with no
    handler, level NOTSET and [propagate = True] when there is none yet. *)
Definition getLogger (rt : Runtime) (name : string) : StdLogger :=
  match lookup (loggerDict rt) name with
  | Some lg => lg
  | None => {| std_handlers := []; std_level := NOTSET; std_propagate := true |}
  end.

(** [logger.addHandler(h)]: appended unless already there. *)
Definition addHandler (lg : StdLogger) (h : nat) : StdLogger :=
  {| std_handlers := if existsb (Nat.eqb h) (std_handlers lg)
                     then std_handlers lg else std_handlers lg ++ [h];
     std_level := std_level lg;
     std_propagate := std_propagate lg |}.

Fixpoint update_handler (pool : list Handler) (h : nat) (f : Handler -> Handler)
    : list Handler :=
  match pool, h with
  | [], _ => []
  | x :: pool', O => f x :: pool'
  | x :: pool', S h' => x :: update_handler pool' h' f
  end.

(** ** [Logger] *)

(** An instance: the name of the [logging] logger it wraps, its handler and
    the format string of its formatter. *)
Record Logger : Type := {
  log_name : string;
  handler : nat;
  formatter : string
}.

(** Lines 78-98.  [given] is the [handler] argument: [None], or the number
    of an existing handler object. *)
Definition Logger_init (name : string) (lvl : Z) (given : option nat) (rt : Runtime)
    : Logger * Runtime :=
  let lg := getLogger rt name in
  let '(h, pool) :=
    match given with
    | Some h => (h, handler_pool rt)
    | None => (List.length (handler_pool rt),
               handler_pool rt
               ++ [{| handler_level := NOTSET; handler_formatter := None |}])
    end in
  let pool := update_handler pool h
                (fun x => {| handler_level := handler_level x;
                             handler_formatter := Some FORMAT |}) in
  let lg := addHandler lg h in
  let lg := {| std_handlers := std_handlers lg; std_level := lvl;
               std_propagate := std_propagate lg |} in
  let pool := update_handler pool h
                (fun x => {| handler_level := lvl;
                             handler_formatter := handler_formatter x |}) in
  let lg := {| std_handlers := std_handlers lg; std_level := std_level lg;
               std_propagate := false |} in
  ({| log_name := name; handler := h; formatter := FORMAT |},
   {| loggerDict := store (loggerDict rt) name lg; handler_pool := pool |}).

(** Lines 58-76.  [registry] is the class attribute [_loggers]; [lvl = None]
    stands for the default [Level.INFO]. *)
Definition get_instance (name : string) (lvl : option Z) (given : option nat)
    (registry : list (string * Logger)) (rt : Runtime)
    : Logger * list (string * Logger) * Runtime :=
  match lookup registry name with
  | Some inst => (inst, registry, rt)
  | None =>
      let '(inst, rt') :=
        Logger_init name (match lvl with Some l => l | None => Level_INFO end) given rt in
      (inst, store registry name inst, rt')
  end.

End PyLogging.

(** ** Further readings of a run *)

(** The next [n] connection attempts fail and the one after them succeeds:
    [Console(...)] returns and the ["info"] probe answers. *)
Fixpoint attempts_fail_then_succeed (w : World) (n ic jc : nat) : Prop :=
  match n with
  | O => connect_at w ic = None /\ exists resp, command_at w jc ic "info" = inl resp
  | S n' =>
      match connect_at w ic with
      | Some _ => attempts_fail_then_succeed w n' (S ic) jc
      | None =>
          (exists e, command_at w jc ic "info" = inr e)
          /\ attempts_fail_then_succeed w n' (S ic) (S jc)
      end
  end.

Definition connected_log : event :=
  EvLog INFO (MsgStr "RCON connection successfully established.").

(** How one command sent through [_broadcast] or [_command] can end;
    [what] is the prefix of the error logged when the command raises. *)
Definition sent_post (cfg : Config) (what cmd : string) (r : result (option string))
    (evs : list event) : Prop :=
  match r with
  | Ok (Some resp) =>
      exists pre c,
        evs = pre ++ [EvCommand (Some c) cmd; EvLog INFO (MsgStr resp)]
        /\ Forall (console_event cfg) pre
  | Ok None =>
      exists pre target e,
        evs = pre ++ [EvCommand target cmd; EvLog ERROR (MsgStr (what +++ str_of_exn e))]
        /\ Forall (console_event cfg) pre
  | Raise _ => Forall (console_event cfg) evs /\ In max_retries_log evs
  | OutOfFuel => False
  end.

(** Events of the console side and of the countdown: anything but a webhook
    post, a container restart or a forwarded log line. *)
Definition chatter (e : event) : Prop :=
  match e with
  | EvDiscord _ _ => False
  | EvContainerRestart => False
  | EvLog _ (MsgBytes _) => False
  | _ => True
  end.

(** The stages of a restart that the outside world sees. *)
Inductive stage : Type :=
| Posted (description color : string)   (* a webhook post *)
| Restarted                             (* container.restart() *)
| Line (b : bytes).                     (* a log line forwarded to log.info *)

Definition stage_of (e : event) : list stage :=
  match e with
  | EvDiscord d c => [Posted d c]
  | EvContainerRestart => [Restarted]
  | EvLog INFO (MsgBytes b) => [Line b]
  | _ => []
  end.

Definition lifecycle (evs : list event) : list stage := flat_map stage_of evs.

(** The forwarded lines of the first [n] lines of stream [k]. *)
Definition stream_stages (w : World) (k n : nat) : list stage :=
  map (fun l => Line (PyBytes.strip l)) (take_lines (logs_at w k) 0 n).

Definition announce_restarting : stage := Posted "Server restarting..." "00FF00".
Definition announce_restarted : stage := Posted "Server restarted!" "00FF00".

(** The loop entered at line [i] of stream [k] stops after [n] lines: the
    stream closes there, or the last of the [n] is the first sentinel line. *)
Definition stops_at (w : World) (k i n : nat) : Prop :=
  (quiet_for w k i n /\ logs_at w k (i + n) = None)
  \/ (exists n' l, n = S n' /\ quiet_for w k i n'
                   /\ logs_at w k (i + n') = Some l
                   /\ PyBytes.contains last_message l = true).

(** Every way a [restart()] call can end, read off its lifecycle. *)
Definition restart_trace_post (w : World) (s : State) (r : result unit) (s' : State)
    (evs : list event) : Prop :=
  exists n,
    match r with
    | Ok _ =>
        discord_at w (n_discord s) = None /\ restart_at w (n_restart s) = None
        /\ discord_at w (S (n_discord s)) = None
        /\ stops_at w (n_logs s) 0 n
        /\ lifecycle evs
           = [announce_restarting; Restarted] ++ stream_stages w (n_logs s) n
             ++ [announce_restarted]
    | Raise e =>
        (lifecycle evs = [] /\ In max_retries_log evs /\ clock_frame s s')
        \/ (lifecycle evs = [announce_restarting]
            /\ discord_at w (n_discord s) = Some e /\ clock_frame s s')
        \/ (lifecycle evs = [announce_restarting; Restarted]
            /\ discord_at w (n_discord s) = None
            /\ restart_at w (n_restart s) = Some e /\ clock_frame s s')
        \/ (lifecycle evs
            = [announce_restarting; Restarted] ++ stream_stages w (n_logs s) n
              ++ [announce_restarted]
            /\ discord_at w (n_discord s) = None /\ restart_at w (n_restart s) = None
            /\ discord_at w (S (n_discord s)) = Some e
            /\ next_start s' = Some (now_at w (n_now s) + timedelta_hours RESTART_TIME))
    | OutOfFuel =>
        discord_at w (n_discord s) = None /\ restart_at w (n_restart s) = None
        /\ lifecycle evs = [announce_restarting; Restarted] ++ stream_stages w (n_logs s) n
    end.

(** *** Lines 169-175: the scheduled jobs.  [instance] is the class
    attribute [_instance]; the job's state is the instance it leaves. *)
Definition restart_job (w : World) (cfg : Config) (fuel : nat) (instance : option State)
    : result unit * State * list event :=
  match RestartManager_call w instance with
  | (Ok _, manager, evs) =>
      (result_of (restart w cfg fuel manager),
       state_of (restart w cfg fuel manager),
       evs ++ events_of (restart w cfg fuel manager))
  | other => other
  end.

Definition notify_job (w : World) (cfg : Config) (instance : option State)
    : result unit * State * list event :=
  match RestartManager_call w instance with
  | (Ok _, manager, evs) =>
      (result_of (notify_restart w cfg manager),
       state_of (notify_restart w cfg manager),
       evs ++ events_of (notify_restart w cfg manager))
  | other => other
  end.

(** The first two attempts are refused, the third goes through. *)
Definition third_time_lucky_world : World :=
  world_of (fun k => Z.of_nat k * us_per_second) "running"
           (fun k => if (k <? 2)%nat then Some refused else None)
           always_ok stream_10_then_sentinel.

(** The webhook is down. *)
Definition webhook_down_world : World :=
  {| now_at := fun k => Z.of_nat k * us_per_second;
     status_at := fun _ => "running";
     connect_at := fun _ => None;
     command_at := always_ok;
     restart_at := fun _ => None;
     logs_at := fun _ => stream_10_then_sentinel;
     discord_at := fun _ => Some (Exn "ConnectionError" "webhook unreachable") |}.

(** Nothing goes over the wire: no console is opened and no command
    reaches a console. *)
Definition off_the_wire (e : event) : Prop :=
  match e with
  | EvConnect _ => False
  | EvCommand (Some _) _ => False
  | _ => True
  end.

(** The save attempts and the container restarts of a run, in order. *)
Inductive safety_mark : Type := SaveTried | ContainerRestarted.

Definition safety_mark_of (e : event) : list safety_mark :=
  match e with
  | EvCommand _ cmd => if (cmd =? "save")%string then [SaveTried] else []
  | EvContainerRestart => [ContainerRestarted]
  | _ => []
  end.

Definition safety_marks (evs : list event) : list safety_mark :=
  flat_map safety_mark_of evs.

(** The log line of the reschedule step (line 74). *)
Definition rescheduled_log : event := EvLog DEBUG (MsgStr "new time has been set").

(** Where the reschedule step sits in a [restart()] call.  A call that
    completes ends with the reschedule log, the "Server restarted!" post and
    its log line, after the whole readiness phase; a call still waiting in
    the readiness phase has neither read the clock nor touched
    [next_start]. *)
Definition restart_order_post (w : World) (s : State) (r : result unit) (s' : State)
    (evs : list event) : Prop :=
  match r with
  | Ok _ =>
      exists n before,
        stops_at w (n_logs s) 0 n
        /\ lifecycle before
           = [announce_restarting; Restarted] ++ stream_stages w (n_logs s) n
        /\ evs = before ++ [rescheduled_log;
                            EvDiscord "Server restarted!" "00FF00";
                            EvLog INFO (MsgStr "Server restarted!")]
  | Raise _ => True
  | OutOfFuel => clock_frame s s'
  end.

(** The clock is set back by 40 minutes between two notifications:
    readings 0, 0 (construction), 1200 s, then -1200 s. *)
Definition clock_set_back_world : World :=
  healthy_world [0; 0; 1200000000] (-1200000000) stream_silent.

(** * Properties *)

(** ** Rules for [wp] *)

Section WpRules.

Context {A B : Type}.

Lemma wp_bind (m : M A) (k : A -> M B) Q s :
  wp m (fun r s1 e1 =>
          match r with
          | Ok a => wp (k a) (fun r2 s2 e2 => Q r2 s2 (e1 ++ e2)) s1
          | Raise e => Q (Raise e) s1 e1
          | OutOfFuel => Q OutOfFuel s1 e1
          end) s ->
  wp (bind m k) Q s.
Proof.
  unfold wp, bind, result_of, state_of, events_of.
  destruct (m s) as [[[a | e |] s1] e1]; simpl; auto.
  destruct (k a s1) as [[r2 s2] e2]; simpl; auto.
Qed.

Lemma wp_try (body : M A) (handler : exn -> M A) Q s :
  wp body (fun r s1 e1 =>
             match r with
             | Raise e => wp (handler e) (fun r2 s2 e2 => Q r2 s2 (e1 ++ e2)) s1
             | other => Q other s1 e1
             end) s ->
  wp (try_except body handler) Q s.
Proof.
  unfold wp, try_except, result_of, state_of, events_of.
  destruct (body s) as [[[a | e |] s1] e1]; simpl; auto.
  destruct (handler e s1) as [[r2 s2] e2]; simpl; auto.
Qed.

Lemma wp_mono (m : M A) (Q Q' : result A -> State -> list event -> Prop) s :
  (forall r s' evs, Q r s' evs -> Q' r s' evs) ->
  wp m Q s -> wp m Q' s.
Proof. unfold wp; auto. Qed.

End WpRules.

Lemma sched_frame_refl s : sched_frame s s.
Proof. unfold sched_frame; tauto. Qed.

Lemma sched_frame_trans s1 s2 s3 :
  sched_frame s1 s2 -> sched_frame s2 s3 -> sched_frame s1 s3.
Proof. unfold sched_frame; intuition congruence. Qed.

#[local] Hint Resolve sched_frame_refl : core.

Lemma console_events_timeline cfg evs :
  Forall (console_event cfg) evs ->
  exists n, timeline evs = repeat (Wait RETRY_DELAY) n.
Proof.
  induction 1 as [| e evs He _ [n IH]].
  - exists O. reflexivity.
  - unfold timeline in *. simpl. rewrite IH.
    destruct e as [z | lvl [msg | b] | kw | [c |] cmd | | d c]; simpl in He; try contradiction.
    + subst z. exists (S n). reflexivity.
    + exists n. reflexivity.
    + exists n. reflexivity.
    + subst cmd. exists n. reflexivity.
Qed.

Lemma console_events_connects cfg evs :
  Forall (console_event cfg) evs ->
  Forall (fun kw => kw = [("host", RCON_IP cfg); ("password", RCON_PASSWORD cfg)])
         (connects_of evs).
Proof.
  induction 1 as [| e evs He _ IH]; [constructor |].
  unfold connects_of in *. simpl.
  destruct e as [z | lvl [msg | b] | kw | [c |] cmd | | d c]; simpl in *;
    try contradiction; auto.
Qed.

Lemma timeline_app a b : timeline (a ++ b) = timeline a ++ timeline b.
Proof. unfold timeline. apply flat_map_app. Qed.

Lemma strip_prefix_app p m : strip_prefix p (p +++ m) = Some m.
Proof.
  induction p as [| a p IH]; simpl; [reflexivity |].
  rewrite Ascii.eqb_refl. exact IH.
Qed.

(** ** Rules for the collaborator calls *)

Section PrimitiveRules.

Variable w : World.
Context {A : Type}.

Lemma wp_ret (a : A) Q s : Q (Ok a) s [] -> wp (ret a) Q s.
Proof. exact (fun H => H). Qed.

Lemma wp_raise (e : exn) (Q : result A -> _) s : Q (Raise e) s [] -> wp (raise e) Q s.
Proof. exact (fun H => H). Qed.

Lemma wp_out_of_fuel (Q : result A -> _) s : Q OutOfFuel s [] -> wp out_of_fuel Q s.
Proof. exact (fun H => H). Qed.

Lemma wp_get (f : State -> A) Q s : Q (Ok (f s)) s [] -> wp (get f) Q s.
Proof. exact (fun H => H). Qed.

Lemma wp_modify (f : State -> State) Q s : Q (Ok tt) (f s) [] -> wp (modify f) Q s.
Proof. exact (fun H => H). Qed.

Lemma wp_log lvl msg Q s : Q (Ok tt) s [EvLog lvl msg] -> wp (log lvl msg) Q s.
Proof. exact (fun H => H). Qed.

Lemma wp_sleep z Q s : Q (Ok tt) s [EvSleep z] -> wp (sleep z) Q s.
Proof. exact (fun H => H). Qed.

Lemma wp_datetime_now Q s :
  Q (Ok (now_at w (n_now s))) (tick_now s) [] -> wp (datetime_now w) Q s.
Proof. exact (fun H => H). Qed.

Lemma wp_container_status Q s :
  Q (Ok (status_at w (n_status s))) (tick_status s) [] -> wp (container_status w) Q s.
Proof. exact (fun H => H). Qed.

Lemma wp_container_logs Q s :
  Q (Ok (n_logs s)) (tick_logs s) [] -> wp container_logs Q s.
Proof. exact (fun H => H). Qed.

Lemma wp_Console kw Q s :
  (connect_at w (n_connect s) = None ->
   Q (Ok (n_connect s)) (tick_connect s) [EvConnect kw]) ->
  (forall e, connect_at w (n_connect s) = Some e ->
   Q (Raise e) (tick_connect s) [EvConnect kw]) ->
  wp (Console w kw) Q s.
Proof.
  intros H1 H2. unfold wp, Console, result_of, state_of, events_of.
  destruct (connect_at w (n_connect s)); simpl; auto.
Qed.

Lemma wp_rcon_command cmd Q s :
  (rcon s = None -> Q (Raise AttributeError_command) s [EvCommand None cmd]) ->
  (forall c resp, rcon s = Some c -> command_at w (n_command s) c cmd = inl resp ->
   Q (Ok resp) (tick_command s) [EvCommand (Some c) cmd]) ->
  (forall c e, rcon s = Some c -> command_at w (n_command s) c cmd = inr e ->
   Q (Raise e) (tick_command s) [EvCommand (Some c) cmd]) ->
  wp (rcon_command w cmd) Q s.
Proof.
  intros H1 H2 H3. unfold wp, rcon_command, result_of, state_of, events_of.
  destruct (rcon s) as [c |]; simpl; auto.
  destruct (command_at w (n_command s) c cmd) eqn:E; simpl; eauto.
Qed.

Lemma wp_container_restart Q s :
  (restart_at w (n_restart s) = None -> Q (Ok tt) (tick_restart s) [EvContainerRestart]) ->
  (forall e, restart_at w (n_restart s) = Some e ->
   Q (Raise e) (tick_restart s) [EvContainerRestart]) ->
  wp (container_restart w) Q s.
Proof.
  intros H1 H2. unfold wp, container_restart, result_of, state_of, events_of.
  destruct (restart_at w (n_restart s)); simpl; auto.
Qed.

Lemma wp_log_to_discord msg lvl Q s :
  (discord_at w (n_discord s) = None ->
   Q (Ok tt) (tick_discord s) [EvDiscord msg (dict_get color_map lvl "FFFFFF")]) ->
  (forall e, discord_at w (n_discord s) = Some e ->
   Q (Raise e) (tick_discord s) [EvDiscord msg (dict_get color_map lvl "FFFFFF")]) ->
  wp (log_to_discord w msg lvl) Q s.
Proof.
  intros H1 H2.
  unfold wp, log_to_discord, webhook_execute, result_of, state_of, events_of.
  destruct (discord_at w (n_discord s)); simpl; auto.
Qed.

End PrimitiveRules.

Ltac wp_step :=
  lazymatch goal with
  | |- wp (bind _ _) _ _ => apply wp_bind
  | |- wp (try_except _ _) _ _ => apply wp_try
  | |- wp (ret _) _ _ => apply wp_ret
  | |- wp (raise _) _ _ => apply wp_raise
  | |- wp out_of_fuel _ _ => apply wp_out_of_fuel
  | |- wp (get _) _ _ => apply wp_get
  | |- wp (modify _) _ _ => apply wp_modify
  | |- wp (log _ _) _ _ => apply wp_log
  | |- wp (sleep _) _ _ => apply wp_sleep
  | |- wp (datetime_now _) _ _ => apply wp_datetime_now
  | |- wp (container_status _) _ _ => apply wp_container_status
  | |- wp container_logs _ _ => apply wp_container_logs
  end;
  cbv beta iota.

Ltac wp_steps := repeat wp_step.

Lemma sched_frame_set_rcon s s' v : sched_frame s s' -> sched_frame s (set_rcon v s').
Proof. exact (fun H => H). Qed.

Lemma sched_frame_tick_connect s s' : sched_frame s s' -> sched_frame s (tick_connect s').
Proof. exact (fun H => H). Qed.

Lemma sched_frame_tick_command s s' : sched_frame s s' -> sched_frame s (tick_command s').
Proof. exact (fun H => H). Qed.

Lemma sched_frame_tick_status s s' : sched_frame s s' -> sched_frame s (tick_status s').
Proof. exact (fun H => H). Qed.

#[local] Hint Resolve sched_frame_set_rcon sched_frame_tick_connect
  sched_frame_tick_command sched_frame_tick_status : core.

Section ConsoleSide.
Variable w : World.
Variable cfg : Config.

Lemma console_post_later {B} s s1 (r : result B) s2 pre evs :
  sched_frame s s1 -> Forall (console_event cfg) pre ->
  console_post cfg s1 r s2 evs ->
  console_post cfg s r s2 (pre ++ evs).
Proof.
  intros Hf Hpre (Hf2 & Hev & Hr). split; [| split].
  - eapply sched_frame_trans; eassumption.
  - apply Forall_app; auto.
  - destruct r; auto. apply in_or_app; auto.
Qed.

Lemma create_spec n : forall s,
  wp (_create_rcon_connection_from w cfg n) (console_post cfg s) s.
Proof.
  induction n as [| n IH]; intros s.
  - apply wp_ret. split; [| split]; auto.
  - cbn [_create_rcon_connection_from].
    assert (Hhandler : forall exc s1 pre,
               sched_frame s s1 -> Forall (console_event cfg) pre ->
               wp (log ERROR (MsgStr ("Failed to establish RCON connection: " +++ str_of_exn exc)) ;;
                   if (0 <? n)%nat then
                     log INFO (MsgStr ("Retrying to connect... attempts remaining: "
                                       +++ str_of_int (Z.of_nat n))) ;;
                     sleep RETRY_DELAY ;;
                     _create_rcon_connection_from w cfg n
                   else
                     log ERROR (MsgStr "Max retries reached. Unable to establish RCON connection.") ;;
                     raise exc)%py
                  (fun r s2 e2 => console_post cfg s r s2 (pre ++ e2)) s1).
    { intros exc s1 pre Hf Hpre. wp_steps.
      destruct (0 <? n)%nat.
      - wp_steps. eapply wp_mono; [| apply IH].
        intros r s2 evs H. cbn [app].
        apply console_post_later with (s1 := s1); auto.
        apply (console_post_later s1 s1 r s2 [_; _; _]); auto.
        repeat constructor.
      - wp_steps. cbn [app]. split; [| split]; auto.
        + apply Forall_app; split; auto. repeat constructor.
        + apply in_or_app; right. right. left. reflexivity. }
    apply wp_try. apply wp_bind. apply wp_Console; [intros Hc | intros e Hc]; cbv beta iota.
    + wp_steps. apply wp_rcon_command; cbn [rcon set_rcon]; cbv beta iota.
      * discriminate.
      * intros c resp Hr Hcmd. wp_steps. cbn [app]. split; [| split]; auto.
        repeat constructor.
      * intros c e Hr Hcmd. cbn [app].
        apply (Hhandler e _ [_; _]); auto.
        repeat constructor.
    + apply (Hhandler e _ [_]); auto. repeat constructor.
Qed.

Lemma is_rcon_connected_spec s :
  rcon s <> None ->
  wp (_is_rcon_connected w)
     (fun r s' evs => console_post cfg s r s' evs /\ exists b, r = Ok b) s.
Proof.
  intros Hr. unfold _is_rcon_connected. wp_steps.
  apply wp_rcon_command; cbv beta iota.
  - intros H; contradiction.
  - intros c resp _ _. wp_steps. cbn [app]. split; [split; [| split] |]; eauto.
    repeat constructor.
  - intros c e _ _. wp_steps. cbn [app]. split; [split; [| split] |]; eauto.
    repeat constructor.
Qed.

Lemma establish_spec s :
  wp (_establish_rcon_connection w cfg) (console_post cfg s) s.
Proof.
  unfold _establish_rcon_connection, _is_container_running. wp_steps.
  destruct (negb (status_at w (n_status s) =? "running")%string).
  - wp_steps. cbn [app]. split; [| split]; auto. repeat constructor.
  - wp_steps. cbn [app].
    destruct (rcon (tick_status s)) as [c |] eqn:Hr.
    + wp_steps. eapply wp_mono; [| apply is_rcon_connected_spec; congruence].
      intros r s1 e1 [(Hf & Hev & _) [b ->]]. wp_steps. rewrite app_nil_r.
      destruct (negb b); [| wp_steps; rewrite app_nil_r; split; [| split]; auto].
      eapply wp_mono; [| apply create_spec].
      intros r s2 e2 H.
      apply console_post_later with (s1 := s1); auto.
    + wp_steps. cbn [app]. unfold _create_rcon_connection.
      eapply wp_mono; [| apply create_spec].
      intros r s2 e2 H.
      apply (console_post_later s (tick_status s) r s2 []); auto.
Qed.

Lemma send_spec cmd (what : string) s :
  wp (_establish_rcon_connection w cfg ;;
      try_except
        (resp <- rcon_command w cmd ;;
         log INFO (MsgStr resp) ;;
         ret (Some resp))
        (fun exc =>
           log ERROR (MsgStr (what +++ str_of_exn exc)) ;;
           ret None))
     (send_post cfg cmd s) s.
Proof.
  wp_step. eapply wp_mono; [| apply establish_spec].
  intros r s1 e1 (Hf & Hev & Hr). destruct r as [[] | e |]; [| split; auto | contradiction].
  wp_steps. apply wp_rcon_command; cbv beta iota.
  - intros _. wp_steps. cbn [app]. split; auto.
    exists e1, None, [EvLog ERROR (MsgStr (what +++ str_of_exn AttributeError_command))].
    split; [reflexivity | split; [assumption | repeat constructor]].
  - intros c resp _ _. wp_steps. cbn [app]. split; auto.
    exists e1, (Some c), [EvLog INFO (MsgStr resp)].
    split; [reflexivity | split; [assumption | repeat constructor]].
  - intros c e _ _. wp_steps. cbn [app]. split; auto.
    exists e1, (Some c), [EvLog ERROR (MsgStr (what +++ str_of_exn e))].
    split; [reflexivity | split; [assumption | repeat constructor]].
Qed.

Lemma broadcast_spec message s :
  wp (_broadcast w cfg message) (send_post cfg ("broadcast " +++ message) s) s.
Proof. apply send_spec. Qed.

Lemma command_spec command s :
  wp (_command w cfg command) (send_post cfg command s) s.
Proof. apply send_spec. Qed.

End ConsoleSide.

Lemma logs_timeline evs : Forall is_log evs -> timeline evs = [].
Proof.
  induction 1 as [| e evs He _ IH]; [reflexivity |].
  destruct e; try contradiction. exact IH.
Qed.

Section Broadcasts.

Variable w : World.
Variable cfg : Config.

Lemma broadcast_timeline message s :
  wp (_broadcast w cfg message) (broadcast_post message s) s.
Proof.
  eapply wp_mono; [| apply broadcast_spec].
  intros r s' evs [Hf Hr]. split; auto.
  destruct r as [a | e |]; [| | contradiction].
  - destruct Hr as (pre & target & post & -> & Hpre & Hpost).
    destruct (console_events_timeline cfg pre Hpre) as [n Hn].
    exists n. rewrite timeline_app, Hn. f_equal.
    change (timeline (EvCommand target ("broadcast " +++ message) :: post))
      with (beat_of (EvCommand target ("broadcast " +++ message)) ++ timeline post).
    rewrite (logs_timeline post Hpost). cbn [beat_of].
    rewrite strip_prefix_app. reflexivity.
  - destruct Hr as [Hev Hin].
    destruct (console_events_timeline cfg evs Hev) as [n Hn].
    exists n. auto.
Qed.

Lemma countdown_body_eq count :
  (if (0 <? count)%nat
   then _broadcast w cfg ("server_restarting_in_" +++ str_of_int (Z.of_nat count) +++ "_secs")
   else _broadcast w cfg "server_restarting_NOW!")
  = _broadcast w cfg (countdown_message count).
Proof. unfold countdown_message. destruct (0 <? count)%nat; reflexivity. Qed.

Lemma countdown_spec k : forall s,
  wp (countdown_from w cfg k) (countdown_post k s) s.
Proof.
  induction k as [| count IH]; intros s.
  - apply wp_ret. split; auto. exists []. split; reflexivity.
  - cbn [countdown_from]. rewrite countdown_body_eq. wp_step.
    eapply wp_mono; [| apply broadcast_timeline].
    intros r s1 e1 (Hf & n & Hr). destruct r as [a | e |]; [| | contradiction].
    + wp_steps. eapply wp_mono; [| apply IH].
      intros r s2 e2 (Hf2 & Hr2). split; [eapply sched_frame_trans; eassumption |].
      rewrite 2 timeline_app, Hr.
      change (timeline [EvSleep 1]) with [Wait 1].
      destruct r as [[] | e |]; [| | contradiction].
      * destruct Hr2 as (rs & Hlen & ->). exists (n :: rs). split; [simpl; congruence |].
        cbn [countdown_shape]. rewrite <- app_assoc. reflexivity.
      * destruct Hr2 as (Hin & rs & m & Hlen & ->). split.
        { apply in_or_app; right. apply in_or_app; right. exact Hin. }
        exists (n :: rs), m. split; [simpl; lia |].
        cbn [countdown_shape]. rewrite <- !app_assoc. reflexivity.
    + destruct Hr as [Htl Hin]. split; auto. split; auto.
      exists [], n. split; [simpl; lia |]. exact Htl.
Qed.

End Broadcasts.

Lemma broadcasts_of_app a b : broadcasts_of (a ++ b) = broadcasts_of a ++ broadcasts_of b.
Proof. unfold broadcasts_of, beats_broadcasts. rewrite timeline_app. apply flat_map_app. Qed.

Lemma beats_broadcasts_retry n tl :
  beats_broadcasts (repeat (Wait RETRY_DELAY) n ++ tl) = beats_broadcasts tl.
Proof. induction n as [| n IH]; [reflexivity | exact IH]. Qed.

Lemma shape_broadcasts k : forall rs,
  (List.length rs <= k)%nat ->
  beats_broadcasts (countdown_shape k rs) = firstn (List.length rs) (countdown_list k).
Proof.
  induction k as [| count IH]; intros [| r rs] Hlen; simpl in Hlen; try reflexivity; try lia.
  cbn [countdown_shape countdown_list List.length firstn].
  rewrite beats_broadcasts_retry. cbn [beats_broadcasts flat_map app].
  f_equal. apply IH. lia.
Qed.

Lemma wait_before_next_retry n tl :
  wait_before_next (repeat (Wait RETRY_DELAY) n ++ tl)
  = RETRY_DELAY * Z.of_nat n + wait_before_next tl.
Proof.
  induction n as [| n IH]; [simpl; lia |].
  cbn [repeat app wait_before_next]. rewrite IH. lia.
Qed.

Lemma waits_after_broadcasts_retry n tl :
  waits_after_broadcasts (repeat (Wait RETRY_DELAY) n ++ tl) = waits_after_broadcasts tl.
Proof. induction n as [| n IH]; [reflexivity | exact IH]. Qed.

Lemma beats_broadcasts_app a b :
  beats_broadcasts (a ++ b) = beats_broadcasts a ++ beats_broadcasts b.
Proof. apply flat_map_app. Qed.

Section Countdown.

Variable w : World.
Variable cfg : Config.

Lemma init_countdown_spec s :
  wp (_init_countdown w cfg) (init_countdown_post s) s.
Proof.
  unfold _init_countdown. wp_step.
  eapply wp_mono; [| apply countdown_spec].
  intros r s1 e1 (Hf & Hr). destruct r as [[] | e |]; [| split; auto | contradiction].
  wp_steps. split; auto.
  destruct Hr as (rs & Hlen & Htl). exists rs. split; auto.
  rewrite timeline_app, Htl. reflexivity.
Qed.

End Countdown.

(** C4 (amended).  A countdown phase that runs to completion attempts the
    six broadcasts in the order 5, 4, 3, 2, 1, NOW, whether or not individual
    broadcasts fail.  The phase can also stop early: only by
    raising the connection error after "Max retries reached" was logged, and
    then the broadcasts made so far are a proper prefix of that sequence. *)
Theorem countdown_broadcast_order (w : World) (cfg : Config) (s : State) :
  match result_of (_init_countdown w cfg s) with
  | Ok _ =>
      broadcasts_of (events_of (_init_countdown w cfg s)) = countdown_messages
  | Raise _ =>
      In max_retries_log (events_of (_init_countdown w cfg s))
      /\ exists j, (j < 6)%nat
           /\ broadcasts_of (events_of (_init_countdown w cfg s))
              = firstn j countdown_messages
  | OutOfFuel => False
  end.
Proof.
  pose proof (init_countdown_spec w cfg s) as [_ H]. 
  destruct (result_of (_init_countdown w cfg s)) as [[] | e |]; [| | exact H].
  - destruct H as (rs & Hlen & Htl). unfold broadcasts_of.
    rewrite Htl, beats_broadcasts_app, shape_broadcasts by lia.
    rewrite Hlen. reflexivity.
  - destruct H as (Hin & rs & n & Hlen & Htl). split; [exact Hin |].
    exists (List.length rs). split; [exact Hlen |]. unfold broadcasts_of.
    rewrite Htl, beats_broadcasts_app, shape_broadcasts by lia.
    rewrite <- (app_nil_r (repeat (Wait RETRY_DELAY) n)), beats_broadcasts_retry.
    rewrite app_nil_r. reflexivity.
Qed.

(** C4 as stated fails: with the container running and the console refusing
    every connection, the first [_broadcast] raises after 100 attempts and
    the phase ends without a single broadcast. *)
Lemma countdown_without_broadcasts :
  result_of (_init_countdown unreachable_world some_cfg fresh) = Raise refused
  /\ broadcasts_of (events_of (_init_countdown unreachable_world some_cfg fresh)) = []
  /\ ~ (forall w cfg s,
          broadcasts_of (events_of (_init_countdown w cfg s)) = countdown_messages).
Proof.
  split; [vm_compute; reflexivity |]. split; [vm_compute; reflexivity |].
  intros H. specialize (H unreachable_world some_cfg fresh).
  vm_compute in H. discriminate H.
Qed.

(** C5 (amended).  In a countdown phase that runs to completion, each of the
    six broadcasts is followed by a wait of 1, and the last of these is
    followed by a further wait of 2, so 1 + 2 units pass after the NOW
    broadcast.  The only other waits are connection retries, RETRY_DELAY
    each, made before a broadcast: the wait between two consecutive
    broadcasts is 1 plus RETRY_DELAY per retry, and exactly 1 when no retry
    happens. *)
Theorem countdown_waits (w : World) (cfg : Config) (s : State) :
  result_of (_init_countdown w cfg s) = Ok tt ->
  exists r0 r1 r2 r3 r4 r5 : nat,
    timeline (events_of (_init_countdown w cfg s))
    = retry_waits r0 ++ Bcast "server_restarting_in_5_secs" :: Wait 1 ::
      retry_waits r1 ++ Bcast "server_restarting_in_4_secs" :: Wait 1 ::
      retry_waits r2 ++ Bcast "server_restarting_in_3_secs" :: Wait 1 ::
      retry_waits r3 ++ Bcast "server_restarting_in_2_secs" :: Wait 1 ::
      retry_waits r4 ++ Bcast "server_restarting_in_1_secs" :: Wait 1 ::
      retry_waits r5 ++ Bcast "server_restarting_NOW!" :: Wait 1 :: Wait 2 :: []
    /\ waits_after_broadcasts (timeline (events_of (_init_countdown w cfg s)))
       = [1 + RETRY_DELAY * Z.of_nat r1; 1 + RETRY_DELAY * Z.of_nat r2;
          1 + RETRY_DELAY * Z.of_nat r3; 1 + RETRY_DELAY * Z.of_nat r4;
          1 + RETRY_DELAY * Z.of_nat r5; 1 + 2]
    /\ (~ In (Wait RETRY_DELAY) (timeline (events_of (_init_countdown w cfg s))) ->
        waits_after_broadcasts (timeline (events_of (_init_countdown w cfg s)))
        = [1; 1; 1; 1; 1; 1 + 2]).
Proof.
  intros Hok. pose proof (init_countdown_spec w cfg s) as [_ H].
  rewrite Hok in H. destruct H as (rs & Hlen & Htl).
  destruct rs as [| r0 [| r1 [| r2 [| r3 [| r4 [| r5 [| ? ?]]]]]]]; try discriminate Hlen.
  exists r0, r1, r2, r3, r4, r5.
  assert (Hshape : timeline (events_of (_init_countdown w cfg s))
    = retry_waits r0 ++ Bcast "server_restarting_in_5_secs" :: Wait 1 ::
      retry_waits r1 ++ Bcast "server_restarting_in_4_secs" :: Wait 1 ::
      retry_waits r2 ++ Bcast "server_restarting_in_3_secs" :: Wait 1 ::
      retry_waits r3 ++ Bcast "server_restarting_in_2_secs" :: Wait 1 ::
      retry_waits r4 ++ Bcast "server_restarting_in_1_secs" :: Wait 1 ::
      retry_waits r5 ++ Bcast "server_restarting_NOW!" :: Wait 1 :: Wait 2 :: []).
  { rewrite Htl. cbn [countdown_shape].
    repeat (rewrite <- app_assoc; cbn [app]). reflexivity. }
  assert (Hwaits : waits_after_broadcasts (timeline (events_of (_init_countdown w cfg s)))
       = [1 + RETRY_DELAY * Z.of_nat r1; 1 + RETRY_DELAY * Z.of_nat r2;
          1 + RETRY_DELAY * Z.of_nat r3; 1 + RETRY_DELAY * Z.of_nat r4;
          1 + RETRY_DELAY * Z.of_nat r5; 1 + 2]).
  { rewrite Hshape. unfold retry_waits.
    repeat (rewrite waits_after_broadcasts_retry;
            cbn [waits_after_broadcasts wait_before_next];
            try rewrite wait_before_next_retry;
            cbn [wait_before_next]).
    rewrite !Z.add_0_r. reflexivity. }
  split; [exact Hshape |]. split; [exact Hwaits |].
  intros Hno. rewrite Hwaits.
  assert (Hzero : forall r pre post,
             timeline (events_of (_init_countdown w cfg s))
             = pre ++ retry_waits r ++ post -> r = O).
  { intros [| r] pre post E; [reflexivity |]. exfalso. apply Hno. rewrite E.
    apply in_or_app; right. left. reflexivity. }
  rewrite (Hzero r1 (retry_waits r0 ++ [Bcast "server_restarting_in_5_secs"; Wait 1])
             (Bcast "server_restarting_in_4_secs" :: Wait 1 ::
      retry_waits r2 ++ Bcast "server_restarting_in_3_secs" :: Wait 1 ::
      retry_waits r3 ++ Bcast "server_restarting_in_2_secs" :: Wait 1 ::
      retry_waits r4 ++ Bcast "server_restarting_in_1_secs" :: Wait 1 ::
      retry_waits r5 ++ Bcast "server_restarting_NOW!" :: Wait 1 :: Wait 2 :: []))
    by (rewrite Hshape, <- app_assoc; reflexivity).
  rewrite (Hzero r2 (retry_waits r0 ++ Bcast "server_restarting_in_5_secs" :: Wait 1 ::
      retry_waits r1 ++ [Bcast "server_restarting_in_4_secs"; Wait 1])
             (Bcast "server_restarting_in_3_secs" :: Wait 1 ::
      retry_waits r3 ++ Bcast "server_restarting_in_2_secs" :: Wait 1 ::
      retry_waits r4 ++ Bcast "server_restarting_in_1_secs" :: Wait 1 ::
      retry_waits r5 ++ Bcast "server_restarting_NOW!" :: Wait 1 :: Wait 2 :: []))
    by (rewrite Hshape; repeat (rewrite <- app_assoc; cbn [app]); reflexivity).
  rewrite (Hzero r3 (retry_waits r0 ++ Bcast "server_restarting_in_5_secs" :: Wait 1 ::
      retry_waits r1 ++ Bcast "server_restarting_in_4_secs" :: Wait 1 ::
      retry_waits r2 ++ [Bcast "server_restarting_in_3_secs"; Wait 1])
             (Bcast "server_restarting_in_2_secs" :: Wait 1 ::
      retry_waits r4 ++ Bcast "server_restarting_in_1_secs" :: Wait 1 ::
      retry_waits r5 ++ Bcast "server_restarting_NOW!" :: Wait 1 :: Wait 2 :: []))
    by (rewrite Hshape; repeat (rewrite <- app_assoc; cbn [app]); reflexivity).
  rewrite (Hzero r4 (retry_waits r0 ++ Bcast "server_restarting_in_5_secs" :: Wait 1 ::
      retry_waits r1 ++ Bcast "server_restarting_in_4_secs" :: Wait 1 ::
      retry_waits r2 ++ Bcast "server_restarting_in_3_secs" :: Wait 1 ::
      retry_waits r3 ++ [Bcast "server_restarting_in_2_secs"; Wait 1])
             (Bcast "server_restarting_in_1_secs" :: Wait 1 ::
      retry_waits r5 ++ Bcast "server_restarting_NOW!" :: Wait 1 :: Wait 2 :: []))
    by (rewrite Hshape; repeat (rewrite <- app_assoc; cbn [app]); reflexivity).
  rewrite (Hzero r5 (retry_waits r0 ++ Bcast "server_restarting_in_5_secs" :: Wait 1 ::
      retry_waits r1 ++ Bcast "server_restarting_in_4_secs" :: Wait 1 ::
      retry_waits r2 ++ Bcast "server_restarting_in_3_secs" :: Wait 1 ::
      retry_waits r3 ++ Bcast "server_restarting_in_2_secs" :: Wait 1 ::
      retry_waits r4 ++ [Bcast "server_restarting_in_1_secs"; Wait 1])
             (Bcast "server_restarting_NOW!" :: Wait 1 :: Wait 2 :: []))
    by (rewrite Hshape; repeat (rewrite <- app_assoc; cbn [app]); reflexivity).
  reflexivity.
Qed.

(** C5, an instance: with the container stopped no connection is tried,
    and the waits after the six broadcasts are 1, 1, 1, 1, 1 and 1 + 2. *)
Lemma countdown_waits_when_stopped :
  result_of (_init_countdown stopped_world some_cfg fresh) = Ok tt
  /\ waits_after_broadcasts
       (timeline (events_of (_init_countdown stopped_world some_cfg fresh)))
     = [1; 1; 1; 1; 1; 1 + 2].
Proof.
  split; [reflexivity |].
  destruct (countdown_waits stopped_world some_cfg fresh eq_refl)
    as (r0 & r1 & r2 & r3 & r4 & r5 & _ & _ & H).
  apply H. vm_compute. intuition discriminate.
Defined.

(** C5 as stated fails: when the console drops the connection after the
    first broadcast and refuses one reconnection, RETRY_DELAY is slept on top
    of the countdown's own wait, so 1 + 3 units pass between the broadcasts
    for 5 and 4. *)
Lemma countdown_wait_stretched_by_retry :
  result_of (_init_countdown flaky_world some_cfg fresh) = Ok tt
  /\ waits_after_broadcasts
       (timeline (events_of (_init_countdown flaky_world some_cfg fresh)))
     = [1 + 3; 1; 1; 1; 1; 1 + 2]
  /\ ~ (forall w cfg s,
          result_of (_init_countdown w cfg s) = Ok tt ->
          exists grace,
            waits_after_broadcasts (timeline (events_of (_init_countdown w cfg s)))
            = [1; 1; 1; 1; 1; grace]).
Proof.
  split; [vm_compute; reflexivity |]. split; [vm_compute; reflexivity |].
  intros H. destruct (H flaky_world some_cfg fresh) as [grace Hg].
  - vm_compute; reflexivity.
  - vm_compute in Hg. discriminate Hg.
Qed.

(** ** The connection *)

(** C8.  When the container does not report "running",
    [_establish_rcon_connection] makes no connection attempt, logs exactly
    one error and returns normally, leaving [self.rcon] as it was. *)
Theorem establish_when_not_running (w : World) (cfg : Config) (s : State) :
  status_at w (n_status s) <> "running" ->
  _establish_rcon_connection w cfg s = (Ok tt, tick_status s, [not_running_log])
  /\ connects_of (events_of (_establish_rcon_connection w cfg s)) = []
  /\ errors_of (events_of (_establish_rcon_connection w cfg s))
     = [MsgStr "Container not running. Cannot establish RCON connection."].
Proof.
  intros Hst. apply String.eqb_neq in Hst.
  assert (E : _establish_rcon_connection w cfg s = (Ok tt, tick_status s, [not_running_log])).
  { unfold _establish_rcon_connection, _is_container_running, bind, container_status, ret.
    rewrite Hst. reflexivity. }
  rewrite E. repeat split.
Qed.

(** C8, an instance: a container reported as exited. *)
Lemma establish_when_not_running_witness :
  _establish_rcon_connection stopped_world some_cfg fresh
  = (Ok tt, tick_status fresh, [not_running_log]).
Proof.
  apply (establish_when_not_running stopped_world some_cfg fresh).
  vm_compute. discriminate.
Defined.

Lemma retry_marks_app a b : retry_marks (a ++ b) = retry_marks a ++ retry_marks b.
Proof. apply flat_map_app. Qed.

Lemma connects_of_marks evs :
  List.length (connects_of evs)
  = count_occ (fun a b : bool => Bool.bool_dec a b)
      (map (fun m => match m with Attempt => true | Pause _ => false end) (retry_marks evs))
      true.
Proof.
  induction evs as [| e evs IH]; [reflexivity |].
  destruct e; simpl; auto.
Qed.

Lemma sleeps_of_marks evs :
  sleeps_of evs
  = flat_map (fun m => match m with Attempt => [] | Pause z => [z] end) (retry_marks evs).
Proof.
  induction evs as [| e evs IH]; [reflexivity |].
  unfold sleeps_of, beats_waits, timeline, retry_marks in *.
  destruct e as [z | lvl msg | kw | t cmd | | d c];
    cbn [flat_map beat_of app]; try exact IH.
  - f_equal. exact IH.
  - rewrite flat_map_app, IH.
    destruct (strip_prefix "broadcast " cmd); reflexivity.
Qed.

Section Retries.

Variable w : World.
Variable cfg : Config.

Lemma create_all_fail n : forall s,
  attempts_all_fail w (S n) (n_connect s) (n_command s) ->
  wp (_create_rcon_connection_from w cfg (S n)) (exhausted_post (S n)) s.
Proof.
  induction n as [| n IH]; intros s Hfail.
  - cbn [_create_rcon_connection_from Nat.ltb Nat.leb]. cbn [attempts_all_fail] in Hfail.
    wp_steps. apply wp_Console; [intros Hc | intros e Hc]; cbv beta iota; rewrite Hc in Hfail.
    + destruct Hfail as [[e He] _]. wp_steps.
      apply wp_rcon_command; cbn [rcon set_rcon n_command tick_connect]; cbv beta iota.
      * discriminate.
      * intros c resp [= <-] Hcmd. congruence.
      * intros c e' _ _. wp_steps. cbn [app]. split; [eauto | split].
        -- eexists [_; _; _]. reflexivity.
        -- reflexivity.
    + wp_steps. cbn [app]. split; [eauto | split].
      * eexists [_; _]. reflexivity.
      * reflexivity.
  - remember (S n) as m eqn:Hm.
    cbn [_create_rcon_connection_from]. cbn [attempts_all_fail] in Hfail.
    assert (Hlt : (0 <? m)%nat = true) by (subst m; reflexivity).
    rewrite Hlt.
    assert (Hmarks : attempts_with_pauses (S m) RETRY_DELAY
                     = Attempt :: Pause RETRY_DELAY :: attempts_with_pauses m RETRY_DELAY)
      by (subst m; reflexivity).
    wp_steps. apply wp_Console; [intros Hc | intros e Hc]; cbv beta iota; rewrite Hc in Hfail.
    + destruct Hfail as [[e He] Hrest]. wp_steps.
      apply wp_rcon_command; cbn [rcon set_rcon n_command tick_connect]; cbv beta iota.
      * discriminate.
      * intros c resp [= <-] Hcmd. congruence.
      * intros c e' _ _. wp_steps. eapply wp_mono; [| apply IH; exact Hrest].
        intros r s2 e2 (Hr & [pre Hpre] & Hm2). cbn [app]. split; [exact Hr | split].
        -- rewrite Hpre. rewrite !app_comm_cons. eexists. reflexivity.
        -- rewrite Hmarks. cbn [retry_marks flat_map app]. do 2 f_equal. exact Hm2.
    + wp_steps. eapply wp_mono; [| apply IH; exact Hfail].
      intros r s2 e2 (Hr & [pre Hpre] & Hm2). cbn [app]. split; [exact Hr | split].
      * rewrite Hpre. rewrite !app_comm_cons. eexists. reflexivity.
      * rewrite Hmarks. cbn [retry_marks flat_map app]. do 2 f_equal. exact Hm2.
Qed.

End Retries.

(** C2.  When every connection attempt fails, [_create_rcon_connection]
    makes exactly MAX_RETRIES = 100 attempts, sleeps RETRY_DELAY = 3 between
    consecutive attempts and not after the last one (its last action is the
    "Max retries reached" log), and raises to its caller. *)
Theorem connect_exhausts_retries (w : World) (cfg : Config) (s : State) :
  attempts_all_fail w MAX_RETRIES (n_connect s) (n_command s) ->
  (exists e, result_of (_create_rcon_connection w cfg s) = Raise e)
  /\ retry_marks (events_of (_create_rcon_connection w cfg s))
     = attempts_with_pauses 100 3
  /\ List.length (connects_of (events_of (_create_rcon_connection w cfg s))) = 100%nat
  /\ sleeps_of (events_of (_create_rcon_connection w cfg s)) = repeat 3 99
  /\ exists pre, events_of (_create_rcon_connection w cfg s) = pre ++ [max_retries_log].
Proof.
  intros Hfail.
  destruct (create_all_fail w cfg 99 s Hfail) as (Hr & Hpre & Hmarks).
  fold MAX_RETRIES in Hmarks. fold (_create_rcon_connection w cfg) in *.
  split; [exact Hr |]. split; [exact Hmarks |].
  split; [| split; [| exact Hpre]].
  - rewrite connects_of_marks, Hmarks. vm_compute. reflexivity.
  - rewrite sleeps_of_marks, Hmarks. vm_compute. reflexivity.
Qed.

(** C2, an instance: a console that refuses every connection. *)
Lemma connect_exhausts_retries_witness :
  (exists e, result_of (_create_rcon_connection unreachable_world some_cfg fresh) = Raise e)
  /\ retry_marks (events_of (_create_rcon_connection unreachable_world some_cfg fresh))
     = attempts_with_pauses 100 3
  /\ List.length (connects_of (events_of (_create_rcon_connection unreachable_world some_cfg fresh)))
     = 100%nat
  /\ sleeps_of (events_of (_create_rcon_connection unreachable_world some_cfg fresh))
     = repeat 3 99
  /\ exists pre, events_of (_create_rcon_connection unreachable_world some_cfg fresh)
                 = pre ++ [max_retries_log].
Proof.
  apply (connect_exhausts_retries unreachable_world some_cfg fresh).
  vm_compute. exact I.
Defined.

Lemma connect_kwargs (w : World) (cfg : Config) (s : State) :
  Forall (fun kw => kw = [("host", RCON_IP cfg); ("password", RCON_PASSWORD cfg)])
         (connects_of (events_of (_create_rcon_connection w cfg s))).
Proof.
  destruct (create_spec w cfg MAX_RETRIES s) as (_ & Hev & _).
  apply (console_events_connects cfg). exact Hev.
Qed.

(** C9 (the code at the failing input).  The claim wants every connection
    opened with host, port and password.  Every [Console(...)] call of
    [_create_rcon_connection] passes [host] and [password] only; with
    RCON_PORT configured as "25575" the console is still opened without it. *)
Theorem console_opened_without_port :
  RCON_PORT some_cfg = Some "25575"
  /\ connects_of (events_of (_create_rcon_connection
                               (healthy_world [] 0 stream_silent) some_cfg fresh))
     = [[("host", Some "10.0.0.5"); ("password", Some "hunter2")]]
  /\ forall w cfg s,
       Forall (fun kw => map fst kw = ["host"; "password"])
              (connects_of (events_of (_create_rcon_connection w cfg s))).
Proof.
  split; [reflexivity |]. split; [vm_compute; reflexivity |].
  intros w cfg s. eapply Forall_impl; [| apply connect_kwargs].
  intros kw ->. reflexivity.
Qed.

(** ** Readiness detection *)

Lemma startswith_spec p : forall l,
  PyBytes.startswith p l = true <-> exists post, l = p ++ post.
Proof.
  induction p as [| a p IH]; intros l; simpl.
  - split; [intros _; exists l; reflexivity | reflexivity].
  - destruct l as [| b l].
    + split; [discriminate | intros [post H]; discriminate H].
    + rewrite andb_true_iff, IH. split.
      * intros [Hab [post ->]]. apply byte_dec_bl in Hab. subst b.
        exists post. reflexivity.
      * intros [post [= -> ->]]. split; [apply byte_dec_lb; reflexivity | eauto].
Qed.

(** [needle in hay] holds exactly when [needle] is a contiguous part of
    [hay]. *)
Lemma contains_spec needle : forall hay,
  PyBytes.contains needle hay = true <-> exists pre post, hay = pre ++ needle ++ post.
Proof.
  induction hay as [| b hay IH].
  - cbn [PyBytes.contains]. rewrite orb_false_r, startswith_spec. split.
    + intros [post H]. exists [], post. exact H.
    + intros (pre & post & H). destruct pre; [exists post; exact H |discriminate H].
  - cbn [PyBytes.contains]. rewrite orb_true_iff, startswith_spec, IH. split.
    + intros [[post H] | (pre & post & H)].
      * exists [], post. exact H.
      * exists (b :: pre), post. rewrite H. reflexivity.
    + intros (pre & post & H). destruct pre as [| b' pre].
      * left. exists post. exact H.
      * right. injection H as _ H. exists pre, post. exact H.
Qed.

Section Readiness.

Variable w : World.
Variable k : nat.

Lemma readiness_step fuel i s l :
  logs_at w k i = Some l ->
  readiness_loop w (S fuel) k i s
  = if PyBytes.contains last_message l then (Ok tt, s, [line_log l])
    else (result_of (readiness_loop w fuel k (S i) s),
          state_of (readiness_loop w fuel k (S i) s),
          line_log l :: events_of (readiness_loop w fuel k (S i) s)).
Proof.
  intros H. cbn [readiness_loop]. rewrite H. unfold bind, log, emit.
  destruct (PyBytes.contains last_message l); [reflexivity |].
  unfold result_of, state_of, events_of.
  destruct (readiness_loop w fuel k (S i) s) as [[[[] | e |] s'] evs]; reflexivity.
Qed.

Lemma quiet_for_next i n :
  quiet_for w k i (S n) ->
  (exists l, logs_at w k i = Some l /\ PyBytes.contains last_message l = false)
  /\ quiet_for w k (S i) n.
Proof.
  intros H. split.
  - destruct (H O) as (l & Hl & Hc); [lia |]. rewrite Nat.add_0_r in Hl. eauto.
  - intros j Hj. destruct (H (S j)) as (l & Hl & Hc); [lia |].
    rewrite Nat.add_succ_r in Hl. eauto.
Qed.

Lemma take_lines_present n : forall i,
  (forall j, (j < n)%nat -> logs_at w k (i + j) <> None) ->
  List.length (take_lines (logs_at w k) i n) = n.
Proof.
  induction n as [| n IH]; intros i H; [reflexivity |].
  cbn [take_lines]. pose proof (H O ltac:(lia)) as H0. rewrite Nat.add_0_r in H0.
  destruct (logs_at w k i) as [l |]; [| contradiction].
  cbn [List.length]. f_equal. apply IH. intros j Hj.
  specialize (H (S j) ltac:(lia)). rewrite Nat.add_succ_r in H. exact H.
Qed.

Lemma take_lines_quiet n i :
  quiet_for w k i n -> List.length (take_lines (logs_at w k) i n) = n.
Proof.
  intros H. apply take_lines_present. intros j Hj.
  destruct (H j Hj) as (l & -> & _). discriminate.
Qed.

Lemma readiness_finds n : forall i fuel s l,
  quiet_for w k i n ->
  logs_at w k (i + n) = Some l -> PyBytes.contains last_message l = true ->
  (n < fuel)%nat ->
  readiness_loop w fuel k i s
  = (Ok tt, s, map line_log (take_lines (logs_at w k) i (S n))).
Proof.
  induction n as [| n IH]; intros i fuel s l Hq Hl Hc Hfuel;
    destruct fuel as [| fuel]; try lia.
  - rewrite Nat.add_0_r in Hl. rewrite (readiness_step _ _ _ _ Hl), Hc.
    cbn [take_lines]. rewrite Hl. reflexivity.
  - apply quiet_for_next in Hq. destruct Hq as [(l0 & Hl0 & Hc0) Hq].
    rewrite (readiness_step _ _ _ _ Hl0), Hc0.
    rewrite Nat.add_succ_r in Hl.
    rewrite (IH (S i) fuel s l Hq Hl Hc) by lia.
    cbn [take_lines result_of state_of events_of fst snd]. rewrite Hl0. reflexivity.
Qed.

Lemma readiness_stream_closed n : forall i fuel s,
  quiet_for w k i n ->
  logs_at w k (i + n) = None ->
  (n < fuel)%nat ->
  readiness_loop w fuel k i s
  = (Ok tt, s, map line_log (take_lines (logs_at w k) i n)).
Proof.
  induction n as [| n IH]; intros i fuel s Hq Hl Hfuel;
    destruct fuel as [| fuel]; try lia.
  - rewrite Nat.add_0_r in Hl. cbn [readiness_loop]. rewrite Hl. reflexivity.
  - apply quiet_for_next in Hq. destruct Hq as [(l0 & Hl0 & Hc0) Hq].
    rewrite (readiness_step _ _ _ _ Hl0), Hc0.
    rewrite Nat.add_succ_r in Hl.
    rewrite (IH (S i) fuel s Hq Hl) by lia.
    cbn [take_lines result_of state_of events_of fst snd]. rewrite Hl0. reflexivity.
Qed.

Lemma readiness_still_waiting fuel : forall i s,
  quiet_for w k i fuel ->
  readiness_loop w fuel k i s
  = (OutOfFuel, s, map line_log (take_lines (logs_at w k) i fuel)).
Proof.
  induction fuel as [| fuel IH]; intros i s Hq; [reflexivity |].
  apply quiet_for_next in Hq. destruct Hq as [(l0 & Hl0 & Hc0) Hq].
  rewrite (readiness_step _ _ _ _ Hl0), Hc0, (IH (S i) s Hq).
  cbn [take_lines result_of state_of events_of fst snd]. rewrite Hl0. reflexivity.
Qed.

End Readiness.

(** C1 (amended).  The readiness phase reads the stream in order, forwarding
    each line to [log.info], and stops at the first line that contains the
    sentinel bytes: if the first [n] lines lack the sentinel and line [n]
    contains it, the phase returns having consumed exactly [n + 1] lines.  If
    instead the stream closes after [n] lines without the sentinel, the phase
    returns too, having consumed those [n] lines.  If the stream never closes
    and no line contains the sentinel, the phase never returns. *)
Theorem readiness_phase (w : World) (k : nat) (s : State) :
  (forall n,
      quiet_for w k 0 n ->
      (forall l fuel,
          logs_at w k n = Some l -> PyBytes.contains last_message l = true ->
          (n < fuel)%nat ->
          readiness_loop w fuel k 0 s
          = (Ok tt, s, map line_log (take_lines (logs_at w k) 0 (S n)))
          /\ List.length (take_lines (logs_at w k) 0 (S n)) = S n)
      /\ (forall fuel,
             logs_at w k n = None -> (n < fuel)%nat ->
             readiness_loop w fuel k 0 s
             = (Ok tt, s, map line_log (take_lines (logs_at w k) 0 n))
             /\ List.length (take_lines (logs_at w k) 0 n) = n))
  /\ ((forall n, quiet_for w k 0 n) ->
      forall fuel, result_of (readiness_loop w fuel k 0 s) = OutOfFuel).
Proof.
  split.
  - intros n Hq. split.
    + intros l fuel Hl Hc Hfuel. split.
      * apply (readiness_finds w k n 0 fuel s l); auto.
      * apply take_lines_present. intros j Hj. cbn [Nat.add].
        destruct (Nat.eq_dec j n) as [-> | Hne]; [congruence |].
        destruct (Hq j ltac:(lia)) as (l' & Hl' & _). cbn [Nat.add] in Hl'. congruence.
    + intros fuel Hl Hfuel. split.
      * apply (readiness_stream_closed w k n 0 fuel s); auto.
      * apply (take_lines_quiet w k n 0 Hq).
  - intros Hq fuel. rewrite (readiness_still_waiting w k fuel 0 s (Hq fuel)).
    reflexivity.
Qed.

(** C1, an instance: ten unrelated lines, then the sentinel line; the
    phase returns after exactly eleven lines. *)
Lemma readiness_eleven_lines :
  readiness_loop (healthy_world [] 0 stream_10_then_sentinel) 20 0 0 fresh
  = (Ok tt, fresh,
     map line_log (take_lines (logs_at (healthy_world [] 0 stream_10_then_sentinel) 0) 0 11))
  /\ List.length (take_lines (logs_at (healthy_world [] 0 stream_10_then_sentinel) 0) 0 11)
     = 11%nat.
Proof.
  destruct (readiness_phase (healthy_world [] 0 stream_10_then_sentinel) 0 fresh) as [H _].
  destruct (H 10%nat) as [H1 _].
  - intros j Hj.
    do 10 (destruct j as [| j];
           [eexists; split; [reflexivity | vm_compute; reflexivity] |]).
    lia.
  - apply (H1 sentinel_line 20%nat); [reflexivity | vm_compute; reflexivity | lia].
Defined.

(** C1 as stated fails in its last part: a stream without the sentinel that
    closes lets the phase return.  Two unrelated lines and then the end of
    the stream: the [for] loop ends after those two lines. *)
Lemma readiness_returns_when_stream_closes :
  (forall i l, stream_closes_early i = Some l -> PyBytes.contains last_message l = false)
  /\ readiness_loop (healthy_world [] 0 stream_closes_early) 3 0 0 fresh
     = (Ok tt, fresh, [line_log (junk_line 0); line_log (junk_line 1)])
  /\ ~ (forall w k s,
          (forall i l, logs_at w k i = Some l -> PyBytes.contains last_message l = false) ->
          forall fuel, result_of (readiness_loop w fuel k 0 s) = OutOfFuel).
Proof.
  assert (Hquiet : forall i l, stream_closes_early i = Some l ->
                               PyBytes.contains last_message l = false).
  { intros i l. destruct i as [| [| i]]; intros [= <-]; vm_compute; reflexivity. }
  split; [exact Hquiet |]. split; [vm_compute; reflexivity |].
  intros H.
  specialize (H (healthy_world [] 0 stream_closes_early) O fresh Hquiet 3%nat).
  vm_compute in H. discriminate H.
Qed.

(** ** The schedule *)

Lemma sched_clock_frame s s' : sched_frame s s' -> clock_frame s s'.
Proof. unfold sched_frame, clock_frame. tauto. Qed.

Lemma set_new_restart_time_eq (w : World) (s : State) :
  _set_new_restart_time w s
  = (Ok tt,
     set_next_start (now_at w (n_now s) + timedelta_hours RESTART_TIME) (tick_now s),
     [EvLog DEBUG (MsgStr "new time has been set")]).
Proof. reflexivity. Qed.

Lemma calculate_restart_time_eq (w : World) (s : State) (ns : Z) :
  next_start s = Some ns ->
  _calculate_restart_time w s = (Ok tt, calculated w ns s, []).
Proof.
  intros H. unfold _calculate_restart_time, bind, get. rewrite H. reflexivity.
Qed.

Lemma calculate_restart_time_unset (w : World) (s : State) :
  next_start s = None ->
  _calculate_restart_time w s = (Raise AttributeError_next_start, s, []).
Proof.
  intros H. unfold _calculate_restart_time, bind, get. rewrite H. reflexivity.
Qed.

Lemma init_eq (w : World) :
  __init__ w fresh
  = (Ok tt,
     calculated w (now_at w 0 + timedelta_hours RESTART_TIME)
       (set_next_start (now_at w 0 + timedelta_hours RESTART_TIME) (tick_now fresh)),
     [EvLog DEBUG (MsgStr "new time has been set")]).
Proof. reflexivity. Qed.

Section Schedule.

Variable w : World.
Variable cfg : Config.

Lemma readiness_keeps_state fuel k : forall i s,
  wp (readiness_loop w fuel k i)
     (fun r s' _ => s' = s /\ forall e, r <> Raise e) s.
Proof.
  induction fuel as [| fuel IH]; intros i s.
  - apply wp_out_of_fuel. split; [reflexivity | discriminate].
  - cbn [readiness_loop]. destruct (logs_at w k i) as [l |].
    + wp_steps. destruct (PyBytes.contains last_message l).
      * wp_steps. split; [reflexivity | discriminate].
      * eapply wp_mono; [| apply IH]. intros r s' evs H. exact H.
    + wp_steps. split; [reflexivity | discriminate].
Qed.

Lemma restart_spec fuel s : wp (restart w cfg fuel) (restart_post w s) s.
Proof.
  unfold restart. wp_step.
  eapply wp_mono; [| apply init_countdown_spec].
  intros r s1 e1 [Hf1 _]. apply sched_clock_frame in Hf1.
  destruct r as [[] | e |]; [| left; exact Hf1 | exact I].
  wp_step. eapply wp_mono; [| apply command_spec].
  intros r s2 e2 [Hf2 _]. apply sched_clock_frame in Hf2.
  assert (H2 : clock_frame s s2) by (destruct Hf1, Hf2; split; congruence).
  destruct r as [a | e |]; [| left; exact H2 | exact I].
  wp_step. apply wp_log_to_discord; [intros _ | intros e _; left; exact H2].
  wp_step. apply wp_container_restart; [intros _ | intros e _; left; exact H2].
  wp_steps. eapply wp_mono; [| apply readiness_keeps_state].
  intros r s3 e3 [-> Hr].
  destruct r as [[] | e |]; [| exfalso; exact (Hr e eq_refl) | exact I].
  unfold _set_new_restart_time. wp_steps.
  unfold _calculate_restart_time. wp_steps.
  cbn [next_start set_next_start tick_now tick_logs tick_restart tick_discord].
  wp_steps.
  assert (Hres : forall s4,
             next_start s4 = Some (now_at w (n_now s2) + timedelta_hours RESTART_TIME) ->
             n_now s4 = S (S (n_now s2)) ->
             next_start s4 = Some (now_at w (n_now s) + timedelta_hours RESTART_TIME)
             /\ n_now s4 = S (S (n_now s))).
  { intros s4 Hn Hk. destruct H2 as [_ Hnow]. rewrite <- Hnow. auto. }
  apply wp_log_to_discord; [intros _ | intros e _; right; apply Hres; reflexivity].
  wp_steps. apply Hres; reflexivity.
Qed.

Lemma notify_restart_eq s ns :
  next_start s = Some ns ->
  notify_restart w cfg s
  = (match result_of (_broadcast w cfg (notify_message (calculated w ns s)) (calculated w ns s)) with
     | Ok _ => Ok tt
     | Raise e => Raise e
     | OutOfFuel => OutOfFuel
     end,
     state_of (_broadcast w cfg (notify_message (calculated w ns s)) (calculated w ns s)),
     events_of (_broadcast w cfg (notify_message (calculated w ns s)) (calculated w ns s))).
Proof.
  intros H. unfold notify_restart.
  unfold bind at 1. rewrite (calculate_restart_time_eq w s ns H).
  unfold bind, get, ret, result_of, state_of, events_of.
  change (notify_message (calculated w ns s))
    with ("server_restart_in_" +++ fmt_attr (hours (calculated w ns s))
          +++ (if attr_is_one (hours (calculated w ns s)) then "hr" else "hrs")
          +++ "_" +++ fmt_attr (minutes (calculated w ns s))
          +++ (if attr_is_one (minutes (calculated w ns s)) then "min" else "mins")).
  destruct (_broadcast w cfg _ (calculated w ns s)) as [[[a | e |] s'] evs];
    cbn [app fst snd]; rewrite ?app_nil_r; reflexivity.
Qed.

Lemma notify_restart_unset s :
  next_start s = None ->
  notify_restart w cfg s = (Raise AttributeError_next_start, s, []).
Proof.
  intros H. unfold notify_restart.
  unfold bind at 1. rewrite (calculate_restart_time_unset w s H). reflexivity.
Qed.

(** After [notify_restart] with [next_start = ns]: one more clock reading,
    the recalculated attributes, [next_start] as before. *)
Lemma notify_restart_state s ns :
  next_start s = Some ns ->
  sched_frame (calculated w ns s) (state_of (notify_restart w cfg s)).
Proof.
  intros H. rewrite (notify_restart_eq s ns H). cbn [state_of fst snd].
  destruct (broadcast_spec w cfg (notify_message (calculated w ns s)) (calculated w ns s))
    as [Hf _].
  exact Hf.
Qed.

Lemma notify_restart_next_start s :
  next_start (state_of (notify_restart w cfg s)) = next_start s.
Proof.
  destruct (next_start s) as [ns |] eqn:H.
  - destruct (notify_restart_state s ns H) as (Hn & _). rewrite Hn, <- H. reflexivity.
  - rewrite (notify_restart_unset s H). exact H.
Qed.

End Schedule.

Lemma restart_ok_reschedules (w : World) (cfg : Config) (fuel : nat) (s : State) :
  result_of (restart w cfg fuel s) = Ok tt ->
  next_start (state_of (restart w cfg fuel s))
  = Some (now_at w (n_now s) + timedelta_hours RESTART_TIME)
  /\ n_now (state_of (restart w cfg fuel s)) = S (S (n_now s)).
Proof.
  intros Hok. pose proof (restart_spec w cfg fuel s) as H.
  unfold wp, restart_post in H. rewrite Hok in H. exact H.
Qed.

(** C6 (amended).  In every state the instance can reach, [next_start] is
    set, and it is exactly 2 hours past one of the clock readings already
    taken: the reading of the latest reschedule.  Every [restart()] that
    completes recomputes it from the first clock reading it takes.  Nothing
    keeps [next_start] ahead of the clock once those 2 hours have passed. *)
Theorem next_start_invariant (w : World) (cfg : Config) (s : State) :
  reachable w cfg s ->
  (exists k, (k < n_now s)%nat
             /\ next_start s = Some (now_at w k + timedelta_hours RESTART_TIME)
             /\ now_at w k < now_at w k + timedelta_hours RESTART_TIME)
  /\ (forall fuel,
         result_of (restart w cfg fuel s) = Ok tt ->
         next_start (state_of (restart w cfg fuel s))
         = Some (now_at w (n_now s) + timedelta_hours RESTART_TIME)).
Proof.
  intros Hreach. split.
  - induction Hreach as [| s fuel Hreach (k & Hk & Hns & Hlt) Hfuel | s Hreach (k & Hk & Hns & Hlt)].
    + change (RestartManager_call w None) with (__init__ w fresh).
      rewrite init_eq. exists O. cbn. split; [lia | split; [reflexivity | lia]].
    + pose proof (restart_spec w cfg fuel s) as H. unfold wp, restart_post in H.
      destruct (result_of (restart w cfg fuel s)) as [[] | e |]; [| | contradiction].
      * destruct H as [Hns' Hnow]. exists (n_now s).
        split; [lia | split; [exact Hns' | unfold timedelta_hours, RESTART_TIME, us_per_second; lia]].
      * destruct H as [[Hns' Hnow] | [Hns' Hnow]].
        -- exists k. split; [lia | split; [congruence | exact Hlt]].
        -- exists (n_now s).
           split; [lia | split; [exact Hns' | unfold timedelta_hours, RESTART_TIME, us_per_second; lia]].
    + exists k. rewrite notify_restart_next_start. split; [| split; [exact Hns | exact Hlt]].
      destruct (notify_restart_state w cfg s _ Hns) as (_ & _ & _ & _ & Hnow & _).
      rewrite Hnow. cbn. lia.
  - intros fuel Hok. apply (restart_ok_reschedules w cfg fuel s Hok).
Qed.

(** C6, an instance: the state right after construction. *)
Lemma next_start_invariant_witness :
  exists k, (k < n_now (state_of (__init__ ticking_world fresh)))%nat
            /\ next_start (state_of (__init__ ticking_world fresh))
               = Some (now_at ticking_world k + timedelta_hours RESTART_TIME)
            /\ now_at ticking_world k < now_at ticking_world k + timedelta_hours RESTART_TIME.
Proof.
  exact (proj1 (next_start_invariant ticking_world some_cfg _
                  (reach_init ticking_world some_cfg))).
Defined.

(** C6 as stated fails: [next_start] is only ever set to two hours after a
    clock reading, and the clock moves on.  Constructed at time 0, looked at
    again 2 h 5 s later: [next_start] = 7200 s lies in the past. *)
Lemma next_start_overtaken_by_clock :
  reachable (overdue_world 5000000) some_cfg (state_of (__init__ (overdue_world 5000000) fresh))
  /\ next_start (state_of (__init__ (overdue_world 5000000) fresh)) = Some 7200000000
  /\ current_time (overdue_world 5000000) (state_of (__init__ (overdue_world 5000000) fresh))
     = 7205000000
  /\ ~ (forall w cfg s,
          reachable w cfg s ->
          exists ns, next_start s = Some ns /\ current_time w s < ns).
Proof.
  split; [apply reach_init |]. split; [reflexivity |]. split; [reflexivity |].
  intros H.
  destruct (H (overdue_world 5000000) some_cfg _ (reach_init _ some_cfg)) as (ns & Hns & Hlt).
  vm_compute in Hns. injection Hns as <-. vm_compute in Hlt. discriminate Hlt.
Qed.

(** ** Time remaining *)

Lemma hms_decompose_mono t1 t2 :
  t1 <= t2 -> hms_le (hms_decompose t1) (hms_decompose t2).
Proof.
  intros Hle. unfold hms_decompose, hms_le.
  Z.div_mod_to_equations. lia.
Qed.

Lemma int_total_seconds_mono a b :
  a <= b -> int_total_seconds a <= int_total_seconds b.
Proof.
  intros H. unfold int_total_seconds, us_per_second.
  apply Z.quot_le_mono; lia.
Qed.

Lemma sorted_map_seq {A} (R : A -> A -> Prop) (f : nat -> A) n : forall start,
  (forall i j, (i <= j)%nat -> R (f i) (f j)) ->
  StronglySorted R (map f (seq start n)).
Proof.
  induction n as [| n IH]; intros start H; cbn [seq map]; constructor.
  - apply IH, H.
  - apply Forall_forall. intros x Hx. apply in_map_iff in Hx.
    destruct Hx as (j & <- & Hj). apply in_seq in Hj. apply H. lia.
Qed.

Section TimeRemaining.

Variable w : World.
Variable cfg : Config.

Lemma notify_states_hms n : forall s ns,
  next_start s = Some ns ->
  map hms_of (notify_states w cfg n s) = map (fun j => Some (remaining w ns s j)) (seq 0 n).
Proof.
  induction n as [| n IH]; intros s ns Hns; [reflexivity |].
  cbn [notify_states seq map].
  destruct (notify_restart_state w cfg s ns Hns) as (Hn & Hh & Hm & Hs & Hnow & _).
  f_equal.
  - unfold hms_of. rewrite Hh, Hm, Hs. unfold remaining. rewrite Nat.add_0_r. reflexivity.
  - rewrite (IH _ ns) by (rewrite Hn; exact Hns).
    rewrite <- seq_shift, map_map. apply map_ext. intros j.
    unfold remaining. rewrite Hnow. cbn [calculated n_now set_hms tick_now].
    rewrite Nat.add_succ_r. reflexivity.
Qed.

End TimeRemaining.




Lemma str_of_int_negative h : h < 0 -> exists rest, str_of_int h = String "-" rest.
Proof.
  destruct h as [| p | p]; intros H; try lia.
  eexists. reflexivity.
Qed.

(** C10 (amended).  If [notify_restart()] runs when the clock is at least
    one whole second past [next_start], the floor-division decomposition
    gives a negative hours value with minutes and seconds still in [0, 59]
    (5 seconds past gives hours = -1, minutes = 59), and the message handed
    to [_broadcast] carries that negative hours value, minus sign included:
    nothing fails and nothing is clamped.  (The call as a whole still raises
    if the console connection cannot be made.)  Less than a second past,
    [int()] truncates the remaining time to 0 and hours is 0. *)
Theorem notify_when_overdue (w : World) (cfg : Config) (s : State) (ns : Z) :
  next_start s = Some ns ->
  us_per_second <= now_at w (n_now s) - ns ->
  exists h m sec,
    hours (state_of (notify_restart w cfg s)) = Some h
    /\ minutes (state_of (notify_restart w cfg s)) = Some m
    /\ seconds (state_of (notify_restart w cfg s)) = Some sec
    /\ h < 0 /\ 0 <= m < 60 /\ 0 <= sec < 60
    /\ h * 3600 + m * 60 + sec = int_total_seconds (ns - now_at w (n_now s))
    /\ (exists rest, str_of_int h = String "-" rest)
    /\ ((result_of (notify_restart w cfg s) = Ok tt
         /\ broadcasts_of (events_of (notify_restart w cfg s))
            = ["server_restart_in_" +++ str_of_int h +++ "hrs_"
               +++ str_of_int m +++ (if m =? 1 then "min" else "mins")])
        \/ (exists e, result_of (notify_restart w cfg s) = Raise e
                      /\ In max_retries_log (events_of (notify_restart w cfg s)))).
Proof.
  intros Hns Hlate.
  set (t := int_total_seconds (ns - now_at w (n_now s))).
  assert (Ht : t <= -1).
  { unfold t, int_total_seconds. unfold us_per_second in *.
    replace (ns - now_at w (n_now s)) with (- (now_at w (n_now s) - ns)) by lia.
    rewrite Z.quot_opp_l by lia.
    assert (1 <= Z.quot (now_at w (n_now s) - ns) 1000000)
      by (apply Z.quot_le_lower_bound; lia).
    lia. }
  exists (t / 3600), ((t mod 3600) / 60), ((t mod 3600) mod 60).
  destruct (notify_restart_state w cfg s ns Hns) as (_ & Hh & Hm & Hs & _).
  assert (Hneg : t / 3600 < 0) by (Z.div_mod_to_equations; lia).
  split; [exact Hh |]. split; [exact Hm |]. split; [exact Hs |].
  split; [exact Hneg |].
  split; [Z.div_mod_to_equations; lia |]. split; [Z.div_mod_to_equations; lia |].
  split; [Z.div_mod_to_equations; lia |].
  split; [apply str_of_int_negative, Hneg |].
  rewrite (notify_restart_eq w cfg s ns Hns).
  cbn [result_of state_of events_of fst snd].
  assert (Hmsg : notify_message (calculated w ns s)
                 = "server_restart_in_" +++ str_of_int (t / 3600) +++ "hrs_"
                   +++ str_of_int ((t mod 3600) / 60)
                   +++ (if (t mod 3600) / 60 =? 1 then "min" else "mins")).
  { unfold notify_message. cbn [calculated hours minutes set_hms fmt_attr attr_is_one].
    fold t. replace (t / 3600 =? 1) with false by (symmetry; apply Z.eqb_neq; lia).
    reflexivity. }
  rewrite Hmsg.
  destruct (broadcast_timeline w cfg
              ("server_restart_in_" +++ str_of_int (t / 3600) +++ "hrs_"
               +++ str_of_int ((t mod 3600) / 60)
               +++ (if (t mod 3600) / 60 =? 1 then "min" else "mins"))
              (calculated w ns s)) as (_ & n & Hr).
  unfold result_of, events_of in *.
  destruct (_broadcast w cfg _ (calculated w ns s)) as [[[a | e |] s'] evs];
    cbn [fst snd] in *.
  - left. split; [reflexivity |]. unfold broadcasts_of. rewrite Hr.
    rewrite beats_broadcasts_retry. reflexivity.
  - right. exists e. destruct Hr as [_ Hin]. split; [reflexivity | exact Hin].
  - contradiction.
Qed.

(** C10, an instance: five seconds past the deadline the message reads
    -1hrs_59mins. *)
Lemma notify_five_seconds_overdue :
  hours (state_of (notify_restart (overdue_world 5000000) some_cfg
                                  (state_of (__init__ (overdue_world 5000000) fresh))))
  = Some (-1)
  /\ minutes (state_of (notify_restart (overdue_world 5000000) some_cfg
                                       (state_of (__init__ (overdue_world 5000000) fresh))))
     = Some 59
  /\ broadcasts_of (events_of (notify_restart (overdue_world 5000000) some_cfg
                                 (state_of (__init__ (overdue_world 5000000) fresh))))
     = ["server_restart_in_-1hrs_59mins"].
Proof.
  destruct (notify_when_overdue (overdue_world 5000000) some_cfg
              (state_of (__init__ (overdue_world 5000000) fresh)) 7200000000)
    as (h & m & sec & Hh & Hm & _).
  - reflexivity.
  - vm_compute. discriminate.
  - split; [| split]; vm_compute; reflexivity.
Defined.

(** C10 as stated fails just past the deadline: half a second after
    [next_start], [int(-0.5)] is 0, so hours is 0 and the message reads
    0hrs_0mins. *)
Lemma notify_half_second_overdue :
  next_start (state_of (__init__ (overdue_world 500000) fresh)) = Some 7200000000
  /\ current_time (overdue_world 500000) (state_of (__init__ (overdue_world 500000) fresh))
     = 7200500000
  /\ hours (state_of (notify_restart (overdue_world 500000) some_cfg
                                     (state_of (__init__ (overdue_world 500000) fresh))))
     = Some 0
  /\ broadcasts_of (events_of (notify_restart (overdue_world 500000) some_cfg
                                 (state_of (__init__ (overdue_world 500000) fresh))))
     = ["server_restart_in_0hrs_0mins"]
  /\ ~ (forall w cfg s ns,
          next_start s = Some ns ->
          ns < current_time w s ->
          exists h, hours (state_of (notify_restart w cfg s)) = Some h /\ h < 0).
Proof.
  split; [reflexivity |]. split; [reflexivity |].
  split; [vm_compute; reflexivity |]. split; [vm_compute; reflexivity |].
  intros H.
  destruct (H (overdue_world 500000) some_cfg
              (state_of (__init__ (overdue_world 500000) fresh)) 7200000000)
    as (h & Hh & Hneg).
  - reflexivity.
  - vm_compute. reflexivity.
  - vm_compute in Hh. injection Hh as <-. lia.
Qed.

(** * Further properties of the code *)

(** ** Connecting *)

Section Connecting.

Variable w : World.
Variable cfg : Config.

Lemma create_fail_then_succeed n : forall m s,
  (n < m)%nat ->
  attempts_fail_then_succeed w n (n_connect s) (n_command s) ->
  wp (_create_rcon_connection_from w cfg m)
     (fun r s' evs =>
        r = Ok tt
        /\ rcon s' = Some (n_connect s + n)%nat
        /\ n_connect s' = (n_connect s + S n)%nat
        /\ retry_marks evs = attempts_with_pauses (S n) RETRY_DELAY
        /\ exists pre, evs = pre ++ [connected_log]) s.
Proof.
  induction n as [| n IH]; intros [| m] s Hlt Hplan; try lia.
  - cbn [attempts_fail_then_succeed] in Hplan. destruct Hplan as [Hc [resp Hresp]].
    cbn [_create_rcon_connection_from]. wp_steps.
    apply wp_Console; [intros _ | intros e He; congruence]; cbv beta iota.
    wp_steps. apply wp_rcon_command; cbn [rcon set_rcon n_command tick_connect]; cbv beta iota.
    + discriminate.
    + intros c r [= <-] _. wp_steps. cbn [app rcon set_rcon tick_command tick_connect n_connect].
      split; [reflexivity |]. split; [f_equal; lia |]. split; [lia |].
      split; [reflexivity |]. eexists [_; _]. reflexivity.
    + intros c e [= <-] He. congruence.
  - cbn [attempts_fail_then_succeed] in Hplan. cbn [_create_rcon_connection_from].
    assert (Hm : (0 <? m)%nat = true) by (apply Nat.ltb_lt; lia). rewrite Hm.
    assert (Hrec : forall s1 pre,
               n_connect s1 = S (n_connect s) ->
               attempts_fail_then_succeed w n (n_connect s1) (n_command s1) ->
               retry_marks pre = [Attempt; Pause RETRY_DELAY] ->
               wp (_create_rcon_connection_from w cfg m)
                  (fun r s' evs =>
                     r = Ok tt
                     /\ rcon s' = Some (n_connect s + S n)%nat
                     /\ n_connect s' = (n_connect s + S (S n))%nat
                     /\ retry_marks (pre ++ evs) = attempts_with_pauses (S (S n)) RETRY_DELAY
                     /\ exists pre', pre ++ evs = pre' ++ [connected_log]) s1).
    { intros s1 pre Hn1 Hplan1 Hpre. eapply wp_mono; [| apply (IH m s1); [lia | exact Hplan1]].
      intros r s' evs (Hr & Hrc & Hnc & Hmarks & pre' & Hev).
      split; [exact Hr |]. split; [rewrite Hrc; f_equal; lia |]. split; [lia |].
      split.
      - rewrite retry_marks_app, Hpre, Hmarks. reflexivity.
      - exists (pre ++ pre'). rewrite Hev, app_assoc. reflexivity. }
    wp_steps. apply wp_Console; [intros Hc | intros e Hc]; cbv beta iota; rewrite Hc in Hplan.
    + destruct Hplan as [[e He] Hrest]. wp_steps.
      apply wp_rcon_command; cbn [rcon set_rcon n_command tick_connect]; cbv beta iota.
      * discriminate.
      * intros c resp [= <-] Hcmd. congruence.
      * intros c e' _ _. wp_steps. cbn [app].
        apply (Hrec _ [_; _; _; _; _]); [reflexivity | exact Hrest | reflexivity].
    + wp_steps. cbn [app].
      apply (Hrec _ [_; _; _; _]); [reflexivity | exact Hplan | reflexivity].
Qed.

Lemma create_attempts_bounded m : forall s,
  wp (_create_rcon_connection_from w cfg (S m))
     (fun r s' evs =>
        exists k, (k <= m)%nat
          /\ retry_marks evs = attempts_with_pauses (S k) RETRY_DELAY
          /\ match r with
             | Ok _ => rcon s' = Some (n_connect s + k)%nat
                       /\ exists pre, evs = pre ++ [connected_log]
             | Raise _ => k = m /\ exists pre, evs = pre ++ [max_retries_log]
             | OutOfFuel => False
             end) s.
Proof.
  induction m as [| m IH]; intros s.
  - cbn [_create_rcon_connection_from Nat.ltb Nat.leb]. wp_steps.
    apply wp_Console; [intros _ | intros e _]; cbv beta iota.
    + wp_steps. apply wp_rcon_command; cbn [rcon set_rcon n_command tick_connect]; cbv beta iota.
      * discriminate.
      * intros c r [= <-] _. wp_steps. cbn [app rcon set_rcon tick_command tick_connect].
        exists O. split; [lia |]. split; [reflexivity |].
        split; [f_equal; lia | eexists [_; _]; reflexivity].
      * intros c e _ _. wp_steps. cbn [app]. exists O. split; [lia |].
        split; [reflexivity |]. split; [reflexivity | eexists [_; _; _]; reflexivity].
    + wp_steps. cbn [app]. exists O. split; [lia |].
      split; [reflexivity |]. split; [reflexivity | eexists [_; _]; reflexivity].
  - remember (S m) as m1 eqn:Hm1. cbn [_create_rcon_connection_from].
    assert (Hlt : (0 <? m1)%nat = true) by (subst m1; reflexivity). rewrite Hlt.
    assert (Hrec : forall s1 pre,
               n_connect s1 = S (n_connect s) ->
               retry_marks pre = [Attempt; Pause RETRY_DELAY] ->
               wp (_create_rcon_connection_from w cfg m1)
                  (fun r s' evs =>
                     exists k, (k <= m1)%nat
                       /\ retry_marks (pre ++ evs) = attempts_with_pauses (S k) RETRY_DELAY
                       /\ match r with
                          | Ok _ => rcon s' = Some (n_connect s + k)%nat
                                    /\ exists pre', pre ++ evs = pre' ++ [connected_log]
                          | Raise _ => k = m1 /\ exists pre', pre ++ evs = pre' ++ [max_retries_log]
                          | OutOfFuel => False
                          end) s1).
    { intros s1 pre Hn1 Hpre. subst m1. eapply wp_mono; [| apply (IH s1)].
      intros r s' evs (k & Hk & Hmarks & Hr). exists (S k). split; [lia |]. split.
      - rewrite retry_marks_app, Hpre, Hmarks. reflexivity.
      - destruct r as [[] | e |]; [| | exact Hr].
        + destruct Hr as [Hrc [pre' ->]]. split; [rewrite Hrc; f_equal; lia |].
          exists (pre ++ pre'). rewrite app_assoc. reflexivity.
        + destruct Hr as [-> [pre' ->]]. split; [reflexivity |].
          exists (pre ++ pre'). rewrite app_assoc. reflexivity. }
    wp_steps. apply wp_Console; [intros _ | intros e _]; cbv beta iota.
    + wp_steps. apply wp_rcon_command; cbn [rcon set_rcon n_command tick_connect]; cbv beta iota.
      * discriminate.
      * intros c r [= <-] _. wp_steps. cbn [app rcon set_rcon tick_command tick_connect].
        exists O. split; [lia |]. split; [reflexivity |].
        split; [f_equal; lia | eexists [_; _]; reflexivity].
      * intros c e' _ _. wp_steps. cbn [app].
        apply (Hrec _ [_; _; _; _; _]); reflexivity.
    + wp_steps. cbn [app]. apply (Hrec _ [_; _; _; _]); reflexivity.
Qed.

End Connecting.

(** X1.  When the first [n] connection attempts fail and the next one goes
    through (n < MAX_RETRIES), [_create_rcon_connection] returns normally
    after exactly [n + 1] attempts with RETRY_DELAY slept between consecutive
    attempts and none after the successful one: its last action is the
    "successfully established" log, and [self.rcon] is the console the last
    attempt opened. *)
Theorem create_returns_on_first_success (w : World) (cfg : Config) (s : State) (n : nat) :
  (n < MAX_RETRIES)%nat ->
  attempts_fail_then_succeed w n (n_connect s) (n_command s) ->
  result_of (_create_rcon_connection w cfg s) = Ok tt
  /\ rcon (state_of (_create_rcon_connection w cfg s)) = Some (n_connect s + n)%nat
  /\ retry_marks (events_of (_create_rcon_connection w cfg s))
     = attempts_with_pauses (S n) RETRY_DELAY
  /\ exists pre, events_of (_create_rcon_connection w cfg s) = pre ++ [connected_log].
Proof.
  intros Hn Hplan.
  destruct (create_fail_then_succeed w cfg n MAX_RETRIES s Hn Hplan)
    as (Hr & Hrc & _ & Hmarks & Hpre).
  repeat split; assumption.
Qed.

(** X1, an instance: two refusals, then success, is three attempts and two
    pauses. *)
Lemma create_returns_on_third_attempt :
  result_of (_create_rcon_connection third_time_lucky_world some_cfg fresh) = Ok tt
  /\ rcon (state_of (_create_rcon_connection third_time_lucky_world some_cfg fresh))
     = Some 2%nat
  /\ retry_marks (events_of (_create_rcon_connection third_time_lucky_world some_cfg fresh))
     = [Attempt; Pause 3; Attempt; Pause 3; Attempt]
  /\ exists pre, events_of (_create_rcon_connection third_time_lucky_world some_cfg fresh)
                 = pre ++ [connected_log].
Proof.
  apply (create_returns_on_first_success third_time_lucky_world some_cfg fresh 2).
  - unfold MAX_RETRIES. lia.
  - cbn. split; [reflexivity | eexists; reflexivity].
Defined.

(** X2.  Whatever the console does, [_create_rcon_connection] comes back
    after at most MAX_RETRIES = 100 attempts, with RETRY_DELAY slept between
    consecutive attempts only.  It returns normally as soon as one attempt
    succeeds, leaving that attempt's console in [self.rcon]; it raises only
    after exactly 100 attempts, and then its last action is the "Max retries
    reached" log. *)
Theorem create_attempts_at_most_max (w : World) (cfg : Config) (s : State) :
  exists k, (1 <= k <= MAX_RETRIES)%nat
    /\ retry_marks (events_of (_create_rcon_connection w cfg s))
       = attempts_with_pauses k RETRY_DELAY
    /\ match result_of (_create_rcon_connection w cfg s) with
       | Ok _ =>
           rcon (state_of (_create_rcon_connection w cfg s))
           = Some (n_connect s + k - 1)%nat
           /\ exists pre, events_of (_create_rcon_connection w cfg s)
                          = pre ++ [connected_log]
       | Raise _ =>
           k = MAX_RETRIES
           /\ exists pre, events_of (_create_rcon_connection w cfg s)
                          = pre ++ [max_retries_log]
       | OutOfFuel => False
       end.
Proof.
  destruct (create_attempts_bounded w cfg 99 s) as (k & Hk & Hmarks & Hr).
  fold MAX_RETRIES in *. fold (_create_rcon_connection w cfg) in *.
  exists (S k). split; [unfold MAX_RETRIES; lia |]. split; [exact Hmarks |].
  destruct (result_of (_create_rcon_connection w cfg s)) as [[] | e |]; [| | exact Hr].
  - destruct Hr as [Hrc Hpre]. split; [rewrite Hrc; f_equal; lia | exact Hpre].
  - destruct Hr as [-> Hpre]. split; [reflexivity | exact Hpre].
Qed.

Lemma running_eqb (st : string) : st = "running" -> negb (st =? "running")%string = false.
Proof. intros ->. reflexivity. Qed.

Lemma not_running_eqb (st : string) : st <> "running" -> negb (st =? "running")%string = true.
Proof. intros H. apply String.eqb_neq in H. rewrite H. reflexivity. Qed.

(** X3.  With the container running and a console that answers the probe,
    [_establish_rcon_connection] does exactly one thing: it sends the one
    ["info"] probe.  It opens no console, logs nothing, sleeps never, and
    leaves [self.rcon] alone. *)
Theorem establish_reuses_live_connection (w : World) (cfg : Config) (s : State)
    (c : nat) (resp : string) :
  status_at w (n_status s) = "running" ->
  rcon s = Some c ->
  command_at w (n_command s) c "info" = inl resp ->
  _establish_rcon_connection w cfg s
  = (Ok tt, tick_command (tick_status s), [EvCommand (Some c) "info"])
  /\ rcon (state_of (_establish_rcon_connection w cfg s)) = Some c.
Proof.
  intros Hst Hr Hcmd.
  assert (E : _establish_rcon_connection w cfg s
              = (Ok tt, tick_command (tick_status s), [EvCommand (Some c) "info"])).
  { unfold _establish_rcon_connection, _is_container_running, _is_rcon_connected,
      bind, try_except, container_status, get, ret, rcon_command.
    rewrite (running_eqb _ Hst). cbn [rcon tick_status].
    rewrite Hr. cbn [rcon n_command tick_status]. rewrite Hr, Hcmd. reflexivity. }
  rewrite E. split; [reflexivity | exact Hr].
Qed.

(** X3, an instance: a healthy server with console 0 already open. *)
Lemma establish_reuses_live_connection_witness :
  _establish_rcon_connection (healthy_world [] 0 stream_silent) some_cfg
    (set_rcon (Some 0%nat) (tick_connect fresh))
  = (Ok tt, tick_command (tick_status (set_rcon (Some 0%nat) (tick_connect fresh))),
     [EvCommand (Some 0%nat) "info"]).
Proof.
  apply (establish_reuses_live_connection (healthy_world [] 0 stream_silent) some_cfg
           (set_rcon (Some 0%nat) (tick_connect fresh)) 0 "ok");
    reflexivity.
Defined.

(** X4.  With the container running and a console whose probe fails,
    [_establish_rcon_connection] replaces the console: after the failed
    probe it runs the retry loop, and when the [n]-th further attempt is the
    first to succeed, [self.rcon] ends as the console that attempt opened,
    a console opened during this very call. *)
Theorem establish_replaces_dead_connection (w : World) (cfg : Config) (s : State)
    (c n : nat) (e : exn) :
  status_at w (n_status s) = "running" ->
  rcon s = Some c ->
  command_at w (n_command s) c "info" = inr e ->
  (n < MAX_RETRIES)%nat ->
  attempts_fail_then_succeed w n (n_connect s) (S (n_command s)) ->
  result_of (_establish_rcon_connection w cfg s) = Ok tt
  /\ rcon (state_of (_establish_rcon_connection w cfg s)) = Some (n_connect s + n)%nat
  /\ (n_connect s <= n_connect s + n < n_connect (state_of (_establish_rcon_connection w cfg s)))%nat
  /\ retry_marks (events_of (_establish_rcon_connection w cfg s))
     = attempts_with_pauses (S n) RETRY_DELAY
  /\ exists post, events_of (_establish_rcon_connection w cfg s)
                  = EvCommand (Some c) "info" :: post.
Proof.
  intros Hst Hr Hcmd Hn Hplan.
  enough (H : wp (_establish_rcon_connection w cfg)
                 (fun r s' evs =>
                    r = Ok tt /\ rcon s' = Some (n_connect s + n)%nat
                    /\ (n_connect s <= n_connect s + n < n_connect s')%nat
                    /\ retry_marks evs = attempts_with_pauses (S n) RETRY_DELAY
                    /\ exists post, evs = EvCommand (Some c) "info" :: post) s)
    by exact H.
  unfold _establish_rcon_connection, _is_container_running. wp_steps.
  rewrite (running_eqb _ Hst). wp_steps. cbn [rcon tick_status]. rewrite Hr.
  wp_steps. unfold _is_rcon_connected. wp_steps.
  apply wp_rcon_command; cbn [rcon tick_status n_command]; cbv beta iota.
  - congruence.
  - intros c' resp Hc' Hcmd'. congruence.
  - intros c' e' Hc' _. assert (c' = c) by congruence. subst c'.
    wp_steps. cbn [negb]. unfold _create_rcon_connection.
    eapply wp_mono;
      [| apply (create_fail_then_succeed w cfg n MAX_RETRIES
                  (tick_command (tick_status s)) Hn Hplan)].
    intros r s' evs (Hres & Hrc & Hnc & Hmarks & _).
    cbn [n_connect tick_command tick_status] in *. cbn [app].
    split; [exact Hres |]. split; [exact Hrc |]. split; [lia |].
    split; [exact Hmarks | eexists; reflexivity].
Qed.

(** X4, an instance: console 0 has died, the first new attempt succeeds. *)
Lemma establish_replaces_dead_connection_witness :
  rcon (state_of (_establish_rcon_connection
                    (world_of (fun _ => 0) "running" (fun _ => None)
                       (fun k _ _ => if (k =? 0)%nat then inr refused else inl "ok")
                       stream_silent)
                    some_cfg (set_rcon (Some 0%nat) (tick_connect fresh))))
  = Some 1%nat.
Proof.
  destruct (establish_replaces_dead_connection
              (world_of (fun _ => 0) "running" (fun _ => None)
                 (fun k _ _ => if (k =? 0)%nat then inr refused else inl "ok")
                 stream_silent)
              some_cfg (set_rcon (Some 0%nat) (tick_connect fresh)) 0 0 refused)
    as (_ & H & _).
  - reflexivity.
  - reflexivity.
  - reflexivity.
  - unfold MAX_RETRIES. lia.
  - cbn. split; [reflexivity | eexists; reflexivity].
  - exact H.
Defined.

(** ** Sending a command *)

Section Sending.

Variable w : World.
Variable cfg : Config.

Lemma send_outcome cmd (what : string) s :
  wp (_establish_rcon_connection w cfg ;;
      try_except
        (resp <- rcon_command w cmd ;;
         log INFO (MsgStr resp) ;;
         ret (Some resp))
        (fun exc =>
           log ERROR (MsgStr (what +++ str_of_exn exc)) ;;
           ret None))
     (fun r s' evs => sent_post cfg what cmd r evs) s.
Proof.
  wp_step. eapply wp_mono; [| apply establish_spec].
  intros r s1 e1 (Hf & Hev & Hr). destruct r as [[] | e |]; [| split; auto | contradiction].
  wp_steps. apply wp_rcon_command; cbv beta iota.
  - intros _. wp_steps. cbn [app sent_post].
    exists e1, None, AttributeError_command. split; [reflexivity | exact Hev].
  - intros c resp _ _. wp_steps. cbn [app sent_post].
    exists e1, c. split; [reflexivity | exact Hev].
  - intros c e _ _. wp_steps. cbn [app sent_post].
    exists e1, (Some c), e. split; [reflexivity | exact Hev].
Qed.

End Sending.

(** X5.  [_command] never lets a failing command escape.  It ends in one of
    three ways: it returns the console's response, having sent the command
    and logged the response at INFO; or it returns [None], having tried the
    command and logged exactly one "Failed to execute command: ..." error
    after it; or it raises, only because the connection could not be made
    within MAX_RETRIES attempts, and then the command was never tried. *)
Theorem command_swallows_command_errors (w : World) (cfg : Config) (command : string)
    (s : State) :
  match result_of (_command w cfg command s) with
  | Ok (Some resp) =>
      exists pre c,
        events_of (_command w cfg command s)
        = pre ++ [EvCommand (Some c) command; EvLog INFO (MsgStr resp)]
        /\ Forall (console_event cfg) pre
  | Ok None =>
      exists pre target e,
        events_of (_command w cfg command s)
        = pre ++ [EvCommand target command;
                  EvLog ERROR (MsgStr ("Failed to execute command: " +++ str_of_exn e))]
        /\ Forall (console_event cfg) pre
  | Raise _ =>
      Forall (console_event cfg) (events_of (_command w cfg command s))
      /\ In max_retries_log (events_of (_command w cfg command s))
  | OutOfFuel => False
  end.
Proof. exact (send_outcome w cfg command "Failed to execute command: " s). Qed.

(** X6.  [_broadcast message] sends exactly the console command
    ["broadcast " + message], at most once, and never lets its failure
    escape: it returns the response, or returns [None] after logging one
    "Failed to broadcast message: ..." error, or raises because the
    connection could not be made, without having tried the command. *)
Theorem broadcast_swallows_command_errors (w : World) (cfg : Config) (message : string)
    (s : State) :
  match result_of (_broadcast w cfg message s) with
  | Ok (Some resp) =>
      exists pre c,
        events_of (_broadcast w cfg message s)
        = pre ++ [EvCommand (Some c) ("broadcast " +++ message); EvLog INFO (MsgStr resp)]
        /\ Forall (console_event cfg) pre
  | Ok None =>
      exists pre target e,
        events_of (_broadcast w cfg message s)
        = pre ++ [EvCommand target ("broadcast " +++ message);
                  EvLog ERROR (MsgStr ("Failed to broadcast message: " +++ str_of_exn e))]
        /\ Forall (console_event cfg) pre
  | Raise _ =>
      Forall (console_event cfg) (events_of (_broadcast w cfg message s))
      /\ In max_retries_log (events_of (_broadcast w cfg message s))
  | OutOfFuel => False
  end.
Proof.
  exact (send_outcome w cfg ("broadcast " +++ message) "Failed to broadcast message: " s).
Qed.

(** X7.  While the container is not running and no console was ever opened,
    a broadcast is lost without a trace on the wire: nothing is sent, the
    call returns [None], and exactly two errors are logged, "Container not
    running" and the [AttributeError] of calling [command] on [None]. *)
Theorem broadcast_lost_when_stopped (w : World) (cfg : Config) (message : string)
    (s : State) :
  status_at w (n_status s) <> "running" ->
  rcon s = None ->
  _broadcast w cfg message s
  = (Ok None, tick_status s,
     [not_running_log;
      EvCommand None ("broadcast " +++ message);
      EvLog ERROR (MsgStr "Failed to broadcast message: 'NoneType' object has no attribute 'command'")])
  /\ connects_of (events_of (_broadcast w cfg message s)) = [].
Proof.
  intros Hst Hr.
  assert (E : _broadcast w cfg message s
    = (Ok None, tick_status s,
       [not_running_log;
        EvCommand None ("broadcast " +++ message);
        EvLog ERROR (MsgStr "Failed to broadcast message: 'NoneType' object has no attribute 'command'")])).
  { unfold _broadcast, _establish_rcon_connection, _is_container_running,
      bind, try_except, container_status, ret, rcon_command.
    rewrite (not_running_eqb _ Hst). cbn [log emit rcon tick_status].
    rewrite Hr. reflexivity. }
  rewrite E. split; reflexivity.
Qed.

(** X7, an instance: the stopped container, first broadcast. *)
Lemma broadcast_lost_when_stopped_witness :
  result_of (_broadcast stopped_world some_cfg "hello" fresh) = Ok None
  /\ connects_of (events_of (_broadcast stopped_world some_cfg "hello" fresh)) = [].
Proof.
  destruct (broadcast_lost_when_stopped stopped_world some_cfg "hello" fresh) as [E H].
  - vm_compute. discriminate.
  - reflexivity.
  - rewrite E. split; reflexivity.
Defined.

(** ** The stages of a restart *)

Lemma wp_conj {A} (m : M A) (Q1 Q2 : result A -> State -> list event -> Prop) s :
  wp m Q1 s -> wp m Q2 s -> wp m (fun r s' evs => Q1 r s' evs /\ Q2 r s' evs) s.
Proof. unfold wp. auto. Qed.

Lemma console_event_chatter cfg e : console_event cfg e -> chatter e.
Proof.
  destruct e as [z | lvl [msg | b] | kw | [c |] cmd | | d c]; simpl; auto.
Qed.

Lemma console_events_chatter cfg evs :
  Forall (console_event cfg) evs -> Forall chatter evs.
Proof. apply Forall_impl. apply console_event_chatter. Qed.

Lemma sent_chatter cfg what cmd r evs :
  sent_post cfg what cmd r evs -> Forall chatter evs.
Proof.
  destruct r as [[resp |] | e |]; cbn [sent_post].
  - intros (pre & c & -> & Hpre). apply Forall_app. split.
    + eapply console_events_chatter, Hpre.
    + repeat constructor.
  - intros (pre & target & e & -> & Hpre). apply Forall_app. split.
    + eapply console_events_chatter, Hpre.
    + repeat constructor.
  - intros [Hev _]. eapply console_events_chatter, Hev.
  - contradiction.
Qed.

Lemma lifecycle_app a b : lifecycle (a ++ b) = lifecycle a ++ lifecycle b.
Proof. apply flat_map_app. Qed.

Lemma lifecycle_chatter evs : Forall chatter evs -> lifecycle evs = [].
Proof.
  induction 1 as [| e evs He _ IH]; [reflexivity |].
  unfold lifecycle in *. cbn [flat_map]. rewrite IH.
  destruct e as [z | lvl [msg | b] | kw | t cmd | | d c]; simpl in He;
    try contradiction; try reflexivity.
  destruct lvl; reflexivity.
Qed.

Lemma lifecycle_lines ls :
  lifecycle (map line_log ls) = map (fun l => Line (PyBytes.strip l)) ls.
Proof.
  induction ls as [| l ls IH]; [reflexivity |].
  unfold lifecycle in *. cbn [map flat_map stage_of line_log app]. rewrite IH. reflexivity.
Qed.

Section ReadingTrace.

Variable w : World.
Variable k0 : nat.

Lemma quiet_for_cons i n l :
  logs_at w k0 i = Some l -> PyBytes.contains last_message l = false ->
  quiet_for w k0 (S i) n -> quiet_for w k0 i (S n).
Proof.
  intros Hl Hc Hq [| j] Hj.
  - rewrite Nat.add_0_r. eauto.
  - rewrite Nat.add_succ_r. apply (Hq j). lia.
Qed.

Lemma readiness_trace fuel : forall i s,
  wp (readiness_loop w fuel k0 i)
     (fun r s' evs =>
        s' = s
        /\ (forall e, r <> Raise e)
        /\ exists n, evs = map line_log (take_lines (logs_at w k0) i n)
                     /\ (r = Ok tt -> stops_at w k0 i n)) s.
Proof.
  induction fuel as [| fuel IH]; intros i s.
  - apply wp_out_of_fuel. split; [reflexivity |]. split; [discriminate |].
    exists O. split; [reflexivity | discriminate].
  - cbn [readiness_loop]. destruct (logs_at w k0 i) as [l |] eqn:Hl.
    + wp_steps. destruct (PyBytes.contains last_message l) eqn:Hc.
      * wp_steps. split; [reflexivity |]. split; [discriminate |].
        exists 1%nat. split; [cbn [take_lines]; rewrite Hl; reflexivity |].
        intros _. right. exists O, l. rewrite Nat.add_0_r.
        split; [reflexivity |]. split; [intros j Hj; lia | auto].
      * eapply wp_mono; [| apply IH]. intros r s' evs (Hs & Hr & n & Hn & Hstop).
        split; [exact Hs |]. split; [exact Hr |].
        exists (S n). split; [cbn [take_lines]; rewrite Hl, Hn; reflexivity |].
        intros Hok. destruct (Hstop Hok) as [[Hq Hend] | (n' & l' & -> & Hq & Hl' & Hc')].
        -- left. split; [eapply quiet_for_cons; eassumption |].
           rewrite Nat.add_succ_r. exact Hend.
        -- right. exists (S n'), l'. split; [reflexivity |].
           split; [eapply quiet_for_cons; eassumption |].
           rewrite Nat.add_succ_r. auto.
    + wp_steps. split; [reflexivity |]. split; [discriminate |].
      exists O. split; [reflexivity |]. intros _. left.
      split; [intros j Hj; lia | rewrite Nat.add_0_r; exact Hl].
Qed.

End ReadingTrace.

Section Stages.

Variable w : World.
Variable cfg : Config.

Lemma countdown_chatter k : forall s,
  wp (countdown_from w cfg k) (fun _ _ evs => Forall chatter evs) s.
Proof.
  induction k as [| count IH]; intros s.
  - apply wp_ret. constructor.
  - cbn [countdown_from]. rewrite countdown_body_eq. wp_step.
    eapply wp_mono;
      [| apply (send_outcome w cfg ("broadcast " +++ countdown_message count)
                  "Failed to broadcast message: ")].
    intros r s1 e1 Hsent. apply sent_chatter in Hsent.
    destruct r as [a | e |]; try exact Hsent.
    wp_steps. eapply wp_mono; [| apply IH].
    intros r s2 e2 H2. cbv beta. apply Forall_app. split; [exact Hsent |].
    constructor; [exact I | exact H2].
Qed.

Lemma init_countdown_chatter s :
  wp (_init_countdown w cfg) (fun _ _ evs => Forall chatter evs) s.
Proof.
  unfold _init_countdown. wp_step. eapply wp_mono; [| apply countdown_chatter].
  intros r s1 e1 H1. destruct r as [[] | e |]; try exact H1.
  wp_steps. apply Forall_app. split; [exact H1 | repeat constructor].
Qed.

Lemma restart_trace_spec fuel s :
  wp (restart w cfg fuel) (restart_trace_post w s) s.
Proof.
  unfold restart. wp_step.
  eapply wp_mono; [| apply wp_conj; [apply init_countdown_spec | apply init_countdown_chatter]].
  intros r s1 e1 [[Hf1 Hr1] Hch1]. apply lifecycle_chatter in Hch1.
  pose proof (sched_clock_frame _ _ Hf1) as Hc1.
  destruct r as [[] | e |]; [| | contradiction].
  2:{ exists O. left. split; [exact Hch1 |]. split; [apply Hr1 | exact Hc1]. }
  wp_step.
  eapply wp_mono;
    [| apply wp_conj;
       [apply command_spec
       | apply (send_outcome w cfg "save" "Failed to execute command: ")]].
  intros r s2 e2 [[Hf2 Hr2] Hch2]. apply sent_chatter, lifecycle_chatter in Hch2.
  assert (Hf : sched_frame s s2) by (eapply sched_frame_trans; eassumption).
  pose proof (sched_clock_frame _ _ Hf) as Hc2.
  destruct Hf as (_ & _ & _ & _ & _ & Hnr & Hnl & Hnd).
  destruct r as [a | e |]; [| | contradiction].
  2:{ exists O. left. rewrite lifecycle_app, Hch1, Hch2.
      split; [reflexivity |]. split; [| exact Hc2].
      apply in_or_app; right. apply Hr2. }
  wp_step. apply wp_log_to_discord; [intros Hd1 | intros e Hd1]; rewrite Hnd in Hd1.
  2:{ exists O. right; left. rewrite !lifecycle_app, Hch1, Hch2.
      split; [reflexivity |]. split; [exact Hd1 | exact Hc2]. }
  wp_step. apply wp_container_restart; [intros Hr | intros e Hr];
    cbn [n_restart tick_discord] in Hr; rewrite Hnr in Hr.
  2:{ exists O. right; right; left. rewrite !lifecycle_app, Hch1, Hch2.
      split; [reflexivity |]. split; [exact Hd1 |]. split; [exact Hr | exact Hc2]. }
  wp_steps. eapply wp_mono; [| apply readiness_trace].
  intros r s3 e3 (-> & Hnoraise & n & -> & Hstop).
  cbn [n_logs tick_restart tick_discord] in Hstop |- *. rewrite Hnl in Hstop |- *.
  assert (Hlife : forall rest,
             lifecycle (e1 ++ e2 ++ [EvDiscord "Server restarting..."
                                       (dict_get color_map "info" "FFFFFF")]
                        ++ [EvContainerRestart] ++ []
                        ++ map line_log (take_lines (logs_at w (n_logs s)) 0 n) ++ rest)
             = [announce_restarting; Restarted] ++ stream_stages w (n_logs s) n
               ++ lifecycle rest).
  { intros rest. rewrite !lifecycle_app, Hch1, Hch2, lifecycle_lines. reflexivity. }
  destruct r as [[] | e |]; [| exfalso; exact (Hnoraise e eq_refl) |].
  2:{ exists n. split; [exact Hd1 |]. split; [exact Hr |].
      rewrite <- (app_nil_r (map line_log _)), Hlife. cbn [lifecycle flat_map].
      rewrite app_nil_r. reflexivity. }
  unfold _set_new_restart_time. wp_steps.
  unfold _calculate_restart_time. wp_steps.
  cbn [next_start set_next_start tick_now tick_logs tick_restart tick_discord].
  wp_steps.
  apply wp_log_to_discord; [intros Hd2 | intros e Hd2];
    cbn [n_discord set_hms tick_now set_next_start tick_logs tick_restart tick_discord] in Hd2;
    rewrite Hnd in Hd2.
  - wp_steps. exists n. split; [exact Hd1 |]. split; [exact Hr |]. split; [exact Hd2 |].
    split; [apply Hstop; reflexivity |].
    rewrite Hlife. reflexivity.
  - exists n. right; right; right.
    split; [| split; [exact Hd1 | split; [exact Hr | split; [exact Hd2 |]]]].
    + rewrite Hlife. reflexivity.
    + cbn [next_start set_hms tick_now set_next_start tick_discord n_now tick_logs
             tick_restart].
      destruct Hc2 as [_ Hnow]. rewrite Hnow. reflexivity.
Qed.

End Stages.

Lemma restart_in_lifecycle evs :
  In EvContainerRestart evs -> In Restarted (lifecycle evs).
Proof.
  intros H. unfold lifecycle. apply in_flat_map.
  exists EvContainerRestart. split; [exact H | left; reflexivity].
Qed.

(** X8.  A [restart()] that completes shows the outside world exactly this,
    in this order: the "Server restarting..." post (colour 00FF00), one
    container restart, the stripped log lines of the new stream up to and
    including the first sentinel line (or up to the end of the stream), and
    the "Server restarted!" post.  The container is restarted once, and never
    before the first post went through. *)
Theorem restart_lifecycle (w : World) (cfg : Config) (fuel : nat) (s : State) :
  result_of (restart w cfg fuel s) = Ok tt ->
  exists n,
    stops_at w (n_logs s) 0 n
    /\ lifecycle (events_of (restart w cfg fuel s))
       = [Posted "Server restarting..." "00FF00"; Restarted]
         ++ stream_stages w (n_logs s) n
         ++ [Posted "Server restarted!" "00FF00"].
Proof.
  intros Hok. pose proof (restart_trace_spec w cfg fuel s) as H.
  unfold wp, restart_trace_post in H. rewrite Hok in H.
  destruct H as (n & _ & _ & _ & Hstop & Hlife).
  exists n. split; [exact Hstop | exact Hlife].
Qed.

(** X8, an instance: the run with the slow webhook forwards eleven lines
    between the restart and the second post. *)
Lemma restart_lifecycle_witness :
  exists n,
    stops_at slow_webhook_world
      (n_logs (state_of (__init__ slow_webhook_world fresh))) 0 n
    /\ lifecycle (events_of (restart slow_webhook_world some_cfg 20
                               (state_of (__init__ slow_webhook_world fresh))))
       = [Posted "Server restarting..." "00FF00"; Restarted]
         ++ stream_stages slow_webhook_world
              (n_logs (state_of (__init__ slow_webhook_world fresh))) n
         ++ [Posted "Server restarted!" "00FF00"].
Proof.
  apply (restart_lifecycle slow_webhook_world some_cfg 20).
  vm_compute. reflexivity.
Defined.



(** X10.  [log_to_discord] has no error handling, so a webhook that fails on
    the "Server restarting..." post stops the restart: [restart()] raises,
    [container.restart()] is never called, no log line is read and
    [next_start] stays as it was. *)
Theorem restart_stopped_by_webhook_failure (w : World) (cfg : Config) (fuel : nat)
    (s : State) (e : exn) :
  discord_at w (n_discord s) = Some e ->
  (exists e', result_of (restart w cfg fuel s) = Raise e')
  /\ ~ In EvContainerRestart (events_of (restart w cfg fuel s))
  /\ n_logs (state_of (restart w cfg fuel s)) = n_logs s
  /\ next_start (state_of (restart w cfg fuel s)) = next_start s.
Proof.
  intros Hd. pose proof (restart_trace_spec w cfg fuel s) as H.
  pose proof (restart_spec w cfg fuel s) as Hs.
  unfold wp, restart_trace_post in H. unfold wp, restart_post in Hs.
  assert (Hlogs : wp (restart w cfg fuel)
                     (fun r s' evs => ~ In Restarted (lifecycle evs) -> n_logs s' = n_logs s) s).
  { unfold restart. wp_step. eapply wp_mono; [| apply init_countdown_spec].
    intros r s1 e1 [(_ & _ & _ & _ & _ & _ & Hl1 & _) _].
    destruct r as [[] | e0 |]; try (intros _; exact Hl1).
    wp_step. eapply wp_mono; [| apply command_spec].
    intros r s2 e2 [(_ & _ & _ & _ & _ & _ & Hl2 & _) _].
    destruct r as [a | e0 |]; try (intros _; congruence).
    wp_step. apply wp_log_to_discord; [intros _ | intros e0 _; intros _; cbn; congruence].
    assert (Hseen : forall rest,
               In Restarted (lifecycle (e1 ++ e2
                 ++ [EvDiscord "Server restarting..." (dict_get color_map "info" "FFFFFF")]
                 ++ [EvContainerRestart] ++ rest))).
    { intros rest. rewrite !lifecycle_app. apply in_or_app; right. apply in_or_app; right.
      apply in_or_app; right. apply in_or_app; left. left. reflexivity. }
    wp_step. apply wp_container_restart; [intros _ | intros e0 _].
    - unfold wp. intros Hno. exfalso. apply Hno, Hseen.
    - intros Hno. exfalso. apply Hno.
      rewrite <- (app_nil_r [EvContainerRestart]). apply Hseen. }
  unfold wp in Hlogs.
  destruct (result_of (restart w cfg fuel s)) as [[] | e' |].
  - destruct H as (n & Hd' & _). congruence.
  - destruct H as (n & [(Hl & _ & Hc & _) | [(Hl & _ & Hc & _) | [(_ & Hd' & _) | (_ & Hd' & _)]]]);
      try congruence.
    + assert (Hno : ~ In Restarted (lifecycle (events_of (restart w cfg fuel s))))
        by (rewrite Hl; intros []).
      split; [eauto |]. split; [intros Hin; apply Hno, restart_in_lifecycle, Hin |].
      split; [apply Hlogs, Hno | exact Hc].
    + assert (Hno : ~ In Restarted (lifecycle (events_of (restart w cfg fuel s))))
        by (rewrite Hl; intros [Hx | []]; discriminate Hx).
      split; [eauto |]. split; [intros Hin; apply Hno, restart_in_lifecycle, Hin |].
      split; [apply Hlogs, Hno | exact Hc].
  - destruct H as (n & Hd' & _). congruence.
Qed.

(** X10, an instance: the webhook is down. *)
Lemma restart_stopped_by_webhook_failure_witness :
  ~ In EvContainerRestart
      (events_of (restart webhook_down_world some_cfg 20
                    (state_of (__init__ webhook_down_world fresh)))).
Proof.
  destruct (restart_stopped_by_webhook_failure webhook_down_world some_cfg 20
              (state_of (__init__ webhook_down_world fresh))
              (Exn "ConnectionError" "webhook unreachable") eq_refl)
    as (_ & H & _).
  exact H.
Defined.

(** ** Notifications *)

Lemma int_total_seconds_sign (d : Z) :
  0 <= int_total_seconds d <-> - us_per_second < d.
Proof.
  unfold int_total_seconds, us_per_second. split.
  - intros H. destruct (Z_lt_le_dec (-1000000) d) as [Hd | Hd]; [exact Hd | exfalso].
    replace d with (- (- d)) in H by lia. rewrite Z.quot_opp_l in H by lia.
    assert (1 <= Z.quot (- d) 1000000) by (apply Z.quot_le_lower_bound; lia). lia.
  - intros H. destruct (Z_lt_le_dec d 0) as [Hd | Hd].
    + replace d with (- (- d)) by lia. rewrite Z.quot_opp_l by lia.
      rewrite Z.quot_small by lia. lia.
    + apply Z.quot_pos; lia.
Qed.

(** X11.  [_calculate_restart_time] always stores a proper decomposition of
    the whole seconds left: hours * 3600 + minutes * 60 + seconds is
    [int(time_remaining.total_seconds())], with minutes and seconds in
    [0, 59] whatever the sign, and hours negative exactly when the clock is a
    full second or more past [next_start].  It reads the clock once and
    leaves [next_start] alone. *)
Theorem calculate_restart_time_decomposes (w : World) (s : State) (ns : Z) :
  next_start s = Some ns ->
  result_of (_calculate_restart_time w s) = Ok tt
  /\ next_start (state_of (_calculate_restart_time w s)) = Some ns
  /\ n_now (state_of (_calculate_restart_time w s)) = S (n_now s)
  /\ exists h m sec,
       hours (state_of (_calculate_restart_time w s)) = Some h
       /\ minutes (state_of (_calculate_restart_time w s)) = Some m
       /\ seconds (state_of (_calculate_restart_time w s)) = Some sec
       /\ h * 3600 + m * 60 + sec = int_total_seconds (ns - now_at w (n_now s))
       /\ 0 <= m <= 59 /\ 0 <= sec <= 59
       /\ (h < 0 <-> us_per_second <= now_at w (n_now s) - ns).
Proof.
  intros Hns. rewrite (calculate_restart_time_eq w s ns Hns).
  cbn [result_of state_of fst snd calculated next_start n_now hours minutes seconds
         set_hms tick_now].
  split; [reflexivity |]. split; [exact Hns |]. split; [reflexivity |].
  set (t := int_total_seconds (ns - now_at w (n_now s))).
  exists (t / 3600), ((t mod 3600) / 60), ((t mod 3600) mod 60).
  split; [reflexivity |]. split; [reflexivity |]. split; [reflexivity |].
  split; [Z.div_mod_to_equations; lia |].
  split; [Z.div_mod_to_equations; lia |].
  split; [Z.div_mod_to_equations; lia |].
  pose proof (int_total_seconds_sign (ns - now_at w (n_now s))) as Hsign. fold t in Hsign.
  split; intros H.
  - assert (t < 0) by (Z.div_mod_to_equations; lia). lia.
  - assert (t < 0) by lia. Z.div_mod_to_equations; lia.
Qed.

(** X11, an instance: right after construction under a clock that advances
    one second per reading. *)
Lemma calculate_restart_time_decomposes_witness :
  result_of (_calculate_restart_time ticking_world
               (state_of (__init__ ticking_world fresh))) = Ok tt.
Proof.
  destruct (calculate_restart_time_decomposes ticking_world
              (state_of (__init__ ticking_world fresh)) 7200000000 eq_refl) as [H _].
  exact H.
Defined.

Section Notifying.

Variable w : World.
Variable cfg : Config.

(** The message [notify_restart] builds when [t] whole seconds are left. *)
Lemma notify_message_calculated s ns :
  notify_message (calculated w ns s)
  = "server_restart_in_"
    +++ str_of_int (int_total_seconds (ns - now_at w (n_now s)) / 3600)
    +++ (if int_total_seconds (ns - now_at w (n_now s)) / 3600 =? 1 then "hr" else "hrs")
    +++ "_"
    +++ str_of_int ((int_total_seconds (ns - now_at w (n_now s)) mod 3600) / 60)
    +++ (if (int_total_seconds (ns - now_at w (n_now s)) mod 3600) / 60 =? 1
         then "min" else "mins").
Proof. reflexivity. Qed.

Lemma notify_restart_outcome s ns :
  next_start s = Some ns ->
  (result_of (notify_restart w cfg s) = Ok tt
   /\ broadcasts_of (events_of (notify_restart w cfg s))
      = [notify_message (calculated w ns s)])
  \/ (exists e, result_of (notify_restart w cfg s) = Raise e
                /\ In max_retries_log (events_of (notify_restart w cfg s))
                /\ broadcasts_of (events_of (notify_restart w cfg s)) = []).
Proof.
  intros Hns. rewrite (notify_restart_eq w cfg s ns Hns).
  cbn [result_of state_of events_of fst snd].
  destruct (broadcast_timeline w cfg (notify_message (calculated w ns s)) (calculated w ns s))
    as (_ & n & Hr).
  unfold result_of, events_of in *.
  destruct (_broadcast w cfg _ (calculated w ns s)) as [[[a | e |] s'] evs];
    cbn [fst snd] in *.
  - left. split; [reflexivity |]. unfold broadcasts_of. rewrite Hr.
    rewrite beats_broadcasts_retry. reflexivity.
  - right. exists e. destruct Hr as [Htl Hin]. split; [reflexivity |].
    split; [exact Hin |]. unfold broadcasts_of. rewrite Htl.
    rewrite <- (app_nil_r (repeat _ n)), beats_broadcasts_retry. reflexivity.
  - contradiction.
Qed.

End Notifying.

(** X12.  [notify_restart] broadcasts exactly one message,
    "server_restart_in_<H><hr|hrs>_<M><min|mins>", where H and M are the
    hours and minutes of the whole seconds left, the unit is singular exactly
    when the number is 1, and the seconds are not shown; or it broadcasts
    nothing and raises because the console connection could not be made. *)
Theorem notify_restart_message (w : World) (cfg : Config) (s : State) (ns : Z) :
  next_start s = Some ns ->
  (result_of (notify_restart w cfg s) = Ok tt
   /\ broadcasts_of (events_of (notify_restart w cfg s))
      = ["server_restart_in_"
         +++ str_of_int (int_total_seconds (ns - now_at w (n_now s)) / 3600)
         +++ (if int_total_seconds (ns - now_at w (n_now s)) / 3600 =? 1
              then "hr" else "hrs")
         +++ "_"
         +++ str_of_int ((int_total_seconds (ns - now_at w (n_now s)) mod 3600) / 60)
         +++ (if (int_total_seconds (ns - now_at w (n_now s)) mod 3600) / 60 =? 1
              then "min" else "mins")])
  \/ (exists e, result_of (notify_restart w cfg s) = Raise e
                /\ In max_retries_log (events_of (notify_restart w cfg s))
                /\ broadcasts_of (events_of (notify_restart w cfg s)) = []).
Proof.
  intros Hns. rewrite <- (notify_message_calculated w s ns).
  apply notify_restart_outcome, Hns.
Qed.

(** X12, an instance: with 1 h 1 min 0 s left both units are singular. *)
Lemma notify_restart_message_witness :
  broadcasts_of (events_of (notify_restart (healthy_world [0; 0] 3540000000 stream_silent)
                              some_cfg
                              (state_of (__init__ (healthy_world [0; 0] 3540000000 stream_silent)
                                                  fresh))))
  = ["server_restart_in_1hr_1min"].
Proof.
  destruct (notify_restart_message (healthy_world [0; 0] 3540000000 stream_silent) some_cfg
              (state_of (__init__ (healthy_world [0; 0] 3540000000 stream_silent) fresh))
              7200000000 eq_refl)
    as [[_ H] | (e & He & _)].
  - exact H.
  - vm_compute in He. discriminate He.
Defined.

(** X13.  The manager is constructed by the first job that runs.  When that
    job is [notify_job] and the clock has moved on, by anything up to a
    minute, between the construction's first reading and the notification's
    reading, the stored time is 1 h 59 min and the message reads
    "server_restart_in_1hr_59mins": the two hours just set are never
    announced as "2hrs". *)
Theorem first_notification_reads_1hr_59mins (w : World) (cfg : Config) :
  0 < now_at w 2 - now_at w 0 <= 60 * us_per_second ->
  hours (state_of (notify_job w cfg None)) = Some 1
  /\ minutes (state_of (notify_job w cfg None)) = Some 59
  /\ next_start (state_of (notify_job w cfg None))
     = Some (now_at w 0 + timedelta_hours RESTART_TIME)
  /\ ((result_of (notify_job w cfg None) = Ok tt
       /\ broadcasts_of (events_of (notify_job w cfg None))
          = ["server_restart_in_1hr_59mins"])
      \/ (exists e, result_of (notify_job w cfg None) = Raise e
                    /\ In max_retries_log (events_of (notify_job w cfg None)))).
Proof.
  intros Hclock.
  set (ns := now_at w 0 + timedelta_hours RESTART_TIME).
  set (s0 := calculated w ns (set_next_start ns (tick_now fresh))).
  assert (Hjob : notify_job w cfg None
                 = (result_of (notify_restart w cfg s0),
                    state_of (notify_restart w cfg s0),
                    [EvLog DEBUG (MsgStr "new time has been set")]
                    ++ events_of (notify_restart w cfg s0))).
  { unfold notify_job, RestartManager_call. rewrite init_eq. reflexivity. }
  assert (Hns : next_start s0 = Some ns) by reflexivity.
  assert (Ht : 7140 <= int_total_seconds (ns - now_at w (n_now s0)) <= 7199).
  { unfold ns, s0, int_total_seconds, timedelta_hours, RESTART_TIME, us_per_second in *.
    cbn [n_now calculated set_hms tick_now set_next_start fresh].
    rewrite Z.quot_div_nonneg by lia. split.
    - apply Z.div_le_lower_bound; lia.
    - apply Z.lt_succ_r. apply Z.div_lt_upper_bound; lia. }
  set (t := int_total_seconds (ns - now_at w (n_now s0))) in *.
  assert (Hh : t / 3600 = 1) by (Z.div_mod_to_equations; lia).
  assert (Hm : (t mod 3600) / 60 = 59) by (Z.div_mod_to_equations; lia).
  destruct (notify_restart_state w cfg s0 ns Hns) as (Hnext & Hhours & Hmins & _).
  assert (Hmsg : notify_message (calculated w ns s0) = "server_restart_in_1hr_59mins").
  { rewrite notify_message_calculated. fold t. rewrite Hh, Hm. reflexivity. }
  rewrite Hjob. cbn [result_of state_of events_of fst snd].
  split; [rewrite Hhours; cbn [calculated hours set_hms]; fold t; rewrite Hh; reflexivity |].
  split; [rewrite Hmins; cbn [calculated minutes set_hms]; fold t; rewrite Hm; reflexivity |].
  split; [rewrite Hnext; reflexivity |].
  destruct (notify_restart_outcome w cfg s0 ns Hns) as [[Hok Hb] | (e & He & Hin & _)].
  - left. split; [exact Hok |]. rewrite Hmsg in Hb. exact Hb.
  - right. exists e. split; [exact He | right; exact Hin].
Qed.

(** X13, an instance: a clock that advances one second per reading. *)
Lemma first_notification_reads_1hr_59mins_witness :
  hours (state_of (notify_job ticking_world some_cfg None)) = Some 1
  /\ minutes (state_of (notify_job ticking_world some_cfg None)) = Some 59.
Proof.
  destruct (first_notification_reads_1hr_59mins ticking_world some_cfg) as (Hh & Hm & _).
  - vm_compute. split; [reflexivity | discriminate].
  - split; [exact Hh | exact Hm].
Defined.

(** ** The webhook colour and the sentinel test *)

Lemma dict_get_missing d k default :
  ~ In k (map fst d) -> dict_get d k default = default.
Proof.
  intros H. unfold dict_get.
  destruct (find (fun p => (fst p =? k)%string) d) as [p |] eqn:Hf; [| reflexivity].
  apply find_some in Hf. destruct Hf as [Hin Heq]. apply String.eqb_eq in Heq.
  exfalso. apply H. rewrite <- Heq. apply in_map, Hin.
Qed.

(** X14.  [log_to_discord] posts exactly once, whatever the level string.
    A level that is not a key of the colour map ("warning" for one, or any
    misspelling) is not an error: the post goes out in the default colour
    FFFFFF, the colour of "debug". *)
Theorem log_to_discord_unknown_level (w : World) (message lvl : string) (s : State) :
  ~ In lvl ["debug"; "info"; "error"; "critical"] ->
  events_of (log_to_discord w message lvl s) = [EvDiscord message "FFFFFF"]
  /\ n_discord (state_of (log_to_discord w message lvl s)) = S (n_discord s)
  /\ (result_of (log_to_discord w message lvl s) = Ok tt
      <-> discord_at w (n_discord s) = None).
Proof.
  intros Hlvl. unfold log_to_discord.
  rewrite (dict_get_missing color_map lvl "FFFFFF" Hlvl).
  unfold webhook_execute, events_of, state_of, result_of.
  destruct (discord_at w (n_discord s)); cbn [fst snd n_discord tick_discord].
  - split; [reflexivity |]. split; [reflexivity |]. split; discriminate.
  - split; [reflexivity |]. split; [reflexivity |]. split; reflexivity.
Qed.

(** X14, an instance: the level "warning". *)
Lemma log_to_discord_unknown_level_witness :
  events_of (log_to_discord stopped_world "disk almost full" "warning" fresh)
  = [EvDiscord "disk almost full" "FFFFFF"].
Proof.
  destruct (log_to_discord_unknown_level stopped_world "disk almost full" "warning" fresh)
    as [H _].
  - cbn. intuition discriminate.
  - exact H.
Defined.

(** X15.  The readiness test [last_message in line] holds exactly when the
    sentinel bytes occur in the line as one contiguous run, whatever comes
    before or after them (a timestamp, a line ending).  So the loop stops at
    the first line of the form [pre + sentinel + post]. *)
Theorem sentinel_found_anywhere_in_line (w : World) (k : nat) (s : State) :
  (forall line,
      PyBytes.contains last_message line = true
      <-> exists pre post, line = pre ++ last_message ++ post)
  /\ (forall n pre post fuel,
         quiet_for w k 0 n ->
         logs_at w k n = Some (pre ++ last_message ++ post) ->
         (n < fuel)%nat ->
         readiness_loop w fuel k 0 s
         = (Ok tt, s, map line_log (take_lines (logs_at w k) 0 (S n)))).
Proof.
  split; [apply contains_spec |].
  intros n pre post fuel Hq Hl Hfuel.
  apply (readiness_finds w k n 0 fuel s (pre ++ last_message ++ post)); auto.
  apply contains_spec. eauto.
Qed.

(** X15, an instance: the sentinel between a timestamp and CR LF, as the
    eleventh line. *)
Lemma sentinel_found_anywhere_in_line_witness :
  readiness_loop (healthy_world [] 0 stream_10_then_sentinel) 12 0 0 fresh
  = (Ok tt, fresh,
     map line_log (take_lines (logs_at (healthy_world [] 0 stream_10_then_sentinel) 0) 0 11)).
Proof.
  destruct (sentinel_found_anywhere_in_line
              (healthy_world [] 0 stream_10_then_sentinel) 0 fresh) as [_ H].
  apply (H 10%nat (PyBytes.lit "[2024.02.01] ") [x0d; x0a] 12%nat).
  - intros j Hj.
    do 10 (destruct j as [| j];
           [eexists; split; [reflexivity | vm_compute; reflexivity] |]).
    lia.
  - reflexivity.
  - lia.
Defined.

(** ** The logger *)

Lemma append_length (a b : string) :
  String.length (a +++ b) = (String.length a + String.length b)%nat.
Proof. induction a as [| c a IH]; simpl; [reflexivity | rewrite IH; reflexivity]. Qed.

Lemma append_cancel_r (c : string) : forall a b, a +++ c = b +++ c -> a = b.
Proof.
  induction a as [| x a IH]; intros [| y b] H; simpl in H.
  - reflexivity.
  - apply (f_equal String.length) in H. simpl in H. rewrite append_length in H. lia.
  - apply (f_equal String.length) in H. simpl in H. rewrite append_length in H. lia.
  - injection H as -> H. f_equal. apply IH, H.
Qed.

Lemma color_for_cases (levelno : Z) :
  (In levelno [10; 20; 30; 40; 50]
   /\ In (PyLogging.color_for levelno)
         [PyLogging.WHITE; PyLogging.GREEN; PyLogging.YELLOW;
          PyLogging.BRIGHT_RED; PyLogging.DARK_RED])
  \/ (~ In levelno [10; 20; 30; 40; 50]
      /\ PyLogging.color_for levelno = PyLogging.WHITE).
Proof.
  unfold PyLogging.color_for, PyLogging.COLOR_MAP, PyLogging.Level_DEBUG,
    PyLogging.Level_INFO, PyLogging.Level_WARNING, PyLogging.Level_ERROR,
    PyLogging.Level_CRITICAL.
  cbn [find fst snd].
  destruct (10 =? levelno) eqn:E1; [apply Z.eqb_eq in E1; left; subst; cbn; auto |].
  destruct (20 =? levelno) eqn:E2; [apply Z.eqb_eq in E2; left; subst; cbn; auto |].
  destruct (30 =? levelno) eqn:E3; [apply Z.eqb_eq in E3; left; subst; cbn; auto 6 |].
  destruct (40 =? levelno) eqn:E4; [apply Z.eqb_eq in E4; left; subst; cbn; auto 7 |].
  destruct (50 =? levelno) eqn:E5; [apply Z.eqb_eq in E5; left; subst; cbn; auto 8 |].
  right. split; [| reflexivity].
  apply Z.eqb_neq in E1, E2, E3, E4, E5. cbn. intuition congruence.
Qed.

(** X16.  A formatted record is the level's colour code, the message
    unchanged, and the reset code, so a colour never runs on into the next
    line.  The table is the one of [COLOR_MAP]: DEBUG (10) is white, ESC[97m;
    INFO (20) green, ESC[92m; WARNING (30) yellow, ESC[93m; ERROR (40) bright
    red, ESC[91m; CRITICAL (50) dark red, ESC[31m; the reset code is ESC[0m.
    A level outside the five known ones is printed in white.  Every colour
    code has the same length, so the formatted text determines both the
    colour and the message. *)
Theorem format_wraps_message :
  (forall message,
      PyLogging.format 10 message
      = String "027"%char ("[97m" +++ message +++ String "027"%char "[0m")
      /\ PyLogging.format 20 message
         = String "027"%char ("[92m" +++ message +++ String "027"%char "[0m")
      /\ PyLogging.format 30 message
         = String "027"%char ("[93m" +++ message +++ String "027"%char "[0m")
      /\ PyLogging.format 40 message
         = String "027"%char ("[91m" +++ message +++ String "027"%char "[0m")
      /\ PyLogging.format 50 message
         = String "027"%char ("[31m" +++ message +++ String "027"%char "[0m"))
  /\ (PyLogging.Level_DEBUG = 10 /\ PyLogging.Level_INFO = 20
      /\ PyLogging.Level_WARNING = 30 /\ PyLogging.Level_ERROR = 40
      /\ PyLogging.Level_CRITICAL = 50)
  /\ (forall levelno message,
         ~ In levelno [10; 20; 30; 40; 50] ->
         PyLogging.format levelno message
         = String "027"%char ("[97m" +++ message +++ String "027"%char "[0m"))
  /\ (forall l1 m1 l2 m2,
         PyLogging.format l1 m1 = PyLogging.format l2 m2 ->
         PyLogging.color_for l1 = PyLogging.color_for l2 /\ m1 = m2).
Proof.
  assert (Hin : forall l, In (PyLogging.color_for l)
                    [PyLogging.WHITE; PyLogging.GREEN; PyLogging.YELLOW;
                     PyLogging.BRIGHT_RED; PyLogging.DARK_RED]).
  { intros l. destruct (color_for_cases l) as [[_ H] | [_ ->]]; [exact H | left; reflexivity]. }
  split; [| split; [| split]].
  - intros m. repeat split; reflexivity.
  - repeat split; reflexivity.
  - intros l m Hl. unfold PyLogging.format.
    destruct (color_for_cases l) as [[H _] | [_ ->]]; [contradiction | reflexivity].
  - intros l1 m1 l2 m2 H. unfold PyLogging.format in H.
    pose proof (Hin l1) as H1. pose proof (Hin l2) as H2.
    set (c1 := PyLogging.color_for l1) in *. set (c2 := PyLogging.color_for l2) in *.
    clearbody c1 c2.
    cbn [In] in H1, H2.
    destruct H1 as [<- | [<- | [<- | [<- | [<- | []]]]]];
      destruct H2 as [<- | [<- | [<- | [<- | [<- | []]]]]];
      cbv [PyLogging.WHITE PyLogging.GREEN PyLogging.YELLOW PyLogging.BRIGHT_RED
             PyLogging.DARK_RED PyLogging.ESC] in H |- *;
      cbn [String.append] in H;
      injection H as H; try discriminate;
      (split; [reflexivity | apply (append_cancel_r PyLogging.RESET), H]).
Qed.

Section Dictionaries.

Context {V : Type}.

Lemma lookup_store_same (d : list (string * V)) k v :
  PyLogging.lookup (PyLogging.store d k v) k = Some v.
Proof.
  unfold PyLogging.lookup. induction d as [| [k' v'] d IH]; cbn [PyLogging.store find fst].
  - rewrite String.eqb_refl. reflexivity.
  - destruct (k' =? k)%string eqn:E; cbn [find fst snd].
    + rewrite String.eqb_refl. reflexivity.
    + rewrite E. exact IH.
Qed.

Lemma lookup_store_other (d : list (string * V)) k v k' :
  k' <> k ->
  PyLogging.lookup (PyLogging.store d k v) k' = PyLogging.lookup d k'.
Proof.
  intros Hne. unfold PyLogging.lookup.
  induction d as [| [k1 v1] d IH]; cbn [PyLogging.store find fst].
  - apply not_eq_sym, String.eqb_neq in Hne. rewrite Hne. reflexivity.
  - destruct (k1 =? k)%string eqn:E; cbn [find fst snd].
    + apply String.eqb_eq in E. subst k1.
      apply not_eq_sym, String.eqb_neq in Hne. rewrite Hne. reflexivity.
    + destruct (k1 =? k')%string; [reflexivity | exact IH].
Qed.

End Dictionaries.


Lemma update_handler_last pool x f :
  PyLogging.update_handler (pool ++ [x]) (List.length pool) f = pool ++ [f x].
Proof.
  induction pool as [| y pool IH]; [reflexivity |].
  cbn [app List.length PyLogging.update_handler]. rewrite IH. reflexivity.
Qed.

Lemma update_handler_length pool h f :
  List.length (PyLogging.update_handler pool h f) = List.length pool.
Proof.
  revert h. induction pool as [| y pool IH]; intros [| h]; cbn; auto.
Qed.

Lemma existsb_fresh (n : nat) (hs : list nat) :
  Forall (fun h => (h < n)%nat) hs -> existsb (Nat.eqb n) hs = false.
Proof.
  induction 1 as [| h hs Hh _ IH]; [reflexivity |].
  cbn [existsb]. rewrite IH, orb_false_r. apply Nat.eqb_neq. lia.
Qed.

(** What constructing [Logger(name, lvl)] with the default handler does to
    the [logging] module. *)
Lemma Logger_init_default name lvl rt :
  Forall (fun h => (h < List.length (PyLogging.handler_pool rt))%nat)
         (PyLogging.std_handlers (PyLogging.getLogger rt name)) ->
  PyLogging.Logger_init name lvl None rt
  = ({| PyLogging.log_name := name;
        PyLogging.handler := List.length (PyLogging.handler_pool rt);
        PyLogging.formatter := PyLogging.FORMAT |},
     {| PyLogging.loggerDict :=
          PyLogging.store (PyLogging.loggerDict rt) name
            {| PyLogging.std_handlers :=
                 PyLogging.std_handlers (PyLogging.getLogger rt name)
                 ++ [List.length (PyLogging.handler_pool rt)];
               PyLogging.std_level := lvl;
               PyLogging.std_propagate := false |};
        PyLogging.handler_pool :=
          PyLogging.handler_pool rt
          ++ [{| PyLogging.handler_level := lvl;
                 PyLogging.handler_formatter := Some PyLogging.FORMAT |}] |}).
Proof.
  intros Hwf. unfold PyLogging.Logger_init, PyLogging.addHandler.
  rewrite (existsb_fresh _ _ Hwf).
  rewrite update_handler_last, update_handler_last. reflexivity.
Qed.

(** X18.  Constructing [Logger(name, ...)] directly, with the default
    handler, attaches a new stream handler to the [logging] logger of that
    name every time: after two constructions the logger carries two more
    handlers than before, so each record is written twice.  The second
    construction also resets the logger's level to its own, while the first
    handler keeps the first level.  Propagation to parent loggers is off. *)
Theorem constructing_twice_attaches_two_handlers (name : string) (l1 l2 : Z)
    (rt : PyLogging.Runtime) :
  Forall (fun h => (h < List.length (PyLogging.handler_pool rt))%nat)
         (PyLogging.std_handlers (PyLogging.getLogger rt name)) ->
  PyLogging.getLogger
    (snd (PyLogging.Logger_init name l2 None
            (snd (PyLogging.Logger_init name l1 None rt))))
    name
  = {| PyLogging.std_handlers :=
         PyLogging.std_handlers (PyLogging.getLogger rt name)
         ++ [List.length (PyLogging.handler_pool rt);
             S (List.length (PyLogging.handler_pool rt))];
       PyLogging.std_level := l2;
       PyLogging.std_propagate := false |}
  /\ PyLogging.handler_pool
       (snd (PyLogging.Logger_init name l2 None
               (snd (PyLogging.Logger_init name l1 None rt))))
     = PyLogging.handler_pool rt
       ++ [{| PyLogging.handler_level := l1;
              PyLogging.handler_formatter := Some PyLogging.FORMAT |};
           {| PyLogging.handler_level := l2;
              PyLogging.handler_formatter := Some PyLogging.FORMAT |}].
Proof.
  intros Hwf. rewrite (Logger_init_default name l1 rt Hwf). cbn [snd].
  rewrite Logger_init_default.
  - cbn [snd PyLogging.loggerDict PyLogging.handler_pool]. unfold PyLogging.getLogger at 1.
    cbn [PyLogging.loggerDict]. rewrite lookup_store_same. split.
    + unfold PyLogging.getLogger at 1. cbn [PyLogging.loggerDict].
      rewrite lookup_store_same. cbn [PyLogging.std_handlers].
      rewrite length_app, <- app_assoc. cbn [List.length app].
      rewrite Nat.add_1_r. reflexivity.
    + rewrite <- app_assoc. reflexivity.
  - unfold PyLogging.getLogger. cbn [PyLogging.loggerDict PyLogging.handler_pool].
    rewrite lookup_store_same. cbn [PyLogging.std_handlers].
    rewrite length_app. cbn [List.length]. apply Forall_app. split.
    + eapply Forall_impl; [| exact Hwf]. intros h Hh. cbv beta in *. lia.
    + constructor; [lia | constructor].
Qed.

(** X18, an instance: a process in which nothing has been logged yet. *)
Lemma constructing_twice_attaches_two_handlers_witness :
  PyLogging.std_handlers
    (PyLogging.getLogger
       (snd (PyLogging.Logger_init "restartmanager" 20 None
               (snd (PyLogging.Logger_init "restartmanager" 10 None
                       {| PyLogging.loggerDict := []; PyLogging.handler_pool := [] |}))))
       "restartmanager")
  = [0%nat; 1%nat].
Proof.
  destruct (constructing_twice_attaches_two_handlers "restartmanager" 10 20
              {| PyLogging.loggerDict := []; PyLogging.handler_pool := [] |})
    as [H _].
  - constructor.
  - rewrite H. reflexivity.
Defined.

(** ** Saving before restarting *)

Lemma safety_marks_app a b : safety_marks (a ++ b) = safety_marks a ++ safety_marks b.
Proof. apply flat_map_app. Qed.

Lemma console_events_no_marks cfg evs :
  Forall (console_event cfg) evs -> safety_marks evs = [].
Proof.
  induction 1 as [| e evs He _ IH]; [reflexivity |].
  unfold safety_marks in *. cbn [flat_map]. rewrite IH.
  destruct e as [z | lvl [msg | b] | kw | [c |] cmd | | d c]; simpl in He;
    try contradiction; try reflexivity.
  subst cmd. reflexivity.
Qed.

Lemma sent_marks cfg what cmd r evs :
  sent_post cfg what cmd r evs ->
  match r with
  | Ok _ => safety_marks evs = if (cmd =? "save")%string then [SaveTried] else []
  | _ => safety_marks evs = []
  end.
Proof.
  destruct r as [[resp |] | e |]; cbn [sent_post].
  - intros (pre & c & -> & Hpre).
    rewrite safety_marks_app, (console_events_no_marks cfg pre Hpre).
    unfold safety_marks. cbn [flat_map safety_mark_of app].
    destruct (cmd =? "save")%string; reflexivity.
  - intros (pre & target & e & -> & Hpre).
    rewrite safety_marks_app, (console_events_no_marks cfg pre Hpre).
    unfold safety_marks. cbn [flat_map safety_mark_of app].
    destruct (cmd =? "save")%string; reflexivity.
  - intros [Hev _]. apply (console_events_no_marks cfg), Hev.
  - contradiction.
Qed.

Section Saving.

Variable w : World.
Variable cfg : Config.

Lemma countdown_no_marks k : forall s,
  wp (countdown_from w cfg k)
     (fun r _ evs => safety_marks evs = [] /\ r <> OutOfFuel) s.
Proof.
  induction k as [| count IH]; intros s.
  - apply wp_ret. split; [reflexivity | discriminate].
  - cbn [countdown_from]. rewrite countdown_body_eq. wp_step.
    eapply wp_mono;
      [| apply (send_outcome w cfg ("broadcast " +++ countdown_message count)
                  "Failed to broadcast message: ")].
    intros r s1 e1 Hsent. pose proof (sent_marks _ _ _ _ _ Hsent) as Hm.
    destruct r as [a | e |].
    + change (("broadcast " +++ countdown_message count) =? "save")%string
        with false in Hm.
      wp_steps. eapply wp_mono; [| apply IH].
      intros r s2 e2 [H2 Hr]. cbv beta. split; [| exact Hr].
      rewrite !safety_marks_app, Hm, H2. reflexivity.
    + split; [exact Hm | discriminate].
    + destruct Hsent.
Qed.

Lemma restart_marks_spec fuel s :
  wp (restart w cfg fuel)
     (fun r _ evs =>
        match r with
        | Ok _ => safety_marks evs = [SaveTried; ContainerRestarted]
        | _ => safety_marks evs = [] \/ safety_marks evs = [SaveTried]
               \/ safety_marks evs = [SaveTried; ContainerRestarted]
        end) s.
Proof.
  unfold restart, _init_countdown. wp_step. wp_step.
  eapply wp_mono; [| apply countdown_no_marks].
  intros r s1 e1 [H1 Hr1]. destruct r as [[] | e |]; [| left; exact H1 | contradiction].
  wp_steps. cbn [app].
  eapply wp_mono; [| apply (send_outcome w cfg "save" "Failed to execute command: ")].
  intros r s2 e2 Hsent. pose proof (sent_marks _ _ _ _ _ Hsent) as H2.
  assert (Hpre : forall rest,
             safety_marks ((e1 ++ [EvSleep 2]) ++ e2 ++ rest)
             = safety_marks e2 ++ safety_marks rest).
  { intros rest. rewrite !safety_marks_app, H1. reflexivity. }
  destruct r as [a | e |].
  2:{ left. rewrite <- (app_nil_r e2), Hpre, H2. reflexivity. }
  2:{ destruct Hsent. }
  change (("save" =? "save")%string) with true in H2.
  wp_step. apply wp_log_to_discord; [intros _ | intros e _].
  2:{ right; left. rewrite Hpre, H2. reflexivity. }
  wp_step. apply wp_container_restart; [intros _ | intros e _].
  2:{ right; right. rewrite Hpre, H2. reflexivity. }
  wp_steps. eapply wp_mono; [| apply readiness_trace].
  intros r s3 e3 (_ & Hnoraise & n & -> & _).
  assert (Hlines : forall ls, safety_marks (map line_log ls) = []).
  { induction ls as [| l ls IH]; [reflexivity | exact IH]. }
  assert (Hrest : forall rest,
             safety_marks rest = [] ->
             safety_marks ((e1 ++ [EvSleep 2]) ++ e2
               ++ [EvDiscord "Server restarting..." (dict_get color_map "info" "FFFFFF")]
               ++ [EvContainerRestart] ++ []
               ++ map line_log (take_lines (logs_at w (n_logs (tick_restart (tick_discord s2)))) 0 n)
               ++ rest)
             = [SaveTried; ContainerRestarted]).
  { intros rest Hr. rewrite Hpre, H2, !safety_marks_app, Hlines, Hr. reflexivity. }
  destruct r as [[] | e |]; [| exfalso; exact (Hnoraise e eq_refl) |].
  2:{ right; right. rewrite <- (app_nil_r (map line_log _)). apply Hrest. reflexivity. }
  unfold _set_new_restart_time. wp_steps.
  unfold _calculate_restart_time. wp_steps.
  cbn [next_start set_next_start tick_now tick_logs tick_restart tick_discord].
  wp_steps.
  apply wp_log_to_discord; [intros _ | intros e _].
  - wp_steps. apply Hrest. reflexivity.
  - right; right. apply Hrest. reflexivity.
Qed.

End Saving.

(** X19.  However a [restart()] call goes, the container is never restarted
    unless a save was attempted first, and neither happens twice: the save
    attempts and container restarts of a run are, in order, nothing, or one
    save, or one save then one restart.  A call that completes did both.
    (The save is only attempted: [_command] swallows its failure, so a save
    that failed does not hold the restart back.) *)
Theorem restart_saves_before_restarting (w : World) (cfg : Config) (fuel : nat) (s : State) :
  (safety_marks (events_of (restart w cfg fuel s)) = []
   \/ safety_marks (events_of (restart w cfg fuel s)) = [SaveTried]
   \/ safety_marks (events_of (restart w cfg fuel s)) = [SaveTried; ContainerRestarted])
  /\ (result_of (restart w cfg fuel s) = Ok tt ->
      safety_marks (events_of (restart w cfg fuel s)) = [SaveTried; ContainerRestarted]).
Proof.
  pose proof (restart_marks_spec w cfg fuel s) as H. unfold wp in H.
  destruct (result_of (restart w cfg fuel s)) as [[] | e |].
  - split; [right; right; exact H | intros _; exact H].
  - split; [exact H | discriminate].
  - split; [exact H | discriminate].
Qed.

(** X19, an instance: the completed run with the slow webhook. *)
Lemma restart_saves_before_restarting_witness :
  safety_marks (events_of (restart slow_webhook_world some_cfg 20
                             (state_of (__init__ slow_webhook_world fresh))))
  = [SaveTried; ContainerRestarted].
Proof.
  apply (proj2 (restart_saves_before_restarting slow_webhook_world some_cfg 20
                  (state_of (__init__ slow_webhook_world fresh)))).
  vm_compute. reflexivity.
Defined.

(** ** Restarting a container that is reported as stopped *)

Section Stopped.

Variable w : World.
Variable cfg : Config.
Hypothesis never_running : forall k, status_at w k <> "running".

Lemma establish_stopped_eq s :
  _establish_rcon_connection w cfg s = (Ok tt, tick_status s, [not_running_log]).
Proof.
  unfold _establish_rcon_connection, _is_container_running, bind, container_status, ret.
  rewrite (not_running_eqb _ (never_running (n_status s))). reflexivity.
Qed.

Lemma send_off_the_wire cmd (what : string) s :
  rcon s = None ->
  wp (_establish_rcon_connection w cfg ;;
      try_except
        (resp <- rcon_command w cmd ;;
         log INFO (MsgStr resp) ;;
         ret (Some resp))
        (fun exc =>
           log ERROR (MsgStr (what +++ str_of_exn exc)) ;;
           ret None))
     (fun r s' evs =>
        r = Ok None /\ rcon s' = None /\ n_discord s' = n_discord s
        /\ Forall off_the_wire evs) s.
Proof.
  intros Hr. wp_step. unfold wp at 1. rewrite establish_stopped_eq.
  cbn [result_of state_of events_of fst snd]. wp_steps.
  apply wp_rcon_command; cbn [rcon tick_status]; cbv beta iota.
  - intros _. wp_steps. cbn [app]. repeat split; auto. repeat constructor.
  - intros c resp Hc. congruence.
  - intros c e Hc. congruence.
Qed.

Lemma countdown_off_the_wire k : forall s,
  rcon s = None ->
  wp (countdown_from w cfg k)
     (fun r s' evs =>
        r = Ok tt /\ rcon s' = None /\ n_discord s' = n_discord s
        /\ Forall off_the_wire evs) s.
Proof.
  induction k as [| count IH]; intros s Hr.
  - apply wp_ret. repeat split; auto.
  - cbn [countdown_from]. rewrite countdown_body_eq. wp_step.
    eapply wp_mono; [| apply send_off_the_wire, Hr].
    intros r s1 e1 (-> & Hr1 & Hd1 & He1). wp_steps.
    eapply wp_mono; [| apply IH, Hr1].
    intros r s2 e2 (-> & Hr2 & Hd2 & He2).
    split; [reflexivity |]. split; [exact Hr2 |]. split; [congruence |].
    apply Forall_app. split; [exact He1 |]. constructor; [exact I | exact He2].
Qed.

Lemma restart_stopped_spec fuel s :
  rcon s = None ->
  wp (restart w cfg fuel)
     (fun r s' evs =>
        rcon s' = None /\ Forall off_the_wire evs
        /\ (discord_at w (n_discord s) = None -> In EvContainerRestart evs)) s.
Proof.
  intros Hr. unfold restart, _init_countdown. wp_step. wp_step.
  eapply wp_mono; [| apply countdown_off_the_wire, Hr].
  intros r s1 e1 (-> & Hr1 & Hd1 & He1). wp_steps. cbn [app].
  eapply wp_mono; [| apply (send_off_the_wire "save" "Failed to execute command: " s1 Hr1)].
  intros r s2 e2 (-> & Hr2 & Hd2 & He2).
  assert (Hquiet : Forall off_the_wire ((e1 ++ [EvSleep 2]) ++ e2)).
  { apply Forall_app. split; [| exact He2].
    apply Forall_app. split; [exact He1 | repeat constructor]. }
  assert (Hmore : forall rest, Forall off_the_wire rest ->
                               Forall off_the_wire ((e1 ++ [EvSleep 2]) ++ e2 ++ rest)).
  { intros rest H. rewrite app_assoc. apply Forall_app. split; assumption. }
  wp_step. apply wp_log_to_discord; [intros Hd | intros e Hd].
  2:{ split; [exact Hr2 |]. split; [apply Hmore; repeat constructor |].
      intros Hnone. rewrite Hd2, Hd1 in Hd. congruence. }
  assert (Hseen : forall rest,
             In EvContainerRestart
                ((e1 ++ [EvSleep 2]) ++ e2
                 ++ [EvDiscord "Server restarting..." (dict_get color_map "info" "FFFFFF")]
                 ++ [EvContainerRestart] ++ rest)).
  { intros rest. apply in_or_app; right. apply in_or_app; right.
    apply in_or_app; right. left. reflexivity. }
  wp_step. apply wp_container_restart; [intros _ | intros e _].
  2:{ split; [exact Hr2 |]. split; [apply Hmore; repeat constructor |].
      intros _. rewrite <- (app_nil_r [EvContainerRestart]). apply Hseen. }
  wp_steps. eapply wp_mono; [| apply readiness_trace].
  intros r s3 e3 (-> & Hnoraise & n & -> & _).
  assert (Hlines : forall ls, Forall off_the_wire (map line_log ls)).
  { induction ls as [| l ls IH]; constructor; [exact I | exact IH]. }
  assert (Hall : forall rest,
             Forall off_the_wire rest ->
             Forall off_the_wire
               ((e1 ++ [EvSleep 2]) ++ e2
                ++ [EvDiscord "Server restarting..." (dict_get color_map "info" "FFFFFF")]
                ++ [EvContainerRestart] ++ []
                ++ map line_log
                     (take_lines (logs_at w (n_logs (tick_restart (tick_discord s2)))) 0 n)
                ++ rest)).
  { intros rest H. apply Hmore. repeat (apply Forall_app; split); auto.
    - repeat constructor.
    - repeat constructor. }
  destruct r as [[] | e |]; [| exfalso; exact (Hnoraise e eq_refl) |].
  2:{ split; [exact Hr2 |]. split.
      - rewrite <- (app_nil_r (map line_log _)). apply Hall. constructor.
      - intros _. apply Hseen. }
  unfold _set_new_restart_time. wp_steps.
  unfold _calculate_restart_time. wp_steps.
  cbn [next_start set_next_start tick_now tick_logs tick_restart tick_discord].
  wp_steps.
  apply wp_log_to_discord; [intros _ | intros e _].
  - wp_steps. split; [exact Hr2 |]. split; [apply Hall; repeat constructor |].
    intros _. apply Hseen.
  - split; [exact Hr2 |]. split; [apply Hall; repeat constructor |].
    intros _. apply Hseen.
Qed.

End Stopped.

(** X20.  When the container is reported as not running and no console has
    been opened, [restart()] goes through its countdown and its save without
    anything reaching a console (no connection is attempted, no command is
    sent, no player is warned, nothing is saved), and it still restarts the
    container as long as the first webhook post goes through. *)
Theorem restart_of_stopped_container (w : World) (cfg : Config) (fuel : nat) (s : State) :
  (forall k, status_at w k <> "running") ->
  rcon s = None ->
  Forall off_the_wire (events_of (restart w cfg fuel s))
  /\ connects_of (events_of (restart w cfg fuel s)) = []
  /\ rcon (state_of (restart w cfg fuel s)) = None
  /\ (discord_at w (n_discord s) = None ->
      In EvContainerRestart (events_of (restart w cfg fuel s))).
Proof.
  intros Hst Hr.
  destruct (restart_stopped_spec w cfg Hst fuel s Hr) as (Hrc & Hev & Hrestart).
  split; [exact Hev |]. split; [| split; [exact Hrc | exact Hrestart]].
  clear - Hev. induction Hev as [| e evs He _ IH]; [reflexivity |].
  unfold connects_of in *. cbn [flat_map]. rewrite IH.
  destruct e; try reflexivity. contradiction.
Qed.

(** X20, an instance: the stopped container. *)
Lemma restart_of_stopped_container_witness :
  In EvContainerRestart (events_of (restart stopped_world some_cfg 20 fresh)).
Proof.
  destruct (restart_of_stopped_container stopped_world some_cfg 20 fresh) as (_ & _ & _ & H).
  - intros k. vm_compute. discriminate.
  - reflexivity.
  - apply H. reflexivity.
Defined.

(** ** The place of the reschedule step *)

Section Order.

Variable w : World.
Variable cfg : Config.

Lemma restart_order_spec fuel s :
  wp (restart w cfg fuel) (restart_order_post w s) s.
Proof.
  unfold restart. wp_step.
  eapply wp_mono; [| apply wp_conj; [apply init_countdown_spec | apply init_countdown_chatter]].
  intros r s1 e1 [[Hf1 Hr1] Hch1]. apply lifecycle_chatter in Hch1.
  destruct r as [[] | e |]; [| exact I | contradiction].
  wp_step.
  eapply wp_mono;
    [| apply wp_conj;
       [apply command_spec
       | apply (send_outcome w cfg "save" "Failed to execute command: ")]].
  intros r s2 e2 [[Hf2 Hr2] Hch2]. apply sent_chatter, lifecycle_chatter in Hch2.
  assert (Hf : sched_frame s s2) by (eapply sched_frame_trans; eassumption).
  pose proof (sched_clock_frame _ _ Hf) as Hc2.
  destruct Hf as (_ & _ & _ & _ & _ & _ & Hnl & _).
  destruct r as [a | e |]; [| exact I | contradiction].
  wp_step. apply wp_log_to_discord; [intros _ | intros e _; exact I].
  wp_step. apply wp_container_restart; [intros _ | intros e _; exact I].
  wp_steps. eapply wp_mono; [| apply readiness_trace].
  intros r s3 e3 (-> & Hnoraise & n & -> & Hstop).
  cbn [n_logs tick_restart tick_discord] in Hstop |- *. rewrite Hnl in Hstop |- *.
  destruct r as [[] | e |]; [| exact I | exact Hc2].
  unfold _set_new_restart_time. wp_steps.
  unfold _calculate_restart_time. wp_steps.
  cbn [next_start set_next_start tick_now tick_logs tick_restart tick_discord].
  wp_steps.
  apply wp_log_to_discord; [intros _ | intros e _; exact I].
  wp_steps. exists n.
  exists (e1 ++ e2 ++ [EvDiscord "Server restarting..." "00FF00"; EvContainerRestart]
          ++ map line_log (take_lines (logs_at w (n_logs s)) 0 n)).
  split; [apply Hstop; reflexivity |]. split.
  - rewrite !lifecycle_app, Hch1, Hch2, lifecycle_lines. reflexivity.
  - cbn [app]. rewrite <- !app_assoc. reflexivity.
Qed.

End Order.

Lemma result_of_bind {A B} (m : M A) (k : A -> M B) (s : State) :
  result_of (bind m k s)
  = match result_of (m s) with
    | Ok a => result_of (k a (state_of (m s)))
    | Raise e => Raise e
    | OutOfFuel => OutOfFuel
    end.
Proof.
  unfold bind, result_of, state_of.
  destruct (m s) as [[[a | e |] s1] e1]; cbn [fst snd]; [| reflexivity | reflexivity].
  destruct (k a s1) as [[r s2] e2]. reflexivity.
Qed.

(** A [restart()] that completes got as far as the log stream: cut at the
    first [next()] on the stream, the same call is found waiting there. *)
Lemma restart_reaches_readiness (w : World) (cfg : Config) (fuel : nat) (s : State) :
  result_of (restart w cfg fuel s) = Ok tt ->
  result_of (restart w cfg 0 s) = OutOfFuel.
Proof.
  unfold restart. rewrite !result_of_bind.
  destruct (result_of (_init_countdown w cfg s)); [| discriminate | discriminate].
  destruct (result_of (_command w cfg "save" _)); [| discriminate | discriminate].
  destruct (result_of (log_to_discord w "Server restarting..." "info" _));
    [| discriminate | discriminate].
  destruct (result_of (container_restart w _)); [| discriminate | discriminate].
  destruct (result_of (container_logs _)); [| discriminate | discriminate].
  intros _. rewrite result_of_bind. reflexivity.
Qed.

(** C3 (amended).  After a [restart()] that completes, [next_start] equals
    the clock reading taken at the reschedule step plus exactly
    RESTART_TIME = 2 hours, to the microsecond.  The reschedule step runs
    after the readiness phase: the call does reach the log stream, and as
    long as it is still waiting there for the sentinel it has neither read
    the clock nor touched [next_start]; in a
    completed call the reschedule log follows the container restart and every
    forwarded log line.  It runs before the post-restart notification: the
    reschedule log is followed at once by the "Server restarted!" post and
    its log line, which end the call.  So [next_start] falls short of the
    completion time plus 2 hours by exactly the time that passed between the
    reschedule reading and completion (the recalculation, with its own clock
    reading, and the post), and never exceeds it when the clock does not run
    backwards. *)
Theorem restart_reschedules (w : World) (cfg : Config) (fuel : nat) (s : State) :
  result_of (restart w cfg fuel s) = Ok tt ->
  next_start (state_of (restart w cfg fuel s))
  = Some (now_at w (n_now s) + timedelta_hours RESTART_TIME)
  /\ timedelta_hours RESTART_TIME = 7200 * us_per_second
  /\ n_now (state_of (restart w cfg fuel s)) = S (S (n_now s))
  /\ (now_at w (n_now s) <= current_time w (state_of (restart w cfg fuel s)) ->
      forall ns, next_start (state_of (restart w cfg fuel s)) = Some ns ->
                 ns <= current_time w (state_of (restart w cfg fuel s))
                       + timedelta_hours RESTART_TIME)
  /\ (forall ns, next_start (state_of (restart w cfg fuel s)) = Some ns ->
                 current_time w (state_of (restart w cfg fuel s))
                 + timedelta_hours RESTART_TIME - ns
                 = current_time w (state_of (restart w cfg fuel s)) - now_at w (n_now s))
  /\ (result_of (restart w cfg 0 s) = OutOfFuel
      /\ forall waiting,
           result_of (restart w cfg waiting s) = OutOfFuel ->
           next_start (state_of (restart w cfg waiting s)) = next_start s
           /\ n_now (state_of (restart w cfg waiting s)) = n_now s)
  /\ (exists n before,
         stops_at w (n_logs s) 0 n
         /\ lifecycle before
            = [Posted "Server restarting..." "00FF00"; Restarted]
              ++ stream_stages w (n_logs s) n
         /\ events_of (restart w cfg fuel s)
            = before ++ [EvLog DEBUG (MsgStr "new time has been set");
                         EvDiscord "Server restarted!" "00FF00";
                         EvLog INFO (MsgStr "Server restarted!")]).
Proof.
  intros Hok. destruct (restart_ok_reschedules w cfg fuel s Hok) as [Hns Hnow].
  split; [exact Hns |]. split; [reflexivity |]. split; [exact Hnow |].
  split; [intros Hle ns Hns'; rewrite Hns in Hns'; injection Hns' as <-; lia |].
  split; [intros ns Hns'; rewrite Hns in Hns'; injection Hns' as <-; lia |].
  split; [split |].
  - exact (restart_reaches_readiness w cfg fuel s Hok).
  - intros waiting Hwait. pose proof (restart_order_spec w cfg waiting s) as H.
    unfold wp, restart_order_post in H. rewrite Hwait in H. exact H.
  - pose proof (restart_order_spec w cfg fuel s) as H.
    unfold wp, restart_order_post in H. rewrite Hok in H. exact H.
Qed.

(** C3, an instance: the reschedule step reads 7300 s. *)
Lemma restart_reschedules_witness :
  next_start (state_of (restart slow_webhook_world some_cfg 20
                                (state_of (__init__ slow_webhook_world fresh))))
  = Some (7300000000 + 7200 * 1000000).
Proof.
  assert (Hok : result_of (restart slow_webhook_world some_cfg 20
                                   (state_of (__init__ slow_webhook_world fresh))) = Ok tt)
    by (vm_compute; reflexivity).
  destruct (restart_reschedules slow_webhook_world some_cfg 20 _ Hok) as [H _].
  exact H.
Defined.

(** C3 as stated fails: the reschedule step runs before "Server restarted!"
    is posted to the webhook.  When that post takes three seconds, the method
    completes at 7303 s with [next_start] = 7300 s + 2 h, three seconds short
    of completion time plus 2 h. *)
Lemma restart_reschedules_before_completion :
  result_of (restart slow_webhook_world some_cfg 20
                     (state_of (__init__ slow_webhook_world fresh))) = Ok tt
  /\ next_start (state_of (restart slow_webhook_world some_cfg 20
                                   (state_of (__init__ slow_webhook_world fresh))))
     = Some 14500000000
  /\ current_time slow_webhook_world
       (state_of (restart slow_webhook_world some_cfg 20
                          (state_of (__init__ slow_webhook_world fresh))))
     + timedelta_hours RESTART_TIME = 14503000000
  /\ ~ (forall w cfg fuel s,
          result_of (restart w cfg fuel s) = Ok tt ->
          exists ns,
            next_start (state_of (restart w cfg fuel s)) = Some ns
            /\ Z.abs (ns - (current_time w (state_of (restart w cfg fuel s))
                            + timedelta_hours RESTART_TIME)) < us_per_second).
Proof.
  split; [vm_compute; reflexivity |]. split; [vm_compute; reflexivity |].
  split; [vm_compute; reflexivity |].
  intros H.
  destruct (H slow_webhook_world some_cfg 20%nat
              (state_of (__init__ slow_webhook_world fresh))) as (ns & Hns & Habs).
  - vm_compute; reflexivity.
  - vm_compute in Hns. injection Hns as <-. vm_compute in Habs. discriminate Habs.
Qed.
